(** * AlumniVerse Pro: the alumni matching and ranking engine

    A shallow embedding of the scoring code of

      - [src/lib/ai/alumniMatcher.ts]  (classes [AlumniMatchingEngine] and
        [IntelligentMatchingEngine]), and
      - [src/app/api/ai/match/route.ts] (the [/api/ai/match] route),

    followed by the properties claimed of them and by further properties
    of the same code: the order of the results on the program's own
    numbers, bounds and symmetries of the scores, the caches, the edge
    cases of the ranking and the shape of the route's response.

    JavaScript numbers.  Every function is written once, over an interface
    [Number] of the arithmetic it uses.  Two implementations are given:

      - [JSNumber], IEEE-754 binary64 with round-to-nearest-even (Rocq's
        primitive floats): the arithmetic the program really runs on.
        Everything computes, NaN and the infinities included;
      - [RealNumber], exact real arithmetic: the arithmetic in which the
        intervals and the monotonicity statements of the specification are
        phrased.  It has no NaN; it agrees with the program wherever no
        rounding, overflow or division by zero takes place.

    JavaScript strings are modelled by [string]: sequences of code units
    below 256 (the Latin-1 range), on which [toLowerCase] and [trim] are
    given in full. *)

From Stdlib Require Import ZArith List Bool Ascii String Lia QArith.
From Stdlib Require Import Floats.
From Stdlib Require Import Reals Lra.
From Stdlib Require Import Permutation Sorted.
From Stdlib Require Import DecimalString.
Import ListNotations.

Set Warnings "-inexact-float".
Local Open Scope Z_scope.
Local Open Scope string_scope.
Local Open Scope list_scope.

(* ================================================================== *)
(** * Numbers *)
(* ================================================================== *)

Declare Scope num_scope.
Delimit Scope num_scope with num.

(** The operations of JavaScript's [number] the matching code uses. *)
Class Number (num : Type) : Type := {
  nadd : num -> num -> num;
  nsub : num -> num -> num;
  nmul : num -> num -> num;
  ndiv : num -> num -> num;
  Math_sqrt : num -> num;
  Math_min : num -> num -> num;
  Math_max : num -> num -> num;
  Math_abs : num -> num;
  nltb : num -> num -> bool;      (* a < b   *)
  nleb : num -> num -> bool;      (* a <= b  *)
  neqb : num -> num -> bool;      (* a === b *)
  of_Z : Z -> num                 (* an integer value, as array lengths are *)
}.

Infix "+" := nadd : num_scope.
Infix "-" := nsub : num_scope.
Infix "*" := nmul : num_scope.
Infix "/" := ndiv : num_scope.
Infix "<?" := nltb : num_scope.
Infix "<=?" := nleb : num_scope.
Infix "=?" := neqb : num_scope.

Section NumberOps.
Context {num : Type} {N : Number num}.

(** A decimal literal of the source, such as [0.3]: the quotient of two
    small integers, which IEEE division rounds as the parser does. *)
Definition lit (q : Q) : num := (of_Z (Qnum q) / of_Z (Zpos (Qden q)))%num.

Definition of_nat (n : nat) : num := of_Z (Z.of_nat n).

(** [a > b] and [a >= b] are [b < a] and [b <= a]. *)
Definition ngtb (a b : num) : bool := (b <? a)%num.
Definition ngeb (a b : num) : bool := (b <=? a)%num.

(** [NaN], as [0 / 0] computes it. *)
Definition NaN : num := (of_Z 0 / of_Z 0)%num.

(** Truthiness of a number: [0], [-0] and [NaN] are falsy. *)
Definition truthy (x : num) : bool := (x =? x)%num && negb (x =? of_Z 0)%num.

(** [x || d] on an optional number ([undefined] is falsy). *)
Definition num_or (x : option num) (d : num) : num :=
  match x with
  | Some v => if truthy v then v else d
  | None => d
  end.
End NumberOps.

Arguments lit {num N} q%_Q.

Infix ">?" := ngtb (at level 70, no associativity) : num_scope.
Infix ">=?" := ngeb (at level 70, no associativity) : num_scope.

(** ** IEEE-754 binary64 *)

Module Float64.
Local Open Scope float_scope.

Definition of_Z (z : Z) : float :=
  match z with
  | Z0 => 0
  | Zpos _ => PrimFloat.of_uint63 (Uint63.of_Z z)
  | Zneg p => - PrimFloat.of_uint63 (Uint63.of_Z (Zpos p))
  end.

(** [Math.min]: NaN if either argument is NaN, and [-0] below [+0]. *)
Definition min (a b : float) : float :=
  if PrimFloat.is_nan a then a
  else if PrimFloat.is_nan b then b
  else if a <? b then a
  else if b <? a then b
  else if PrimFloat.get_sign a then a else b.

Definition max (a b : float) : float :=
  if PrimFloat.is_nan a then a
  else if PrimFloat.is_nan b then b
  else if a <? b then b
  else if b <? a then a
  else if PrimFloat.get_sign a then b else a.
End Float64.

#[export] Instance JSNumber : Number float := {
  nadd := PrimFloat.add;
  nsub := PrimFloat.sub;
  nmul := PrimFloat.mul;
  ndiv := PrimFloat.div;
  Math_sqrt := PrimFloat.sqrt;
  Math_min := Float64.min;
  Math_max := Float64.max;
  Math_abs := PrimFloat.abs;
  nltb := PrimFloat.ltb;
  nleb := PrimFloat.leb;
  neqb := PrimFloat.eqb;
  of_Z := Float64.of_Z
}.

(** ** Exact real arithmetic *)

Module Exact.
Definition ltb (a b : R) : bool := if Rlt_dec a b then true else false.
Definition leb (a b : R) : bool := if Rle_dec a b then true else false.
Definition eqb (a b : R) : bool := if Req_dec_T a b then true else false.
End Exact.

#[export] Instance RealNumber : Number R := {
  nadd := Rplus;
  nsub := Rminus;
  nmul := Rmult;
  ndiv := Rdiv;
  Math_sqrt := sqrt;
  Math_min := Rmin;
  Math_max := Rmax;
  Math_abs := Rabs;
  nltb := Exact.ltb;
  nleb := Exact.leb;
  neqb := Exact.eqb;
  of_Z := IZR
}.

(* ================================================================== *)
(** * Strings and arrays *)
(* ================================================================== *)

Module JS.

(** ** Strings *)

Definition charCode (c : ascii) : Z := Z.of_N (N_of_ascii c).

(** [String.prototype.toLowerCase] on the Latin-1 range: [A]-[Z], and
    [0xC0]-[0xDE] except the multiplication sign [0xD7]. *)
Definition lowerChar (c : ascii) : ascii :=
  let n := charCode c in
  if ((65 <=? n)%Z && (n <=? 90)%Z)
     || ((192 <=? n)%Z && (n <=? 222)%Z && negb (n =? 215)%Z)
  then ascii_of_N (Z.to_N (n + 32)) else c.

Fixpoint toLowerCase (s : string) : string :=
  match s with
  | EmptyString => EmptyString
  | String c r => String (lowerChar c) (toLowerCase r)
  end.

(** White space as [trim] and the regular expression class [\s] see it:
    TAB, LF, VT, FF, CR, SPACE and NBSP. *)
Definition isSpace (c : ascii) : bool :=
  let n := charCode c in
  ((9 <=? n)%Z && (n <=? 13)%Z) || (n =? 32)%Z || (n =? 160)%Z.

Fixpoint trimStart (s : string) : string :=
  match s with
  | String c r => if isSpace c then trimStart r else s
  | EmptyString => EmptyString
  end.

(** [trimEnd]: a character is kept when it is not white space or when
    something remains after it. *)
Fixpoint trimEnd (s : string) : string :=
  match s with
  | EmptyString => EmptyString
  | String c r =>
      match trimEnd r with
      | EmptyString => if isSpace c then EmptyString else String c EmptyString
      | r' => String c r'
      end
  end.

Definition trim (s : string) : string := trimEnd (trimStart s).

Fixpoint startsWith (s p : string) : bool :=
  match p, s with
  | EmptyString, _ => true
  | String _ _, EmptyString => false
  | String a p', String b s' => Ascii.eqb a b && startsWith s' p'
  end.

(** [s.includes(sub)]. *)
Fixpoint includes (s sub : string) : bool :=
  startsWith s sub ||
  match s with
  | EmptyString => false
  | String _ r => includes r sub
  end.

(** [s.split(sep)] for a one-character separator: [cur] holds the
    characters of the piece being read. *)
Fixpoint split_at (sep : ascii -> bool) (cur : string) (s : string) : list string :=
  match s with
  | EmptyString => [cur]
  | String c r =>
      if sep c then cur :: split_at sep EmptyString r
      else split_at sep (cur ++ String c EmptyString)%string r
  end.

Definition split_comma (s : string) : list string :=
  split_at (fun c => Ascii.eqb c ","%char) EmptyString s.

(** [s.split(/\s+/)]: a run of white space is one separator. *)
Fixpoint split_ws (cur : string) (inrun : bool) (s : string) : list string :=
  match s with
  | EmptyString => [cur]
  | String c r =>
      if isSpace c
      then (if inrun then split_ws cur true r else cur :: split_ws EmptyString true r)
      else split_ws (cur ++ String c EmptyString)%string false r
  end.

Definition split_spaces (s : string) : list string := split_ws EmptyString false s.

(** [s.split(re)] for a regular expression [re] that matches a run of one
    or more separator characters, such as [/[,\s]+/]. *)
Fixpoint split_run (sep : ascii -> bool) (cur : string) (inrun : bool) (s : string)
  : list string :=
  match s with
  | EmptyString => [cur]
  | String c r =>
      if sep c
      then (if inrun then split_run sep cur true r
            else cur :: split_run sep EmptyString true r)
      else split_run sep (cur ++ String c EmptyString)%string false r
  end.

(** [s.split(/[,\s]+/)]. *)
Definition split_commas_spaces (s : string) : list string :=
  split_run (fun c => Ascii.eqb c ","%char || isSpace c) EmptyString false s.

(** [`${n}`] for an integer [n]. *)
Definition Number_toString (n : Z) : string := NilZero.string_of_int (Z.to_int n).

(** [arr.join(sep)]. *)
Fixpoint join (sep : string) (l : list string) : string :=
  match l with
  | [] => EmptyString
  | [x] => x
  | x :: r => (x ++ sep ++ join sep r)%string
  end.

(** [s || d] on an optional string ([undefined] and [''] are falsy). *)
Definition str_or (s : option string) (d : string) : string :=
  match s with
  | Some EmptyString | None => d
  | Some v => v
  end.

Definition nonEmpty (s : string) : bool :=
  match s with EmptyString => false | _ => true end.

(** [`${s}`] for an optional string. *)
Definition str_of (s : option string) : string :=
  match s with Some v => v | None => "undefined" end.

(** ** Arrays *)

Definition str_in (x : string) (l : list string) : bool :=
  existsb (String.eqb x) l.

(** [new Set(arr)]: the elements of [arr], each once, in the order in which
    they first occur. *)
Definition Set_of (l : list string) : list string :=
  fold_left (fun seen w => if str_in w seen then seen else seen ++ [w]) l [].

(** [arr.slice(0, end)] for an integer [end]: a negative [end] counts
    from the end of the array. *)
Definition slice0 {A} (l : list A) (e : Z) : list A :=
  if (e <? 0)%Z then firstn (Z.to_nat (Z.max (Z.of_nat (List.length l) + e) 0)) l
  else firstn (Z.to_nat e) l.

(** [arr.sort(cmp)]: the sort is stable.  [after y x] says that the
    comparator puts [y] after [x] ([cmp(y, x) > 0]); an element is
    inserted behind every element that need not come after it. *)
Section Sort.
Context {A : Type} (after : A -> A -> bool).

Fixpoint insert (x : A) (l : list A) : list A :=
  match l with
  | [] => [x]
  | y :: r => if after y x then x :: y :: r else y :: insert x r
  end.

Definition sort (l : list A) : list A :=
  fold_left (fun acc x => insert x acc) l [].
End Sort.

End JS.


(* ================================================================== *)
(** * The data model ([src/types/index.ts]) *)
(* ================================================================== *)

(** [Skill.level].  The four level names, compared as strings, come in the
    order Advanced < Beginner < Expert < Intermediate. *)
Inductive SkillLevel := Beginner | Intermediate | Advanced | Expert.

Definition level_rank (l : SkillLevel) : Z :=
  match l with Advanced => 0 | Beginner => 1 | Expert => 2 | Intermediate => 3 end.

(** [a.localeCompare(b) > 0] on level names. *)
Definition level_gtb (a b : SkillLevel) : bool := (level_rank b <? level_rank a)%Z.

Record Skill := mkSkill {
  skill_name : string;
  skill_level : SkillLevel
}.

Inductive CriterionType :=
  career_similarity | skill_complement | geographic_proximity | mentorship_fit.

Section DataModel.
Context {num : Type}.

(** The fields of [AlumniProfile] the matching code reads.  An optional
    field ([?] in the interface) is [None] when the object has no such
    key.  [skills] is [None] for a record that reaches the engine without
    its [skills] array: reading [skills.map] then raises a TypeError. *)
Record AlumniProfile := mkAlumni {
  a_id : string;
  a_institution_location : option string;   (* user.institution?.location *)
  a_department : string;
  currentPosition : option string;
  currentCompany : option string;
  industry : option string;
  workLocation : option string;
  yearsExperience : option num;
  a_skills : option (list Skill);
  isMentor : bool;
  mentorCategories : list string
}.

Record StudentProfile := mkStudent {
  s_id : string;
  s_institution_location : option string;   (* user?.institution?.location *)
  s_department : string;
  s_skills : option (list Skill);
  careerInterests : list string;
  isSeekingMentorship : bool
}.

(** [StudentProfile | AlumniProfile]. *)
Inductive Profile :=
| Student (s : StudentProfile)
| Alumni (a : AlumniProfile).

Definition department (p : Profile) : string :=
  match p with Student s => s_department s | Alumni a => a_department a end.

Definition skills (p : Profile) : option (list Skill) :=
  match p with Student s => s_skills s | Alumni a => a_skills a end.

Record MatchCriteria := mkCriterion {
  c_type : CriterionType;
  weight : num
}.

(** A reason string.  The one reason that prints a number keeps the
    number: [`Excellent mentorship match - ${years}+ years experience`]. *)
Inductive Reason :=
| ReasonText (s : string)
| ReasonMentorship (years : option num).

(** [aiInsights]: the entries of the [insights] array of
    [getMockInsights] that were chosen (joined by a space), the text the
    chat completion returned, or one of the two fixed sentences. *)
Inductive Insight :=
| InsightTemplates (chosen : list nat)
| InsightRemote (content : string)
| InsightText (s : string).

Record AlumniMatch := mkMatch {
  alumni : AlumniProfile;
  score : num;
  reasons : list Reason;
  matchTypes : list MatchCriteria;
  aiInsights : Insight
}.

(** What lies outside the engine: the environment variable that selects
    the demo mode, the two OpenAI end points and [Math.random].  Each
    consultation is numbered, so that two calls need not agree.  [None]
    is a call that throws. *)
Record Env := mkEnv {
  demo_key : bool;          (* NEXT_PUBLIC_OPENAI_API_KEY === 'demo-key' *)
  embeddings_create : nat -> string -> option (list num);
  chat_create : nat -> option (option string);
  Math_random : nat -> num
}.

(** The mutable state a call works on: the [embeddings] map of the
    engine, the objects of the [availableAlumni] array (an alumni object
    is named by its position in the array), and the number of
    consultations of the environment so far. *)
Record State := mkState {
  embeddings : list (string * list num);
  objects : list AlumniProfile;
  tick : nat
}.
End DataModel.

Arguments AlumniProfile : clear implicits.
Arguments StudentProfile : clear implicits.
Arguments Profile : clear implicits.
Arguments MatchCriteria : clear implicits.
Arguments Reason : clear implicits.
Arguments AlumniMatch : clear implicits.
Arguments Env : clear implicits.
Arguments State : clear implicits.

(* ================================================================== *)
(** * Computations that may throw and that change the state *)
(* ================================================================== *)

Inductive Outcome (A : Type) :=
| Returned (a : A)
| Thrown.                       (* a TypeError escaped *)
Arguments Returned {A} a.
Arguments Thrown {A}.

Definition M (S A : Type) : Type := S -> Outcome A * S.

Definition ret {S A} (a : A) : M S A := fun s => (Returned a, s).
Definition throw {S A} : M S A := fun s => (Thrown, s).
Definition bind {S A B} (m : M S A) (k : A -> M S B) : M S B :=
  fun s => match m s with
           | (Returned a, s') => k a s'
           | (Thrown, s') => (Thrown, s')
           end.
(** [try { m } catch { h }]: what [m] did to the state stays done. *)
Definition try_catch {S A} (m : M S A) (h : M S A) : M S A :=
  fun s => match m s with
           | (Returned a, s') => (Returned a, s')
           | (Thrown, s') => h s'
           end.
Definition get {S} : M S S := fun s => (Returned s, s).
Definition put {S} (s : S) : M S unit := fun _ => (Returned tt, s).
(** An optional value that must be there for the code to go on. *)
Definition defined {S A} (o : option A) : M S A :=
  match o with Some a => ret a | None => throw end.

Notation "x <- m ;; k" := (bind m (fun x => k))
  (at level 61, m at next level, right associativity).
Notation "' p <- m ;; k" := (bind m (fun x => let p := x in k))
  (at level 61, p pattern, m at next level, right associativity).

(** [for (const x of l) acc = body(acc, x)]. *)
Fixpoint for_each {S A B} (l : list A) (acc : B) (body : B -> A -> M S B) : M S B :=
  match l with
  | [] => ret acc
  | x :: r => acc' <- body acc x ;; for_each r acc' body
  end.

(* ================================================================== *)
(** * [AlumniMatchingEngine] ([src/lib/ai/alumniMatcher.ts]) *)
(* ================================================================== *)

Module AlumniMatchingEngine.
Section Engine.
Context {num : Type} {N : Number num}.
Local Open Scope num_scope.

Local Abbreviation AlumniProfile := (AlumniProfile num).
Local Abbreviation Profile := (Profile num).
Local Abbreviation MatchCriteria := (MatchCriteria num).
Local Abbreviation AlumniMatch := (AlumniMatch num).
Local Abbreviation Env := (Env num).
Local Abbreviation State := (State num).
Local Abbreviation M := (M State).

(** ** Embeddings *)

(** [hash & hash]: the value as a signed 32-bit integer. *)
Definition toInt32 (z : Z) : Z := ((z + 2^31) mod 2^32 - 2^31)%Z.

(** [simpleHash]: [hash = ((hash << 5) - hash) + char; hash = hash & hash]
  for each code unit, then [Math.abs]. *)
Definition simpleHash_step (hash : Z) (c : ascii) : Z :=
toInt32 (toInt32 (hash * 32) - hash + JS.charCode c)%Z.

Fixpoint simpleHash_loop (hash : Z) (str : string) : Z :=
match str with
| EmptyString => hash
| String c r => simpleHash_loop (simpleHash_step hash c) r
end.

Definition simpleHash (str : string) : Z := Z.abs (simpleHash_loop 0 str).

(** [embedding.push((hash + i) % 1000 / 1000 - 0.5)] for [i] below 100. *)
Definition mockEntry (hash : Z) (i : nat) : num :=
of_Z ((hash + Z.of_nat i) mod 1000) / of_Z 1000 - lit 0.5.

Definition getMockEmbedding (text : string) : list num :=
let hash := simpleHash text in
map (mockEntry hash) (seq 0 100).

(** [parts.filter(Boolean).join(' ')]; [skills.map] throws on a record
  without skills. *)
Definition createProfileText (profile : Profile) : option string :=
match skills profile with
| None => None
| Some sk =>
    let parts := [department profile; JS.join " " (map skill_name sk)] in
    let parts :=
      match profile with
      | Student s => parts ++ [JS.join " " (careerInterests s)]
      | Alumni _ => parts
      end in
    let parts :=
      match profile with
      | Alumni a =>
          match currentPosition a with
          | Some pos => parts ++ [JS.str_or (Some pos) ""; JS.str_or (industry a) ""]
          | None => parts
          end
      | Student _ => parts
      end in
    Some (JS.join " " (filter JS.nonEmpty parts))
end.

Definition next_tick : M nat :=
fun s => (Returned (tick s), mkState (embeddings s) (objects s) (S (tick s))).

(** The body of the [try] of [generateProfileEmbedding]. *)
Definition requestEmbedding (env : Env) (profile : Profile) : M (list num) :=
profileText <- defined (createProfileText profile) ;;
if demo_key env then ret (getMockEmbedding profileText)
else
  t <- next_tick ;;
  defined (embeddings_create env t profileText).

(** [generateProfileEmbedding]: whatever goes wrong inside is caught
    there, and the embedding of the text ['fallback'] is returned. *)
Definition generateProfileEmbedding (env : Env) (profile : Profile) : M (list num) :=
try_catch (requestEmbedding env profile) (ret (getMockEmbedding "fallback")).

Fixpoint Map_get {V} (m : list (string * V)) (k : string) : option V :=
match m with
| [] => None
| (k', v) :: r => if String.eqb k k' then Some v else Map_get r k
end.

Fixpoint Map_set {V} (m : list (string * V)) (k : string) (v : V) : list (string * V) :=
match m with
| [] => [(k, v)]
| (k', v') :: r => if String.eqb k k' then (k, v) :: r else (k', v') :: Map_set r k v
end.

Definition getAlumniEmbedding (env : Env) (alumni : AlumniProfile) : M (list num) :=
let key := ("alumni_" ++ a_id alumni)%string in
s <- get ;;
match Map_get (embeddings s) key with
| Some e => ret e
| None =>
    embedding <- generateProfileEmbedding env (Alumni alumni) ;;
    s <- get ;;
    _ <- put (mkState (Map_set (embeddings s) key embedding) (objects s) (tick s)) ;;
    ret embedding
end.

(** The loop of [calculateCosineSimilarity]. *)
Fixpoint cosine_loop (a b : list num) (acc : num * num * num) : num * num * num :=
match a, b with
| x :: a', y :: b' =>
    let '(dotProduct, normA, normB) := acc in
    cosine_loop a' b' (dotProduct + x * y, normA + x * x, normB + y * y)
| _, _ => acc
end.

Definition calculateCosineSimilarity (a b : list num) : num :=
if negb (Nat.eqb (List.length a) (List.length b)) then of_Z 0
else
  let '(dotProduct, normA, normB) := cosine_loop a b (of_Z 0, of_Z 0, of_Z 0) in
  dotProduct / (Math_sqrt normA * Math_sqrt normB).

(** ** The four criteria *)

Definition calculateCareerSimilarity (seeker : Profile) (alumni : AlumniProfile) : num :=
let score := of_Z 0 in
let score :=
  if String.eqb (department seeker) (a_department alumni)
  then score + lit 0.4 else score in
let score :=
  match seeker with
  | Student s =>
      let currentRole := JS.str_or (option_map JS.toLowerCase (currentPosition alumni)) "" in
      let industry := JS.str_or (option_map JS.toLowerCase (industry alumni)) "" in
      fold_left
        (fun score interest =>
           if JS.includes currentRole (JS.toLowerCase interest)
              || JS.includes industry (JS.toLowerCase interest)
           then score + lit 0.3 else score)
        (careerInterests s) score
  | Alumni _ => score
  end in
let score :=
  match seeker with
  | Alumni a =>
      match yearsExperience a with
      | Some _ =>
          let expDiff :=
            Math_abs (num_or (yearsExperience a) (of_Z 0)
                      - num_or (yearsExperience alumni) (of_Z 0)) in
          score + Math_max (of_Z 0) (lit 0.3 - expDiff * lit 0.05)
      | None => score
      end
  | Student _ => score
  end in
Math_min score (lit 1.0).

(** [inferNeededSkills].  (The department is taken not to be the name of
  a property every object inherits, such as ['constructor'].) *)
Definition inferNeededSkills (profile : Profile) : list string :=
let dept := JS.toLowerCase (department profile) in
if String.eqb dept "computer science"
then ["react"; "python"; "aws"; "docker"; "kubernetes"]
else if String.eqb dept "business"
then ["excel"; "powerpoint"; "sql"; "tableau"; "salesforce"]
else if String.eqb dept "engineering"
then ["autocad"; "matlab"; "python"; "project management"]
else if String.eqb dept "marketing"
then ["google analytics"; "adobe creative suite"; "social media"; "seo"]
else ["communication"; "leadership"; "problem solving"].

Definition lower_names (sk : list Skill) : list string :=
map (fun s => JS.toLowerCase (skill_name s)) sk.

Definition skillComplement (seeker : Profile) (seekerSkills alumniSkills : list string) : num :=
let overlap := filter (fun skill => JS.str_in skill alumniSkills) seekerSkills in
let overlapRatio :=
  of_nat (List.length overlap) / of_nat (Nat.max (List.length seekerSkills) 1) in
let seekerNeeds := inferNeededSkills seeker in
let complement := filter (fun skill => JS.str_in skill seekerNeeds) alumniSkills in
let complementRatio :=
  of_nat (List.length complement) / of_nat (Nat.max (List.length seekerNeeds) 1) in
overlapRatio * lit 0.4 + complementRatio * lit 0.6.

(** [calculateSkillComplement]; [None] when [skills.map] throws. *)
Definition calculateSkillComplement (seeker : Profile) (alumni : AlumniProfile)
: option num :=
match skills seeker, a_skills alumni with
| Some ss, Some sa => Some (skillComplement seeker (lower_names ss) (lower_names sa))
| _, _ => None
end.

Definition extractLocation (profile : Profile) : string :=
match profile with
| Alumni a =>
    match workLocation a with
    | Some w => JS.str_or (Some w) ""
    | None => JS.str_or (a_institution_location a) ""
    end
| Student s => JS.str_or (s_institution_location s) ""
end.

Definition location_parts (loc : string) : list string :=
map (fun p => JS.toLowerCase (JS.trim p)) (JS.split_comma loc).

Definition calculateGeographicProximity (seeker : Profile) (alumni : AlumniProfile) : num :=
let seekerLocation := extractLocation seeker in
let alumniLocation := JS.str_or (workLocation alumni) "" in
if negb (JS.nonEmpty seekerLocation) || negb (JS.nonEmpty alumniLocation) then of_Z 0
else if String.eqb (JS.toLowerCase seekerLocation) (JS.toLowerCase alumniLocation)
then lit 1.0
else
  let seekerParts := location_parts seekerLocation in
  let alumniParts := location_parts alumniLocation in
  let commonParts :=
    filter (fun part =>
              existsb (fun ap => JS.includes ap part || JS.includes part ap) alumniParts)
           seekerParts in
  if (0 <? List.length commonParts)%nat then lit 0.7 else lit 0.0.

(** The three conditions of [calculateMentorshipFit] that add to the
  base score. *)
Definition seeksMentorship (seeker : Profile) : bool :=
match seeker with
| Student s => isSeekingMentorship s
| Alumni _ => false
end.

Definition experienceGap (seeker : Profile) (alumni : AlumniProfile) : num :=
let seekerExp :=
  match seeker with
  | Alumni a => match yearsExperience a with
                | Some _ => num_or (yearsExperience a) (of_Z 0)
                | None => of_Z 0
                end
  | Student _ => of_Z 0
  end in
num_or (yearsExperience alumni) (of_Z 0) - seekerExp.

Definition optimalGap (seeker : Profile) (alumni : AlumniProfile) : bool :=
let expGap := experienceGap seeker alumni in
(expGap >=? of_Z 3) && (expGap <=? of_Z 15).

Definition categoriesAlign (seeker : Profile) (alumni : AlumniProfile) : bool :=
(0 <? List.length (mentorCategories alumni))%nat &&
let seekerInterests :=
  match seeker with
  | Student s => careerInterests s
  | Alumni a => [a_department a]
  end in
existsb (fun category =>
           existsb (fun interest =>
                      JS.includes (JS.toLowerCase category) (JS.toLowerCase interest)
                      || JS.includes (JS.toLowerCase interest) (JS.toLowerCase category))
                   seekerInterests)
        (mentorCategories alumni).

Definition calculateMentorshipFit (seeker : Profile) (alumni : AlumniProfile) : num :=
if negb (isMentor alumni) then of_Z 0
else
  let score := lit 0.5 in
  let score := if seeksMentorship seeker then score + lit 0.3 else score in
  let score := if optimalGap seeker alumni then score + lit 0.2 else score in
  let score := if categoriesAlign seeker alumni then score + lit 0.2 else score in
  Math_min score (lit 1.0).

(** ** One candidate *)

(** [getTopSkills]: [skills.sort(...)] sorts the array of the alumni object
    itself, by level name, descending; the result is the first three
    names.  Returned: the array as it is left, and the names. *)
Definition getTopSkills (sk : list Skill) : list Skill * list string :=
let sorted := JS.sort (fun a b => level_gtb (skill_level b) (skill_level a)) sk in
(sorted, map skill_name (firstn 3 sorted)).

Definition getObject (i : nat) : M AlumniProfile :=
s <- get ;; defined (nth_error (objects s) i).

Fixpoint list_set {A} (l : list A) (i : nat) (x : A) : list A :=
match l, i with
| [], _ => []
| _ :: r, O => x :: r
| y :: r, S i' => y :: list_set r i' x
end.

(** The alumni object, its [skills] array replaced. *)
Definition with_skills (alumni : AlumniProfile) (sk : option (list Skill)) : AlumniProfile :=
mkAlumni (a_id alumni) (a_institution_location alumni) (a_department alumni)
  (currentPosition alumni) (currentCompany alumni) (industry alumni)
  (workLocation alumni) (yearsExperience alumni) sk
  (isMentor alumni) (mentorCategories alumni).

Definition setSkills (i : nat) (sk : list Skill) : M unit :=
s <- get ;;
alumni <- defined (nth_error (objects s) i) ;;
put (mkState (embeddings s) (list_set (objects s) i (with_skills alumni (Some sk))) (tick s)).

(** [Math.floor(x)] as an index into an array of length [n], for [0 <= x]:
    the number of [k] in [1..n] with [k <= x]. *)
Definition floor_index (x : num) (n : nat) : nat :=
List.length (filter (fun k => of_nat k <=? x) (seq 1 n)).

Definition getMockInsights (env : Env) (score : num) : M Insight :=
if score >? lit 0.8 then ret (InsightTemplates [0; 1]%nat)
else if score >? lit 0.6 then
  t <- next_tick ;;
  ret (InsightTemplates [floor_index (Math_random env t * of_Z 3) 3])
else
  t <- next_tick ;;
  ret (InsightTemplates [floor_index (Math_random env t * of_Z 5) 5]).

(** [generateMatchInsights].  Building the prompt reads [seeker.skills.map]
    and [alumni.skills.map]; that and the completion call are inside the
    [try]. *)
Definition generateMatchInsights (env : Env) (seeker : Profile) (alumni : AlumniProfile)
  (score : num) : M Insight :=
try_catch
  (if demo_key env then getMockInsights env score
   else
     _ <- defined (skills seeker) ;;
     _ <- defined (a_skills alumni) ;;
     t <- next_tick ;;
     response <- defined (chat_create env t) ;;
     ret match response with
         | Some (String c r) => InsightRemote (String c r)
         | _ => InsightText "Great potential for career growth and networking."
         end)
  (getMockInsights env score).

(** The running values of the loop over the criteria. *)
Record Tally := mkTally {
  totalScore : num;
  totalWeight : num;
  t_reasons : list (Reason num);
  t_matchTypes : list MatchCriteria
}.

Definition noted (t : Tally) (score : num) (criterion : MatchCriteria)
  (notable : bool) (reason : Reason num) : Tally :=
let '(rs, ts) :=
  if notable then (t_reasons t ++ [reason], t_matchTypes t ++ [criterion])
  else (t_reasons t, t_matchTypes t) in
mkTally (totalScore t + score * weight criterion) (totalWeight t + weight criterion) rs ts.

(** The body of [for (const criterion of criteria)]; [i] names the alumni
    object. *)
Definition criterion_step (seeker : Profile) (i : nat) (t : Tally)
  (criterion : MatchCriteria) : M Tally :=
alumni <- getObject i ;;
match c_type criterion with
| career_similarity =>
    let score := calculateCareerSimilarity seeker alumni in
    ret (noted t score criterion (score >? lit 0.7)
           (ReasonText ("Strong career alignment in "
                        ++ JS.str_or (industry alumni) (a_department alumni))))
| skill_complement =>
    score <- defined (calculateSkillComplement seeker alumni) ;;
    if score >? lit 0.6 then
      sk <- defined (a_skills alumni) ;;
      let '(sorted, top) := getTopSkills sk in
      _ <- setSkills i sorted ;;
      ret (noted t score criterion true
             (ReasonText ("Complementary skills in " ++ JS.join ", " top)))
    else ret (noted t score criterion false (ReasonText ""))
| geographic_proximity =>
    let score := calculateGeographicProximity seeker alumni in
    ret (noted t score criterion (score >? lit 0.8)
           (ReasonText ("Both located in "
                        ++ JS.str_or (workLocation alumni) "similar area")))
| mentorship_fit =>
    let score := calculateMentorshipFit seeker alumni in
    ret (noted t score criterion ((score >? lit 0.7) && isMentor alumni)
           (ReasonMentorship (yearsExperience alumni)))
end.

(** The score of [calculateMatch], from the totals of the loop and the
    semantic similarity. *)
Definition finalScore (totalScore totalWeight semanticSimilarity : num) : num :=
if totalWeight >? of_Z 0
then (totalScore / totalWeight) * lit 0.7 + semanticSimilarity * lit 0.3
else semanticSimilarity.

Definition calculateMatch (env : Env) (seeker : Profile) (i : nat)
  (criteria : list MatchCriteria) (seekerEmbedding : list num) : M AlumniMatch :=
t <- for_each criteria (mkTally (of_Z 0) (of_Z 0) [] []) (criterion_step seeker i) ;;
alumni <- getObject i ;;
alumniEmbedding <- getAlumniEmbedding env alumni ;;
let semanticSimilarity := calculateCosineSimilarity seekerEmbedding alumniEmbedding in
let finalScore := finalScore (totalScore t) (totalWeight t) semanticSimilarity in
aiInsights <- generateMatchInsights env seeker alumni finalScore ;;
ret (mkMatch alumni finalScore (t_reasons t) (t_matchTypes t) aiInsights).

(** ** The ranking *)

Definition getDefaultCriteria : list MatchCriteria :=
[ mkCriterion career_similarity (lit 0.3);
  mkCriterion skill_complement (lit 0.25);
  mkCriterion mentorship_fit (lit 0.25);
  mkCriterion geographic_proximity (lit 0.2) ].

(** [matches.sort((a, b) => b.score - a.score)]: [a] goes after [b] when
    [b.score - a.score > 0]. *)
Definition by_score (a b : AlumniMatch) : bool := (score b - score a) >? of_Z 0.

Definition fallbackMatch (env : Env) (alumni : AlumniProfile) : M AlumniMatch :=
t <- next_tick ;;
ret (mkMatch alumni (lit 0.5 + Math_random env t * lit 0.3)
       [ReasonText "Profile compatibility"; ReasonText "Shared academic background"]
       [mkCriterion career_similarity (lit 1.0)]
       (InsightText "Good potential for professional networking and career insights.")).

(** [getFallbackMatches]: [alumni.slice(0, limit).map(...)], on the alumni
    objects as they are when the exception is caught. *)
Definition getFallbackMatches (env : Env) (limit : Z) : M (list AlumniMatch) :=
s <- get ;;
for_each (JS.slice0 (objects s) limit) []
  (fun acc alumni => m <- fallbackMatch env alumni ;; ret (acc ++ [m])).

(** The body of the [try] of [findMatches]. *)
Definition rank (env : Env) (profile : Profile) (criteria : list MatchCriteria)
  (limit : Z) : M (list AlumniMatch) :=
profileEmbedding <- generateProfileEmbedding env profile ;;
s <- get ;;
matches <- for_each (seq 0 (List.length (objects s))) []
  (fun matches i =>
     m <- calculateMatch env profile i criteria profileEmbedding ;;
     ret (if score m >? lit 0.3 then matches ++ [m] else matches)) ;;
ret (JS.slice0 (JS.sort by_score matches) limit).

(** [findMatches(profile, availableAlumni, criteria, limit)], started with
    the engine's [embeddings] map as [cache] and the environment at its
    [t0]-th consultation.  A parameter left out takes its default. *)
Definition findMatches_in (env : Env) (profile : Profile)
  (criteria : option (list MatchCriteria)) (limit : option Z) : M (list AlumniMatch) :=
let criteria := match criteria with Some c => c | None => getDefaultCriteria end in
let limit := match limit with Some l => l | None => 10%Z end in
try_catch (rank env profile criteria limit) (getFallbackMatches env limit).

Definition findMatches (env : Env) (cache : list (string * list num)) (t0 : nat)
  (profile : Profile) (availableAlumni : list AlumniProfile)
  (criteria : option (list MatchCriteria)) (limit : option Z)
  : Outcome (list AlumniMatch) :=
fst (findMatches_in env profile criteria limit (mkState cache availableAlumni t0)).

(** [loadMockEmbeddings]: the map of a freshly constructed engine. *)
Definition loadMockEmbeddings : list (string * list num) :=
fold_left (fun m profile => Map_set m profile (getMockEmbedding profile))
  [ "computer science software engineer"; "business marketing manager";
    "engineering project manager"; "data science analyst" ] [].

End Engine.
End AlumniMatchingEngine.

(* ================================================================== *)
(** * [IntelligentMatchingEngine] ([src/lib/ai/alumniMatcher.ts]) *)
(* ================================================================== *)

Module IntelligentMatchingEngine.
Section Engine.
Context {num : Type} {N : Number num}.
Local Open Scope num_scope.

(** [MatchingContext.context]. *)
Inductive ContextKind := networking | mentorship | career_guidance | collaboration.

Record MatchingContext := mkContext {
  userProfile : Profile num;
  context : ContextKind
}.

Definition is_mentorship (k : ContextKind) : bool :=
match k with mentorship => true | _ => false end.

Definition calculateMentorshipFit (ctx : MatchingContext)
  (candidateProfile : AlumniProfile num) : num :=
if negb (is_mentorship (context ctx)) then lit 0.5
else if negb (isMentor candidateProfile) then lit 0.1
else
  let score := lit 0.7 in
  let score :=
    match userProfile ctx with
    | Student s =>
        let userInterests := map JS.toLowerCase (careerInterests s) in
        let mentorCategories := map JS.toLowerCase (mentorCategories candidateProfile) in
        let alignment :=
          List.length
            (filter (fun interest =>
                       existsb (fun category =>
                                  JS.includes category interest
                                  || JS.includes interest category)
                               mentorCategories)
                    userInterests) in
        score + (of_nat alignment / of_nat (Nat.max (List.length userInterests) 1)) * lit 0.3
    | Alumni _ => score
    end in
  Math_min score (lit 1.0).

(** [calculateCosineSimilarity]; the squares [vectorA[i] ** 2] are taken as
    the products [vectorA[i] * vectorA[i]]. *)
Definition calculateCosineSimilarity (vectorA vectorB : list num) : num :=
if negb (Nat.eqb (List.length vectorA) (List.length vectorB)) then of_Z 0
else
  let '(dotProduct, normA, normB) :=
    AlumniMatchingEngine.cosine_loop vectorA vectorB (of_Z 0, of_Z 0, of_Z 0) in
  if (normA =? of_Z 0) || (normB =? of_Z 0) then of_Z 0
  else dotProduct / (Math_sqrt normA * Math_sqrt normB).

(** ** Skills and places *)

(** [calculateSkillComplementarity]; [None] when [skills.map] throws. *)
Definition calculateSkillComplementarity (userProfile : Profile num)
  (candidateProfile : AlumniProfile num) : option num :=
match skills userProfile, a_skills candidateProfile with
| Some su, Some sc =>
    let userSkills := JS.Set_of (map (fun s => JS.toLowerCase (skill_name s)) su) in
    let candidateSkills := JS.Set_of (map (fun s => JS.toLowerCase (skill_name s)) sc) in
    let overlap :=
      JS.Set_of (filter (fun skill => JS.str_in skill candidateSkills) userSkills) in
    let totalSkills := JS.Set_of (userSkills ++ candidateSkills) in
    let overlapScore :=
      of_nat (List.length overlap) / of_nat (Nat.max (List.length userSkills) 1) in
    let diversityScore :=
      (of_nat (List.length totalSkills) - of_nat (List.length overlap))
      / of_nat (Nat.max (List.length totalSkills) 1) in
    Some ((overlapScore * lit 0.6) + (diversityScore * lit 0.4))
| _, _ => None
end.

(** [a || b] on two optional strings. *)
Definition or_else (a b : option string) : option string :=
match a with
| Some (String c r) => Some (String c r)
| _ => b
end.

(** [extractLocation]: [string | undefined]. *)
Definition extractLocation (profile : Profile num) : option string :=
match profile with
| Alumni a =>
    match workLocation a with
    | Some w => or_else (Some w) (a_institution_location a)
    | None => a_institution_location a
    end
| Student s => s_institution_location s
end.

(** [!location]. *)
Definition missing (location : option string) : bool :=
match location with
| Some (String _ _) => false
| _ => true
end.

Definition calculateGeographicScore (userProfile : Profile num)
  (candidateProfile : AlumniProfile num) : num :=
let userLocation := extractLocation userProfile in
let candidateLocation :=
  or_else (workLocation candidateProfile) (a_institution_location candidateProfile) in
if missing userLocation || missing candidateLocation then lit 0.3
else
  let userLocation := JS.str_or userLocation "" in
  let candidateLocation := JS.str_or candidateLocation "" in
  if String.eqb (JS.toLowerCase userLocation) (JS.toLowerCase candidateLocation)
  then lit 1.0
  else
    let userParts := JS.split_commas_spaces (JS.toLowerCase userLocation) in
    let candidateParts := JS.split_commas_spaces (JS.toLowerCase candidateLocation) in
    let commonParts :=
      List.length (filter (fun part => JS.str_in part candidateParts) userParts) in
    Math_min (of_nat commonParts * lit 0.3) (lit 0.8).

(** ** Profiles, as this engine reads them *)

(** The further fields of an [AlumniProfile] and of a [StudentProfile]
    that this engine reads.  A [StudentProfile] has no [lastActive]. *)
Record AlumniDetails := mkAlumniDetails {
  ad_userId : string;
  ad_firstName : string;               (* user.firstName *)
  ad_lastName : string;                (* user.lastName *)
  ad_graduationYear : Z;
  ad_degreeType : string;
  ad_major : option string;
  ad_bio : option string;
  ad_lastActive : option string        (* [`${lastActive}`], when there is one *)
}.

Record StudentDetails := mkStudentDetails {
  sd_firstName : string;
  sd_lastName : string;
  sd_currentYear : Z;
  sd_expectedGraduation : Z;
  sd_degreeType : string;
  sd_major : option string;
  sd_bio : option string
}.

Inductive Subject :=
| StudentSubject (s : StudentProfile) (d : StudentDetails)
| AlumniSubject (a : AlumniProfile num) (d : AlumniDetails).

Definition profile_of (subject : Subject) : Profile num :=
match subject with
| StudentSubject s _ => Student s
| AlumniSubject a _ => Alumni a
end.

Definition level_name (l : SkillLevel) : string :=
match l with
| Beginner => "Beginner"
| Intermediate => "Intermediate"
| Advanced => "Advanced"
| Expert => "Expert"
end.

(** [if (field) parts.push(`label${field}`)]. *)
Definition labelled (label : string) (field : option string) : list string :=
match field with
| Some (String c r) => [(label ++ String c r)%string]
| _ => []
end.

Definition skills_line (sk : list Skill) : list string :=
if (0 <? List.length sk)%nat
then [("Skills: "
       ++ JS.join ", " (map (fun s => skill_name s ++ " (" ++ level_name (skill_level s) ++ ")")
                            sk))%string]
else [].

(** [createProfileText]; [None] when [skills.length] throws. *)
Definition createProfileText (profile : Subject) : option string :=
match profile with
| AlumniSubject a d =>
    match a_skills a with
    | None => None
    | Some sk =>
        Some (JS.join ". "
                ([ ("Name: " ++ ad_firstName d ++ " " ++ ad_lastName d)%string;
                   ("Department: " ++ a_department a)%string;
                   ("Graduation Year: " ++ JS.Number_toString (ad_graduationYear d))%string;
                   ("Degree: " ++ ad_degreeType d ++ " in "
                    ++ JS.str_or (ad_major d) (a_department a))%string ]
                 ++ labelled "Current Position: " (currentPosition a)
                 ++ labelled "Company: " (currentCompany a)
                 ++ labelled "Industry: " (industry a)
                 ++ labelled "Work Location: " (workLocation a)
                 ++ labelled "Bio: " (ad_bio d)
                 ++ skills_line sk
                 ++ (if isMentor a && (0 <? List.length (mentorCategories a))%nat
                     then [("Mentoring in: " ++ JS.join ", " (mentorCategories a))%string]
                     else [])))
    end
| StudentSubject s d =>
    match s_skills s with
    | None => None
    | Some sk =>
        Some (JS.join ". "
                ([ ("Name: " ++ sd_firstName d ++ " " ++ sd_lastName d)%string;
                   ("Department: " ++ s_department s)%string;
                   ("Current Year: " ++ JS.Number_toString (sd_currentYear d))%string;
                   ("Expected Graduation: "
                    ++ JS.Number_toString (sd_expectedGraduation d))%string;
                   ("Degree: " ++ sd_degreeType d ++ " in "
                    ++ JS.str_or (sd_major d) (s_department s))%string ]
                 ++ labelled "Bio: " (sd_bio d)
                 ++ (if (0 <? List.length (careerInterests s))%nat
                     then [("Career Interests: "
                            ++ JS.join ", " (careerInterests s))%string]
                     else [])
                 ++ skills_line sk))
    end
end.

Definition createCareerSummary (profile : Subject) : string :=
match profile with
| AlumniSubject a d =>
    (ad_degreeType d ++ " in " ++ JS.str_or (ad_major d) (a_department a)
     ++ ", currently " ++ JS.str_of (currentPosition a)
     ++ " at " ++ JS.str_of (currentCompany a)
     ++ " in " ++ JS.str_of (industry a))%string
| StudentSubject s d =>
    ("Current " ++ sd_degreeType d ++ " student in "
     ++ JS.str_or (sd_major d) (s_department s)
     ++ ", interested in " ++ JS.join ", " (careerInterests s))%string
end.

(** ** The services and the cache *)

(** What lies outside the engine, each consultation numbered: the clock,
    the embeddings end point ([None]: the request throws) and the
    completions end point, which is asked to compare two career summaries
    and whose answer is read by [parseFloat] ([None]: the request throws,
    or there is no answer to read). *)
Record Services := mkServices {
  Date_now : nat -> Z;
  create_embedding : nat -> string -> option (list num);
  rate_similarity : nat -> string -> string -> option num
}.

(** The [vectorCache] of the engine, and the number of consultations of
    the services so far. *)
Record Memory := mkMemory {
  vectorCache : list (string * list num);
  consultations : nat
}.

Definition consult : M Memory nat :=
fun s => (Returned (consultations s), mkMemory (vectorCache s) (S (consultations s))).

(** [`${profile.id}_${profile.lastActive || Date.now()}`]: the clock is read
    only when there is no [lastActive]. *)
Definition cacheKey (svc : Services) (profile : Subject) : M Memory string :=
match profile with
| AlumniSubject a d =>
    match ad_lastActive d with
    | Some (String c r) => ret (a_id a ++ "_" ++ String c r)%string
    | _ =>
        t <- consult ;;
        ret (a_id a ++ "_" ++ JS.Number_toString (Date_now svc t))%string
    end
| StudentSubject s _ =>
    t <- consult ;;
    ret (s_id s ++ "_" ++ JS.Number_toString (Date_now svc t))%string
end.

(** [Array(1536).fill(0)]. *)
Definition zeroVector : list num := repeat (of_Z 0) 1536.

Definition generateProfileVector (svc : Services) (profile : Subject) : M Memory (list num) :=
key <- cacheKey svc profile ;;
s <- get ;;
match AlumniMatchingEngine.Map_get (vectorCache s) key with
| Some vector => ret vector
| None =>
    try_catch
      (profileText <- defined (createProfileText profile) ;;
       t <- consult ;;
       vector <- defined (create_embedding svc t profileText) ;;
       s <- get ;;
       _ <- put (mkMemory (AlumniMatchingEngine.Map_set (vectorCache s) key vector)
                   (consultations s)) ;;
       ret vector)
      (ret zeroVector)
end.

(** [isNaN(x)]. *)
Definition isNaN (x : num) : bool := negb (x =? x).

(** [calculateCareerSimilarity]: the answer of the completions end point,
    clamped to [0, 1]; 0.5 when it is not a number or the request fails. *)
Definition calculateCareerSimilarity (svc : Services) (userProfile candidateProfile : Subject)
  : M Memory num :=
try_catch
  (t <- consult ;;
   score <- defined (rate_similarity svc t (createCareerSummary userProfile)
                       (createCareerSummary candidateProfile)) ;;
   ret (if isNaN score then lit 0.5 else Math_max (of_Z 0) (Math_min (of_Z 1) score)))
  (ret (lit 0.5)).

(** ** One candidate *)

(** [MatchScore.matchType]. *)
Inductive MatchType :=
| type_career_similarity | type_skill_complement | type_geographic
| type_interest_based | type_mentorship_fit.

(** [MatchScore]; the candidate's [userId] is [ad_userId] of
    [ms_details]. *)
Record MatchScore := mkMatchScore {
  ms_candidate : AlumniProfile num;
  ms_details : AlumniDetails;
  ms_score : num;
  ms_reasons : list string;
  ms_confidence : num;
  ms_matchType : MatchType
}.

Definition calculateMatchScore (svc : Services) (kind : ContextKind) (user : Subject)
  (userVector candidateVector : list num)
  (candidateProfile : AlumniProfile num) (details : AlumniDetails) : M Memory MatchScore :=
let ctx := mkContext (profile_of user) kind in
let cosineSimilarity := calculateCosineSimilarity userVector candidateVector in
let reasons := [] in
let totalScore := of_Z 0 in
let matchType := type_career_similarity in
careerScore <- calculateCareerSimilarity svc user (AlumniSubject candidateProfile details) ;;
let totalScore := totalScore + careerScore * lit 0.4 in
let '(reasons, matchType) :=
  if careerScore >? lit 0.7
  then (reasons ++ ["Strong career path alignment"], type_career_similarity)
  else (reasons, matchType) in
skillScore <- defined (calculateSkillComplementarity (profile_of user) candidateProfile) ;;
let totalScore := totalScore + skillScore * lit 0.25 in
let reasons :=
  if skillScore >? lit 0.6 then reasons ++ ["Complementary skill sets"] else reasons in
let geoScore := calculateGeographicScore (profile_of user) candidateProfile in
let totalScore := totalScore + geoScore * lit 0.15 in
let '(reasons, matchType) :=
  if geoScore >? lit 0.8
  then (reasons ++ ["Same geographic area"], type_geographic)
  else (reasons, matchType) in
let mentorshipScore := calculateMentorshipFit ctx candidateProfile in
let totalScore := totalScore + mentorshipScore * lit 0.2 in
let '(reasons, matchType) :=
  if mentorshipScore >? lit 0.8
  then (reasons ++ ["Excellent mentorship match"], type_mentorship_fit)
  else (reasons, matchType) in
let totalScore := totalScore + cosineSimilarity * lit 0.1 in
let '(totalScore, reasons) :=
  if is_mentorship kind && isMentor candidateProfile
  then (totalScore + lit 0.2, reasons ++ ["Active mentor"])
  else (totalScore, reasons) in
let confidence :=
  Math_min (totalScore + of_nat (List.length reasons) * lit 0.1) (lit 1.0) in
ret (mkMatchScore candidateProfile details (Math_min totalScore (lit 1.0)) reasons
       confidence matchType).

(** ** The ranking *)

(** [matches.sort((a, b) => b.score - a.score)]. *)
Definition by_score (a b : MatchScore) : bool := (ms_score b - ms_score a) >? of_Z 0.

(** The body of the [try] of [findBestMatches]. *)
Definition rank (svc : Services) (kind : ContextKind) (user : Subject)
  (candidates : list (AlumniProfile num * AlumniDetails)) (limit : Z)
  : M Memory (list MatchScore) :=
userVector <- generateProfileVector svc user ;;
matches <- for_each candidates []
  (fun matches candidate =>
     candidateVector <-
       generateProfileVector svc (AlumniSubject (fst candidate) (snd candidate)) ;;
     score <- calculateMatchScore svc kind user userVector candidateVector
                (fst candidate) (snd candidate) ;;
     ret (if ms_score score >? lit 0.3 then matches ++ [score] else matches)) ;;
ret (JS.slice0 (JS.sort by_score matches) limit).

(** [findBestMatches(context, candidates, limit)], started with the
    engine's [vectorCache] as [cache] and the services at their [t0]-th
    consultation; [limit] is 10 when left out.  Whatever is thrown is
    caught, and the answer is then the empty list. *)
Definition findBestMatches_in (svc : Services) (kind : ContextKind) (user : Subject)
  (candidates : list (AlumniProfile num * AlumniDetails)) (limit : option Z)
  : M Memory (list MatchScore) :=
let limit := match limit with Some l => l | None => 10%Z end in
try_catch (rank svc kind user candidates limit) (ret []).

Definition findBestMatches (svc : Services) (cache : list (string * list num)) (t0 : nat)
  (kind : ContextKind) (user : Subject)
  (candidates : list (AlumniProfile num * AlumniDetails)) (limit : option Z)
  : Outcome (list MatchScore) :=
fst (findBestMatches_in svc kind user candidates limit (mkMemory cache t0)).
End Engine.

End IntelligentMatchingEngine.

(* ================================================================== *)
(** * The match route ([src/app/api/ai/match/route.ts]) *)
(* ================================================================== *)

Module Route.

Record MockAlumnus := mkMock {
  id : string;
  name : string;
  currentPosition : string;
  currentCompany : string;
  industry : string;
  graduationYear : Z;
  skills : list string;
  location : string;
  bio : string;
  isAvailableForMentoring : bool
}.

Definition mockAlumni : list MockAlumnus :=
[ mkMock "1" "Sarah Chen" "Senior Software Engineer" "Google" "Technology" 2018
    ["JavaScript"; "Python"; "Machine Learning"; "Cloud Architecture"]
    "San Francisco, CA"
    "Passionate about AI and full-stack development. Love mentoring new graduates."
    true;
  mkMock "2" "Michael Rodriguez" "Product Manager" "Meta" "Technology" 2019
    ["Product Strategy"; "Data Analysis"; "User Research"; "Agile"]
    "Seattle, WA"
    "Product leader with experience in social platforms and AR/VR."
    true;
  mkMock "3" "Dr. Emily Johnson" "Research Scientist" "Stanford Research Institute"
    "Healthcare" 2016
    ["Biomedical Engineering"; "Data Science"; "Research"; "Publications"]
    "Palo Alto, CA"
    "Researching AI applications in healthcare and medical devices."
    true;
  mkMock "4" "David Park" "Startup Founder" "TechFlow Solutions" "Entrepreneurship" 2017
    ["Leadership"; "Business Strategy"; "Fundraising"; "Product Development"]
    "Austin, TX"
    "Serial entrepreneur focused on B2B SaaS solutions."
    true;
  mkMock "5" "Jessica Wong" "UX Design Lead" "Apple" "Technology" 2020
    ["User Experience"; "Design Systems"; "Prototyping"; "User Research"]
    "Cupertino, CA"
    "Creating intuitive user experiences for consumer products."
    true ].

(** [MatchRequest['studentProfile']]. *)
Record StudentRequest := mkRequest {
  r_name : string;
  major : string;
  r_careerInterests : list string;
  r_skills : list string;
  r_location : string;
  r_isSeekingMentorship : bool;
  r_bio : option string
}.

Section Scoring.
Context {num : Type} {N : Number num}.
Local Open Scope num_scope.

Local Abbreviation MatchingCriteria := (MatchCriteria num).

(** The embeddings end point, as the scoring of one alumnus sees it: the
    answer to its [k]-th request; [None] is a request that throws.  (The
    alumni are scored concurrently, each on its own requests.) *)
Definition Embed : Type := nat -> string -> option (list num).

Definition next_request : M nat nat := fun k => (Returned k, S k).

(** [embedding2[i]] inside the loop over [embedding1]: [undefined] beyond
    the end of [embedding2], which the arithmetic turns into [NaN]. *)
Fixpoint semantic_loop (e1 e2 : list num) (acc : num * num * num) : num * num * num :=
match e1 with
| [] => acc
| x :: e1' =>
    let '(dotProduct, magnitude1, magnitude2) := acc in
    let y := match e2 with y :: _ => y | [] => NaN end in
    semantic_loop e1' (tl e2) (dotProduct + x * y, magnitude1 + x * x, magnitude2 + y * y)
end.

Definition distinct (l : list string) : list string :=
fold_left (fun seen w => if JS.str_in w seen then seen else seen ++ [w]) l [].

Definition calculateSimpleTextSimilarity (text1 text2 : string) : num :=
let words1 := JS.split_spaces (JS.toLowerCase text1) in
let words2 := JS.split_spaces (JS.toLowerCase text2) in
let commonWords := filter (fun word => JS.str_in word words2) words1 in
let totalWords := List.length (distinct (words1 ++ words2)) in
of_nat (List.length commonWords) / of_nat totalWords.

Definition calculateSemanticSimilarity (embed : Embed) (text1 text2 : string) : M nat num :=
try_catch
  (k1 <- next_request ;;
   embedding1 <- defined (embed k1 text1) ;;
   k2 <- next_request ;;
   embedding2 <- defined (embed k2 text2) ;;
   let '(dotProduct, magnitude1, magnitude2) :=
     semantic_loop embedding1 embedding2 (of_Z 0, of_Z 0, of_Z 0) in
   let magnitude1 := Math_sqrt magnitude1 in
   let magnitude2 := Math_sqrt magnitude2 in
   if (magnitude1 =? of_Z 0) || (magnitude2 =? of_Z 0) then ret (of_Z 0)
   else ret (dotProduct / (magnitude1 * magnitude2)))
  (ret (calculateSimpleTextSimilarity text1 text2)).

Definition related (a b : string) : bool := JS.includes a b || JS.includes b a.

Definition calculateSkillsMatch (studentSkills alumniSkills : list string) : num :=
let studentSkillsLower := map JS.toLowerCase studentSkills in
let alumniSkillsLower := map JS.toLowerCase alumniSkills in
let matchingSkills :=
  filter (fun skill => existsb (fun alumniSkill => related alumniSkill skill) alumniSkillsLower)
         studentSkillsLower in
let complementarySkills :=
  filter (fun skill =>
            negb (existsb (fun studentSkill => related studentSkill skill) studentSkillsLower))
         alumniSkillsLower in
let matchScore :=
  of_nat (List.length matchingSkills) / of_nat (Nat.max (List.length studentSkills) 1) in
let complementScore :=
  Math_min (of_nat (List.length complementarySkills) / of_Z 5) (of_Z 1) in
(matchScore * lit 0.4) + (complementScore * lit 0.6).

(** [getState]: the last of the parts between commas, trimmed. *)
Definition getState (loc : string) : string :=
last (map JS.trim (JS.split_comma loc)) EmptyString.

Definition westCoast : list string := ["ca"; "california"; "wa"; "washington"; "or"; "oregon"].
Definition eastCoast : list string := ["ny"; "new york"; "ma"; "massachusetts"; "ct"; "connecticut"].
Definition texas : list string := ["tx"; "texas"].

Definition isWestCoast (state : string) : bool := existsb (fun w => JS.includes state w) westCoast.
Definition isEastCoast (state : string) : bool := existsb (fun e => JS.includes state e) eastCoast.
Definition isTexas (state : string) : bool := existsb (fun t => JS.includes state t) texas.

Definition sameRegion (state1 state2 : string) : bool :=
(isWestCoast state1 && isWestCoast state2)
|| (isEastCoast state1 && isEastCoast state2)
|| (isTexas state1 && isTexas state2).

Definition calculateGeographicProximity (location1 location2 : string) : num :=
let loc1 := JS.toLowerCase location1 in
let loc2 := JS.toLowerCase location2 in
if String.eqb loc1 loc2 then lit 1.0
else
  let state1 := getState loc1 in
  let state2 := getState loc2 in
  if String.eqb state1 state2 then lit 0.7
  else if sameRegion state1 state2 then lit 0.5
  else lit 0.2.

(** [`${studentProfile.major} ${studentProfile.careerInterests.join(' ')}`]
    and [`${alumniProfile.currentPosition} ${alumniProfile.industry}`]. *)
Definition careerText (studentProfile : StudentRequest) : string :=
(major studentProfile ++ " " ++ JS.join " " (r_careerInterests studentProfile))%string.

Definition alumniCareerText (alumniProfile : MockAlumnus) : string :=
(currentPosition alumniProfile ++ " " ++ industry alumniProfile)%string.

Definition criterion_score (embed : Embed) (studentProfile : StudentRequest)
  (alumniProfile : MockAlumnus) (type : CriterionType) : M nat num :=
match type with
| career_similarity =>
    calculateSemanticSimilarity embed (careerText studentProfile)
      (alumniCareerText alumniProfile)
| skill_complement =>
    ret (calculateSkillsMatch (r_skills studentProfile) (skills alumniProfile))
| mentorship_fit =>
    if negb (isAvailableForMentoring alumniProfile)
       || negb (r_isSeekingMentorship studentProfile)
    then ret (of_Z 0)
    else
      let studentBio := JS.str_or (r_bio studentProfile) "" in
      mentorshipScore <- calculateSemanticSimilarity embed studentBio (bio alumniProfile) ;;
      ret (mentorshipScore * lit 0.8 + lit 0.2)
| geographic_proximity =>
    ret (calculateGeographicProximity (r_location studentProfile) (location alumniProfile))
end.

Definition calculateMatchScore_in (embed : Embed) (studentProfile : StudentRequest)
  (alumniProfile : MockAlumnus) (criteria : list MatchingCriteria) : M nat num :=
totalScore <- for_each criteria (of_Z 0)
  (fun totalScore criterion =>
     score <- criterion_score embed studentProfile alumniProfile (c_type criterion) ;;
     ret (totalScore + score * weight criterion)) ;;
ret (Math_min totalScore (lit 1.0)).

(** [calculateMatchScore]: nothing in it throws past its own handlers. *)
Definition calculateMatchScore (embed : Embed) (studentProfile : StudentRequest)
  (alumniProfile : MockAlumnus) (criteria : list MatchingCriteria) : num :=
match fst (calculateMatchScore_in embed studentProfile alumniProfile criteria O) with
| Returned score => score
| Thrown => NaN
end.

Definition has_type (criteria : list MatchingCriteria) (t : CriterionType) : bool :=
existsb (fun c => match c_type c, t with
                  | career_similarity, career_similarity
                  | skill_complement, skill_complement
                  | geographic_proximity, geographic_proximity
                  | mentorship_fit, mentorship_fit => true
                  | _, _ => false
                  end) criteria.

Definition generateMatchReasons (studentProfile : StudentRequest)
  (alumniProfile : MockAlumnus) (criteria : list MatchingCriteria) (totalScore : num)
  : list string :=
let reasons := [] in
let reasons :=
  if has_type criteria career_similarity
     && existsb (fun interest =>
                   JS.includes (JS.toLowerCase (industry alumniProfile)) (JS.toLowerCase interest)
                   || JS.includes (JS.toLowerCase (currentPosition alumniProfile))
                                  (JS.toLowerCase interest))
                (r_careerInterests studentProfile)
  then reasons ++ [("Works in " ++ industry alumniProfile
                    ++ " which aligns with your career interests")%string]
  else reasons in
let reasons :=
  if has_type criteria skill_complement then
    let matchingSkills :=
      filter (fun skill =>
                existsb (fun alumniSkill =>
                           JS.includes (JS.toLowerCase alumniSkill) (JS.toLowerCase skill))
                        (skills alumniProfile))
             (r_skills studentProfile) in
    let reasons :=
      if (0 <? List.length matchingSkills)%nat
      then reasons ++ [("Shares skills in " ++ JS.join ", " (firstn 3 matchingSkills))%string]
      else reasons in
    let newSkills :=
      filter (fun skill =>
                negb (existsb (fun studentSkill =>
                                 JS.includes (JS.toLowerCase studentSkill) (JS.toLowerCase skill))
                              (r_skills studentProfile)))
             (skills alumniProfile) in
    if (0 <? List.length newSkills)%nat
    then reasons ++ [("Can help you learn " ++ JS.join " and " (firstn 2 newSkills))%string]
    else reasons
  else reasons in
let reasons :=
  if has_type criteria geographic_proximity then
    if String.eqb (JS.toLowerCase (r_location studentProfile))
                  (JS.toLowerCase (location alumniProfile))
    then reasons ++ ["Located in the same city"]
    else if calculateGeographicProximity (r_location studentProfile) (location alumniProfile)
            >? lit 0.5
    then reasons ++ ["Located in the same region"]
    else reasons
  else reasons in
let reasons :=
  if isAvailableForMentoring alumniProfile && r_isSeekingMentorship studentProfile
  then reasons ++ ["Available for mentorship"] else reasons in
let reasons :=
  if totalScore >? lit 0.8 then reasons ++ ["Excellent overall compatibility"]
  else if totalScore >? lit 0.6 then reasons ++ ["Strong professional alignment"]
  else reasons in
firstn 4 reasons.

Record Match := mkMatch {
  alumnus : MockAlumnus;
  matchScore : num;
  matchReasons : list string
}.

Inductive Response :=
| BadRequest                       (* status 400 *)
| Success (matches : list Match).  (* data.matches *)

Definition defaultCriteria : list MatchingCriteria :=
[ mkCriterion career_similarity (lit 0.3);
  mkCriterion skill_complement (lit 0.25);
  mkCriterion mentorship_fit (lit 0.25);
  mkCriterion geographic_proximity (lit 0.2) ].

Definition by_matchScore (a b : Match) : bool := (matchScore b - matchScore a) >? of_Z 0.

(** [POST], for a body whose [studentProfile] has the fields of its type;
    [embed i] answers the requests made while alumnus number [i] is
    scored. *)
Definition POST (embed : nat -> Embed) (studentProfile : option StudentRequest)
  (criteria : option (list MatchingCriteria)) (limit : option Z) : Response :=
let criteria := match criteria with Some c => c | None => defaultCriteria end in
let limit := match limit with Some l => l | None => 10%Z end in
match studentProfile with
| None => BadRequest
| Some studentProfile =>
    if negb (JS.nonEmpty (r_name studentProfile)) then BadRequest
    else
      let matches :=
        map (fun '(i, alumni) =>
               let score := calculateMatchScore (embed i) studentProfile alumni criteria in
               mkMatch alumni score
                 (generateMatchReasons studentProfile alumni criteria score))
            (combine (seq 0 (List.length mockAlumni)) mockAlumni) in
      Success (JS.slice0 (JS.sort by_matchScore matches) limit)
end.
End Scoring.

Arguments Match : clear implicits.
Arguments Response : clear implicits.
End Route.

(* ================================================================== *)
(** * Properties *)
(* ================================================================== *)

(** ** The mock embedding *)

Module Import MockEmbeddingFacts.
Import AlumniMatchingEngine.

(** [-0.5 <= x && x < 0.5], as the program would test it. *)
Definition in_unit_band (x : float) : bool :=
((-0.5)%float <=? x)%float && (x <? 0.5)%float.

Lemma mockEntry_mod (hash : Z) (i : nat) :
  mockEntry (N:=JSNumber) hash i
  = mockEntry (N:=JSNumber) ((hash + Z.of_nat i) mod 1000) 0.
Proof.
  unfold mockEntry. rewrite Z.add_0_r, Z.mod_mod by lia. reflexivity.
Qed.

(** All thousand values [(k / 1000) - 0.5], computed. *)
Lemma residues_in_band :
  forallb (fun k => in_unit_band (mockEntry (N:=JSNumber) (Z.of_nat k) 0)) (seq 0 1000) = true.
Proof. vm_compute. reflexivity. Qed.

Lemma mockEntry_in_band (hash : Z) (i : nat) :
  in_unit_band (mockEntry (N:=JSNumber) hash i) = true.
Proof.
  rewrite mockEntry_mod.
  assert (H : (0 <= (hash + Z.of_nat i) mod 1000 < 1000)%Z) by (apply Z.mod_pos_bound; lia).
  set (k := ((hash + Z.of_nat i) mod 1000)%Z) in *.
  pose proof residues_in_band as R.
  rewrite forallb_forall in R.
  specialize (R (Z.to_nat k)).
  rewrite Z2Nat.id in R by lia.
  apply R, in_seq. lia.
Qed.

Lemma getMockEmbedding_length {num} {N : Number num} (text : string) :
  List.length (getMockEmbedding (N:=N) text) = 100%nat.
Proof. unfold getMockEmbedding. rewrite length_map, length_seq. reflexivity. Qed.

(** In demo mode the embedding of a profile is read off the profile alone. *)
Definition demoEmbedding {num} {N : Number num} (profile : Profile num) : list num :=
match createProfileText profile with
| Some text => getMockEmbedding text
| None => getMockEmbedding "fallback"
end.

Lemma generateProfileEmbedding_demo {num} {N : Number num}
  (e : nat -> string -> option (list num)) c r (profile : Profile num) (s : State num) :
  generateProfileEmbedding (mkEnv true e c r) profile s
  = (Returned (demoEmbedding profile), s).
Proof.
  unfold generateProfileEmbedding, requestEmbedding, demoEmbedding.
  unfold try_catch, bind, defined, ret, throw.
  destruct (createProfileText profile); reflexivity.
Qed.
End MockEmbeddingFacts.

(** C8.  The fallback embedding is a function of its text and of nothing
    else: it has 100 entries, each of them in [-0.5, 0.5) in the floating
    point arithmetic of the program, and in demo mode the embedding the
    engine generates for a profile is the same whatever the state of the
    engine, the clock, the OpenAI end points and [Math.random] are. *)
Theorem mock_embedding_deterministic_and_bounded :
  forall text : string,
    List.length (AlumniMatchingEngine.getMockEmbedding (N:=JSNumber) text) = 100%nat
    /\ Forall (fun x => ((-0.5)%float <=? x)%float = true /\ (x <? 0.5)%float = true)
         (AlumniMatchingEngine.getMockEmbedding (N:=JSNumber) text)
    /\ (forall e1 c1 r1 s1 e2 c2 r2 s2 (profile : Profile float),
          fst (AlumniMatchingEngine.generateProfileEmbedding (mkEnv true e1 c1 r1) profile s1)
          = fst (AlumniMatchingEngine.generateProfileEmbedding (mkEnv true e2 c2 r2) profile s2)).
Proof.
  intro text. split; [apply getMockEmbedding_length|]. split.
  - unfold AlumniMatchingEngine.getMockEmbedding.
    apply Forall_forall. intros x Hx. apply in_map_iff in Hx.
    destruct Hx as [i [<- _]].
    pose proof (mockEntry_in_band (AlumniMatchingEngine.simpleHash text) i) as H.
    unfold in_unit_band in H. apply andb_true_iff in H. exact H.
  - intros. rewrite !generateProfileEmbedding_demo. reflexivity.
Qed.

(** The hash of the text the engine falls back on, and the first entries
    of its embedding. *)
Example simpleHash_fallback : AlumniMatchingEngine.simpleHash "fallback" = 761243362%Z.
Proof. reflexivity. Qed.

Example getMockEmbedding_fallback_head :
  firstn 3 (AlumniMatchingEngine.getMockEmbedding (N:=JSNumber) "fallback")
  = [(-0.138)%float; (-0.137)%float; (-0.136)%float].
Proof. vm_compute. reflexivity. Qed.

(** ** Cosine similarity *)

(** C5.  On a vector of zero norm [AlumniMatchingEngine]'s cosine divides
    zero by zero and returns NaN; [IntelligentMatchingEngine]'s, which
    tests the norms first, returns 0 on the same vectors, and so does the
    route's. *)
Theorem cosine_similarity_zero_norm_is_NaN :
  PrimFloat.is_nan
    (AlumniMatchingEngine.calculateCosineSimilarity (N:=JSNumber)
       [0; 0; 0]%float [1; 2; 3]%float) = true
  /\ IntelligentMatchingEngine.calculateCosineSimilarity (N:=JSNumber)
       [0; 0; 0]%float [1; 2; 3]%float = 0%float
  /\ fst (Route.calculateSemanticSimilarity (N:=JSNumber)
            (fun k _ => Some (if Nat.eqb k 0 then [0; 0; 0] else [1; 2; 3])%float)
            "a" "b" O) = Returned 0%float.
Proof. vm_compute. repeat split. Qed.

(** ** Geographic proximity *)

Example geographic_same_city :
  Route.calculateGeographicProximity (N:=JSNumber) "San Francisco, CA" "San Francisco, CA"
  = 1%float.
Proof. vm_compute. reflexivity. Qed.

Example geographic_same_state :
  Route.calculateGeographicProximity (N:=JSNumber) "San Francisco, CA" "Los Angeles, CA"
  = 0.7%float.
Proof. vm_compute. reflexivity. Qed.

Example geographic_other_region :
  Route.calculateGeographicProximity (N:=JSNumber) "San Francisco, CA" "Boston, MA"
  = 0.2%float.
Proof. vm_compute. reflexivity. Qed.

Example geographic_same_coast :
  Route.calculateGeographicProximity (N:=JSNumber) "Seattle, WA" "Palo Alto, CA"
  = 0.5%float.
Proof. vm_compute. reflexivity. Qed.

(** A student whose institution is at [loc], and an alumnus working at
    [loc]: all that [AlumniMatchingEngine.calculateGeographicProximity]
    reads. *)
Definition student_at (loc : string) : Profile float :=
Student (mkStudent "s1" (Some loc) "Physics" (Some []) [] true).

Definition alumnus_at (loc : string) : AlumniProfile float :=
mkAlumni "a1" None "History" None None None (Some loc) None (Some []) false [].




(** ** Mentorship fit *)

(** The claim of C7, read on [IntelligentMatchingEngine]: 0 for a
    candidate who is no mentor. *)
Definition intelligent_non_mentor_scores_zero : Prop :=
forall (ctx : IntelligentMatchingEngine.MatchingContext (num:=float))
       (candidate : AlumniProfile float),
  isMentor candidate = false ->
  IntelligentMatchingEngine.calculateMentorshipFit ctx candidate = 0%float.

(** C7, counterexample.  [IntelligentMatchingEngine] gives a candidate who
    is no mentor 0.1 in a mentorship context (and 0.5 in any other). *)
Lemma intelligent_non_mentor_scores_a_tenth : ~ intelligent_non_mentor_scores_zero.
Proof.
  intro H.
  specialize (H (IntelligentMatchingEngine.mkContext (student_at "Boston, MA")
                   IntelligentMatchingEngine.mentorship)
                (alumnus_at "Austin, TX") eq_refl).
  vm_compute in H.
  assert (E : PrimFloat.eqb 0.1%float 0%float = true) by (rewrite H; reflexivity).
  vm_compute in E. discriminate.
Qed.

(** [0.5] plus the bonuses that apply, clamped: the sum is taken in the
    order of the code. *)
Definition mentorshipSum (seeking gap aligned : bool) : float :=
Float64.min
  (0.5 + (if seeking then 0.3 else 0) + (if gap then 0.2 else 0)
   + (if aligned then 0.2 else 0))%float
  1%float.

(** C7, amended.  In [AlumniMatchingEngine] a candidate who is no mentor
    scores 0 whoever the seeker is, and a mentor scores 0.5, plus 0.3 if
    the seeker is a student seeking mentorship, plus 0.2 if the experience
    gap lies in [3, 15], plus 0.2 if a mentor category and an interest of
    the seeker contain one another, at most 1.0.  In
    [IntelligentMatchingEngine] the score is 0.5 outside a mentorship
    context and 0.1 for a candidate who is no mentor inside one. *)
Theorem mentorship_fit_scores :
  forall (seeker : Profile float) (alumni : AlumniProfile float),
    (isMentor alumni = false ->
     AlumniMatchingEngine.calculateMentorshipFit seeker alumni = 0%float)
    /\ (isMentor alumni = true ->
        AlumniMatchingEngine.calculateMentorshipFit seeker alumni
        = mentorshipSum (AlumniMatchingEngine.seeksMentorship seeker)
            (AlumniMatchingEngine.optimalGap seeker alumni)
            (AlumniMatchingEngine.categoriesAlign seeker alumni))
    /\ (AlumniMatchingEngine.calculateMentorshipFit seeker alumni <=? 1)%float = true
    /\ (forall k,
          k <> IntelligentMatchingEngine.mentorship ->
          IntelligentMatchingEngine.calculateMentorshipFit
            (IntelligentMatchingEngine.mkContext seeker k) alumni = 0.5%float)
    /\ (isMentor alumni = false ->
        IntelligentMatchingEngine.calculateMentorshipFit
          (IntelligentMatchingEngine.mkContext seeker IntelligentMatchingEngine.mentorship)
          alumni = 0.1%float).
Proof.
  intros seeker alumni.
  assert (E : isMentor alumni = true ->
              AlumniMatchingEngine.calculateMentorshipFit seeker alumni
              = mentorshipSum (AlumniMatchingEngine.seeksMentorship seeker)
                  (AlumniMatchingEngine.optimalGap seeker alumni)
                  (AlumniMatchingEngine.categoriesAlign seeker alumni)).
  { intro H. unfold AlumniMatchingEngine.calculateMentorshipFit. rewrite H.
    destruct (AlumniMatchingEngine.seeksMentorship seeker),
             (AlumniMatchingEngine.optimalGap seeker alumni),
             (AlumniMatchingEngine.categoriesAlign seeker alumni);
      vm_compute; reflexivity. }
  assert (Z : isMentor alumni = false ->
              AlumniMatchingEngine.calculateMentorshipFit seeker alumni = 0%float).
  { intro H. unfold AlumniMatchingEngine.calculateMentorshipFit. rewrite H. reflexivity. }
  split; [exact Z|]. split; [exact E|]. split; [|split].
  - destruct (isMentor alumni) eqn:Hm.
    + rewrite (E eq_refl).
      destruct (AlumniMatchingEngine.seeksMentorship seeker),
               (AlumniMatchingEngine.optimalGap seeker alumni),
               (AlumniMatchingEngine.categoriesAlign seeker alumni);
        vm_compute; reflexivity.
    + rewrite (Z eq_refl). reflexivity.
  - intros k Hk. unfold IntelligentMatchingEngine.calculateMentorshipFit.
    destruct k; try congruence; reflexivity.
  - intro H. unfold IntelligentMatchingEngine.calculateMentorshipFit.
    cbn [IntelligentMatchingEngine.context IntelligentMatchingEngine.is_mentorship negb].
    rewrite H. reflexivity.
Qed.

(** The eight sums, as the program computes them. *)
Example mentorshipSum_table :
  map (fun '(s, g, a) => mentorshipSum s g a)
    [ (false, false, false); (true, false, false); (false, true, false);
      (false, false, true); (true, true, false); (true, false, true);
      (false, true, true); (true, true, true) ]
  = [ 0.5; 0.8; 0.7; 0.7; 1; 1; 0.89999999999999991; 1 ]%float.
Proof. vm_compute. reflexivity. Qed.

(** ** The score *)

(** Demo mode ([NEXT_PUBLIC_OPENAI_API_KEY] is ['demo-key']): no end point
    is called; [Math.random] returns [r]. *)
Definition demoEnv {num} (r : num) : Env num :=
mkEnv true (fun _ _ => None) (fun _ => None) (fun _ => r).

(** An alumnus whose skill list names Python twice, in two spellings. *)
Definition dana : AlumniProfile float :=
mkAlumni "alumni-17" None "Computer Science"
  (Some "Software Engineer") (Some "Initech") (Some "Technology")
  (Some "Austin, TX") (Some 5%float)
  (Some [ mkSkill "React" Advanced; mkSkill "Python" Advanced; mkSkill "AWS" Advanced;
          mkSkill "Docker" Advanced; mkSkill "Kubernetes" Advanced;
          mkSkill "python" Advanced ])
  true ["Computer Science"].

Example dana_skill_complement :
  AlumniMatchingEngine.calculateSkillComplement (N:=JSNumber) (Alumni dana) dana
  = Some 1.1200000000000001%float.
Proof. vm_compute. reflexivity. Qed.

(** C1.  [calculateMatch] does not clamp.  Dana, looking for matches in a
    pool she is part of, with skill complementarity as the one criterion,
    is returned with the score 1.084; with an empty criteria list she is
    returned with the cosine of her embedding with itself, which the
    floating point division leaves just above 1. *)
Theorem findMatches_score_above_one :
  (exists m,
     AlumniMatchingEngine.findMatches (demoEnv 0.25%float)
       AlumniMatchingEngine.loadMockEmbeddings 0 (Alumni dana) [dana]
       (Some [mkCriterion skill_complement 1%float]) None = Returned [m]
     /\ score m = 1.0840000000000001%float
     /\ (1 <? score m)%float = true)
  /\ (exists m,
        AlumniMatchingEngine.findMatches (demoEnv 0.25%float)
          AlumniMatchingEngine.loadMockEmbeddings 0 (Alumni dana) [dana]
          (Some []) None = Returned [m]
        /\ score m = 1.0000000000000002%float
        /\ (1 <? score m)%float = true).
Proof.
  split; eexists; (split; [vm_compute; reflexivity|]); split; reflexivity.
Qed.

(* ================================================================== *)
(** * Arrays: [slice] and [sort] *)
(* ================================================================== *)

Section SliceFacts.
Context {A : Type}.

Lemma slice0_nonneg (l : list A) (e : Z) :
  (0 <= e)%Z -> JS.slice0 l e = firstn (Z.to_nat e) l.
Proof.
  intro H. unfold JS.slice0.
  destruct (Z.ltb_spec e 0); [lia | reflexivity].
Qed.

Lemma slice0_is_firstn (l : list A) (e : Z) : exists n, JS.slice0 l e = firstn n l.
Proof. unfold JS.slice0. destruct (e <? 0)%Z; eexists; reflexivity. Qed.

Lemma slice0_length (l : list A) (e : Z) :
  (0 <= e)%Z -> (Z.of_nat (List.length (JS.slice0 l e)) <= e)%Z.
Proof.
  intro H. rewrite slice0_nonneg by assumption.
  rewrite length_firstn. lia.
Qed.

Lemma slice0_length_le (l : list A) (e : Z) :
  (List.length (JS.slice0 l e) <= List.length l)%nat.
Proof.
  destruct (slice0_is_firstn l e) as [n ->]. rewrite length_firstn. lia.
Qed.

Lemma slice0_Forall (P : A -> Prop) (l : list A) (e : Z) :
  Forall P l -> Forall P (JS.slice0 l e).
Proof.
  intro H. destruct (slice0_is_firstn l e) as [n ->].
  apply Forall_forall. intros x Hx.
  rewrite Forall_forall in H. apply H.
  rewrite <- (firstn_skipn n l). apply in_or_app. left. exact Hx.
Qed.

Lemma slice0_prefix (l : list A) (e : Z) : exists rest, l = JS.slice0 l e ++ rest.
Proof.
  destruct (slice0_is_firstn l e) as [n ->].
  exists (skipn n l). symmetry. apply firstn_skipn.
Qed.

Lemma slice0_map {B} (f : A -> B) (l : list A) (e : Z) :
  JS.slice0 (map f l) e = map f (JS.slice0 l e).
Proof.
  unfold JS.slice0. rewrite length_map.
  destruct (e <? 0)%Z; apply firstn_map.
Qed.
End SliceFacts.

(** The stable sort, for a comparator that is a strict weak order:
    [after y x], "[y] goes after [x]", is asymmetric, and what is not
    after [x] is after everything that [x] is after. *)
Section SortFacts.
Context {A : Type} (after : A -> A -> bool).

Lemma insert_perm (x : A) (l : list A) : Permutation (JS.insert after x l) (x :: l).
Proof.
  induction l as [|y r IH]; cbn; [reflexivity|].
  destruct (after y x); [reflexivity|].
  rewrite IH. apply perm_swap.
Qed.

Lemma sort_from_perm (l acc : list A) :
  Permutation (fold_left (fun acc x => JS.insert after x acc) l acc) (acc ++ l).
Proof.
  revert acc. induction l as [|x l IH]; intro acc; cbn.
  - rewrite app_nil_r. reflexivity.
  - rewrite IH, insert_perm. apply Permutation_middle.
Qed.

Lemma sort_perm (l : list A) : Permutation (JS.sort after l) l.
Proof. unfold JS.sort. apply (sort_from_perm l []). Qed.

Lemma sort_length (l : list A) : List.length (JS.sort after l) = List.length l.
Proof. apply Permutation_length, sort_perm. Qed.

Lemma sort_Forall (P : A -> Prop) (l : list A) : Forall P l -> Forall P (JS.sort after l).
Proof.
  intro H. apply Forall_forall. intros x Hx.
  rewrite Forall_forall in H. apply H.
  apply (Permutation_in x (sort_perm l)). exact Hx.
Qed.

(** [a] may stand before [b]. *)
Definition in_order (a b : A) : Prop := after a b = false.

(** [a] and [b] are tied: neither goes after the other. *)
Definition tied (a b : A) : bool := negb (after a b) && negb (after b a).

(** The comparator need only behave on the elements that are [ok]. *)
Variable ok : A -> Prop.
Hypothesis after_asym :
  forall x y, ok x -> ok y -> after x y = true -> after y x = false.
Hypothesis after_weak :
  forall x y z, ok x -> ok y -> ok z ->
                after y x = true -> after y z = false -> after z x = true.

Lemma after_trans (x y z : A) :
  ok x -> ok y -> ok z -> after x y = true -> after y z = true -> after x z = true.
Proof.
  intros Hx Hy Hz H1 H2.
  apply (after_weak z y x); try assumption.
  apply after_asym; assumption.
Qed.

Lemma insert_ok (x : A) (l : list A) : ok x -> Forall ok l -> Forall ok (JS.insert after x l).
Proof.
  intros Hx Hl. apply Forall_forall. intros z Hz.
  apply (Permutation_in z (insert_perm x l)) in Hz.
  destruct Hz as [<- | Hz]; [exact Hx|].
  rewrite Forall_forall in Hl. apply Hl, Hz.
Qed.

Lemma insert_sorted (x : A) (l : list A) :
  ok x -> Forall ok l ->
  StronglySorted in_order l -> StronglySorted in_order (JS.insert after x l).
Proof.
  intros Hx.
  induction l as [|y r IH]; intros Hl H; cbn.
  - constructor; constructor.
  - inversion H as [|? ? Hr Hy]; subst.
    inversion Hl as [|? ? Oy Or]; subst.
    destruct (after y x) eqn:E.
    + constructor; [exact H|].
      constructor; [apply after_asym; assumption|].
      rewrite Forall_forall in Hy, Or |- *. intros z Hz. unfold in_order.
      destruct (after x z) eqn:F; [|reflexivity].
      pose proof (after_trans _ _ _ Oy Hx (Or z Hz) E F) as G.
      rewrite (Hy z Hz) in G. discriminate.
    + constructor; [apply IH; assumption|].
      rewrite Forall_forall in Hy |- *. intros z Hz.
      apply (Permutation_in z (insert_perm x r)) in Hz.
      destruct Hz as [<- | Hz]; [exact E | apply Hy, Hz].
Qed.

Lemma sort_from_sorted (l acc : list A) :
  Forall ok l -> Forall ok acc ->
  StronglySorted in_order acc ->
  StronglySorted in_order (fold_left (fun acc x => JS.insert after x acc) l acc).
Proof.
  revert acc. induction l as [|x l IH]; intros acc Hl Ha H; cbn; [exact H|].
  inversion Hl; subst.
  apply IH; [assumption | apply insert_ok; assumption | apply insert_sorted; assumption].
Qed.

Lemma sort_sorted (l : list A) : Forall ok l -> StronglySorted in_order (JS.sort after l).
Proof. intro H. apply sort_from_sorted; [exact H | constructor | constructor]. Qed.

(** An element is inserted behind everything it is tied with. *)
Lemma insert_stable (k x : A) (l : list A) :
  ok k -> ok x -> Forall ok l ->
  StronglySorted in_order l ->
  filter (tied k) (JS.insert after x l) = filter (tied k) (l ++ [x]).
Proof.
  intros Hk Hx.
  induction l as [|y r IH]; intros Hl H; [reflexivity|].
  inversion H as [|? ? Hr Hy]; subst.
  inversion Hl as [|? ? Oy Or]; subst.
  change (JS.insert after x (y :: r))
    with (if after y x then x :: y :: r else y :: JS.insert after x r).
  destruct (after y x) eqn:E.
  - (* [x] goes before [y]: nothing from [y] on is tied with [x] *)
    change (x :: y :: r) with ([x] ++ (y :: r)).
    rewrite !filter_app.
    destruct (tied k x) eqn:T.
    + assert (N : forall z, In z (y :: r) -> tied k z = false).
      { intros z Hz.
        assert (Oz : ok z).
        { destruct Hz as [<- | Hz]; [exact Oy|].
          rewrite Forall_forall in Or. apply Or, Hz. }
        assert (Zx : after z x = true).
        { destruct Hz as [<- | Hz]; [exact E|].
          rewrite Forall_forall in Hy.
          apply (after_weak x y z Hx Oy Oz E), Hy, Hz. }
        unfold tied in T |- *. apply andb_true_iff in T. destruct T as [T1 T2].
        apply negb_true_iff in T1, T2.
        assert (Zk : after z k = true).
        { destruct (after z k) eqn:G; [reflexivity|].
          rewrite (after_weak x z k Hx Oz Hk Zx G) in T1. discriminate. }
        rewrite Zk. apply andb_false_r. }
      assert (F : forall l', (forall z, In z l' -> tied k z = false) ->
                             filter (tied k) l' = []).
      { induction l' as [|z l' IHl]; intro Hl'; cbn; [reflexivity|].
        rewrite (Hl' z (or_introl eq_refl)). apply IHl.
        intros w Hw. apply Hl'. right. exact Hw. }
      rewrite (F (y :: r) N), app_nil_r. reflexivity.
    + cbn [filter]. rewrite T, app_nil_r. reflexivity.
  - change ((y :: r) ++ [x]) with (y :: (r ++ [x])).
    cbn [filter]. rewrite (IH Or Hr). reflexivity.
Qed.

Lemma sort_from_stable (k : A) (l acc : list A) :
  ok k -> Forall ok l -> Forall ok acc ->
  StronglySorted in_order acc ->
  filter (tied k) (fold_left (fun acc x => JS.insert after x acc) l acc)
  = filter (tied k) (acc ++ l).
Proof.
  intro Hk.
  revert acc. induction l as [|x l IH]; intros acc Hl Ha H; cbn.
  - rewrite app_nil_r. reflexivity.
  - inversion Hl; subst.
    rewrite IH;
      [| assumption | apply insert_ok; assumption | apply insert_sorted; assumption].
    change (x :: l) with ([x] ++ l).
    rewrite !filter_app, insert_stable by assumption.
    rewrite filter_app, <- app_assoc. reflexivity.
Qed.

(** Stability: the elements tied with [k] come out in the order they went
    in. *)
Lemma sort_stable (k : A) (l : list A) :
  ok k -> Forall ok l ->
  filter (tied k) (JS.sort after l) = filter (tied k) l.
Proof.
  intros Hk Hl. unfold JS.sort.
  rewrite sort_from_stable by (try assumption; constructor). reflexivity.
Qed.
End SortFacts.

(* ================================================================== *)
(** * Reasoning about computations *)
(* ================================================================== *)

(** [wp m Q s]: run from [s], [m] ends in an outcome and a state that
    satisfy [Q]. *)
Definition wp {S A} (m : M S A) (Q : Outcome A -> S -> Prop) (s : S) : Prop :=
Q (fst (m s)) (snd (m s)).

Section WpRules.
Context {S : Type}.

Lemma wp_ret {A} (a : A) (Q : Outcome A -> S -> Prop) s :
  Q (Returned a) s -> wp (ret a) Q s.
Proof. exact (fun H => H). Qed.

Lemma wp_throw {A} (Q : Outcome A -> S -> Prop) s :
  Q Thrown s -> wp throw Q s.
Proof. exact (fun H => H). Qed.

Lemma wp_get (Q : Outcome S -> S -> Prop) s : Q (Returned s) s -> wp get Q s.
Proof. exact (fun H => H). Qed.

Lemma wp_put (s' : S) (Q : Outcome unit -> S -> Prop) s :
  Q (Returned tt) s' -> wp (put s') Q s.
Proof. exact (fun H => H). Qed.

Lemma wp_defined {A} (o : option A) (Q : Outcome A -> S -> Prop) s :
  match o with Some a => Q (Returned a) s | None => Q Thrown s end ->
  wp (defined o) Q s.
Proof. destruct o; exact (fun H => H). Qed.

Lemma wp_bind {A B} (m : M S A) (k : A -> M S B) (Q : Outcome B -> S -> Prop) s :
  wp m (fun o s' => match o with
                    | Returned a => wp (k a) Q s'
                    | Thrown => Q Thrown s'
                    end) s ->
  wp (bind m k) Q s.
Proof. unfold wp, bind. destruct (m s) as [[a|] s']; exact (fun H => H). Qed.

Lemma wp_try_catch {A} (m h : M S A) (Q : Outcome A -> S -> Prop) s :
  wp m (fun o s' => match o with
                    | Returned a => Q (Returned a) s'
                    | Thrown => wp h Q s'
                    end) s ->
  wp (try_catch m h) Q s.
Proof. unfold wp, try_catch. destruct (m s) as [[a|] s']; exact (fun H => H). Qed.

Lemma wp_mono {A} (m : M S A) (Q Q' : Outcome A -> S -> Prop) s :
  (forall o s', Q o s' -> Q' o s') -> wp m Q s -> wp m Q' s.
Proof. unfold wp. intros H. apply H. Qed.

Lemma wp_run {A} (m : M S A) (Q : Outcome A -> S -> Prop) s o s' :
  m s = (o, s') -> wp m Q s -> Q o s'.
Proof. unfold wp. intros ->. exact (fun H => H). Qed.

(** A loop: [I done acc s] holds once the elements [done] have been dealt
    with; [J] holds of the state in which the loop was left by a throw. *)
Lemma wp_for_each {A B} (body : B -> A -> M S B)
  (I : list A -> B -> S -> Prop) (J : S -> Prop) (l : list A) :
  (forall done x rest acc s,
      l = done ++ x :: rest -> I done acc s ->
      wp (body acc x)
         (fun o s' => match o with
                      | Returned acc' => I (done ++ [x]) acc' s'
                      | Thrown => J s'
                      end) s) ->
  forall acc s,
    I [] acc s ->
    wp (for_each l acc body)
       (fun o s' => match o with Returned r => I l r s' | Thrown => J s' end) s.
Proof.
  intros Hbody.
  assert (G : forall todo done acc s,
             l = done ++ todo -> I done acc s ->
             wp (for_each todo acc body)
                (fun o s' => match o with Returned r => I l r s' | Thrown => J s' end) s).
  { induction todo as [|x todo IH]; intros done acc s Hl HI.
    - cbn [for_each]. apply wp_ret. rewrite Hl, app_nil_r. exact HI.
    - cbn [for_each]. apply wp_bind.
      eapply wp_mono; [|apply (Hbody done x todo acc s Hl HI)].
      intros [acc'|] s' H; [|exact H].
      apply (IH (done ++ [x])); [|exact H].
      rewrite <- app_assoc. exact Hl. }
  intros acc s H. apply (G l [] acc s eq_refl H).
Qed.
End WpRules.

Ltac wp_step :=
  lazymatch goal with
  | |- wp (bind _ _) _ _ => apply wp_bind
  | |- wp (ret _) _ _ => apply wp_ret
  | |- wp throw _ _ => apply wp_throw
  | |- wp get _ _ => apply wp_get
  | |- wp (put _) _ _ => apply wp_put
  | |- wp (defined _) _ _ => apply wp_defined
  | |- wp (try_catch _ _) _ _ => apply wp_try_catch
  end; cbv beta iota.

(** A subsequence, up to a relation: [Subseq R picked all]. *)
Inductive Subseq {A B} (R : A -> B -> Prop) : list A -> list B -> Prop :=
| Subseq_nil : Subseq R [] []
| Subseq_skip y l l' : Subseq R l l' -> Subseq R l (y :: l')
| Subseq_take x y l l' : R x y -> Subseq R l l' -> Subseq R (x :: l) (y :: l').

Lemma Subseq_app {A B} (R : A -> B -> Prop) l1 l1' l2 l2' :
  Subseq R l1 l1' -> Subseq R l2 l2' -> Subseq R (l1 ++ l2) (l1' ++ l2').
Proof.
  induction 1; intro H2; cbn; [exact H2 | apply Subseq_skip; auto | apply Subseq_take; auto].
Qed.

(* ================================================================== *)
(** * What a call does to the alumni objects *)
(* ================================================================== *)

Module EngineFacts.
Import AlumniMatchingEngine.
Section Facts.
Context {num : Type} {N : Number num}.
Local Open Scope num_scope.

Local Abbreviation AlumniProfile := (AlumniProfile num).
Local Abbreviation State := (State num).

Definition skills_reordered (a b : option (list Skill)) : Prop :=
match a, b with
| Some l, Some l' => Permutation l l'
| None, None => True
| _, _ => False
end.

(** [b] is the object [a], its skills possibly in another order: all that
    a call ever does to an alumni object. *)
Definition reordered (a b : AlumniProfile) : Prop :=
exists sk, b = with_skills a sk /\ skills_reordered (a_skills a) sk.

Definition same_objects (l l' : list AlumniProfile) : Prop := Forall2 reordered l l'.

Lemma with_skills_same (a : AlumniProfile) : with_skills a (a_skills a) = a.
Proof. destruct a; reflexivity. Qed.

Lemma skills_reordered_refl (a : option (list Skill)) : skills_reordered a a.
Proof. destruct a; cbn; auto. Qed.

Lemma skills_reordered_trans (a b c : option (list Skill)) :
  skills_reordered a b -> skills_reordered b c -> skills_reordered a c.
Proof.
  destruct a, b, c; cbn; try tauto. apply Permutation_trans.
Qed.

Lemma reordered_refl (a : AlumniProfile) : reordered a a.
Proof.
  exists (a_skills a). split; [symmetry; apply with_skills_same | apply skills_reordered_refl].
Qed.

Lemma reordered_trans (a b c : AlumniProfile) : reordered a b -> reordered b c -> reordered a c.
Proof.
  intros [s1 [-> H1]] [s2 [-> H2]]. exists s2. split; [reflexivity|].
  apply (skills_reordered_trans _ s1); assumption.
Qed.

Lemma reordered_id (a b : AlumniProfile) : reordered a b -> a_id b = a_id a.
Proof. intros [sk [-> _]]. reflexivity. Qed.

Lemma same_objects_refl (l : list AlumniProfile) : same_objects l l.
Proof. induction l; constructor; [apply reordered_refl | assumption]. Qed.

Lemma same_objects_trans (l1 l2 l3 : list AlumniProfile) :
  same_objects l1 l2 -> same_objects l2 l3 -> same_objects l1 l3.
Proof.
  intro H. revert l3.
  induction H as [|a b l l' Hab Hl IH]; intros l3 H3; inversion H3; subst; constructor.
  - eapply reordered_trans; eassumption.
  - apply IH. assumption.
Qed.

Lemma same_objects_length (l l' : list AlumniProfile) :
  same_objects l l' -> List.length l' = List.length l.
Proof. intro H. symmetry. eapply Forall2_length. exact H. Qed.

Lemma same_objects_ids (l l' : list AlumniProfile) :
  same_objects l l' -> map a_id l' = map a_id l.
Proof.
  induction 1; cbn; [reflexivity|]. f_equal; [apply reordered_id|]; assumption.
Qed.

Lemma same_objects_firstn (n : nat) (l l' : list AlumniProfile) :
  same_objects l l' -> same_objects (firstn n l) (firstn n l').
Proof.
  intro H. revert n.
  induction H as [|a b l l' Hab Hl IH]; intros [|n]; cbn; constructor;
    [exact Hab | apply IH].
Qed.

Lemma same_objects_slice0 (e : Z) (l l' : list AlumniProfile) :
  same_objects l l' -> same_objects (JS.slice0 l e) (JS.slice0 l' e).
Proof.
  intro H. unfold JS.slice0. rewrite (same_objects_length _ _ H).
  destruct (e <? 0)%Z; apply same_objects_firstn, H.
Qed.

Lemma same_objects_nth (l l' : list AlumniProfile) i b :
  same_objects l l' -> nth_error l' i = Some b ->
  exists a, nth_error l i = Some a /\ reordered a b.
Proof.
  intro H. revert i.
  induction H as [|a0 b0 l l' Hab Hl IH]; intros [|i] Hi; cbn in *; try discriminate.
  - inversion Hi; subst. exists a0. split; [reflexivity | exact Hab].
  - apply IH. exact Hi.
Qed.

Lemma list_set_same (l : list AlumniProfile) i a b :
  nth_error l i = Some a -> reordered a b -> same_objects l (list_set l i b).
Proof.
  revert i. induction l as [|y r IH]; intros [|i] Hi Hr; cbn in *; try discriminate.
  - inversion Hi; subst. constructor; [exact Hr | apply same_objects_refl].
  - constructor; [apply reordered_refl | apply (IH i Hi Hr)].
Qed.


(** ** The parts of [calculateMatch] that cannot throw *)

Lemma wp_of_run {A} (m : M State A) (Q : Outcome A -> State -> Prop) s o s' :
  m s = (o, s') -> Q o s' -> wp m Q s.
Proof. unfold wp. intros ->. exact (fun H => H). Qed.

Lemma generateProfileEmbedding_returns env profile (s : State) :
  exists e s', generateProfileEmbedding env profile s = (Returned e, s')
               /\ objects s' = objects s.
Proof.
  unfold generateProfileEmbedding, requestEmbedding.
  unfold try_catch, bind, defined, next_tick, ret, throw.
  destruct (createProfileText profile); [|eauto].
  destruct (demo_key env); [eauto|].
  destruct (embeddings_create env (tick s) s0); eauto.
Qed.

Lemma getAlumniEmbedding_returns env alumni (s : State) :
  exists e s', getAlumniEmbedding env alumni s = (Returned e, s')
               /\ objects s' = objects s.
Proof.
  unfold getAlumniEmbedding, bind, get.
  destruct (Map_get _ _); [unfold ret; eauto|].
  destruct (generateProfileEmbedding_returns env (Alumni alumni) s) as [e [s' [-> H]]].
  unfold put, ret. eauto.
Qed.

Lemma getMockInsights_returns env sc (s : State) :
  exists r s', getMockInsights env sc s = (Returned r, s') /\ objects s' = objects s.
Proof.
  unfold getMockInsights, bind, next_tick, ret.
  destruct (sc >? lit 0.8); [eauto|]. destruct (sc >? lit 0.6); eauto.
Qed.

Lemma generateMatchInsights_returns env seeker alumni sc (s : State) :
  exists r s', generateMatchInsights env seeker alumni sc s = (Returned r, s')
               /\ objects s' = objects s.
Proof.
  unfold generateMatchInsights, try_catch.
  destruct (demo_key env).
  - destruct (getMockInsights_returns env sc s) as [r [s' [-> H]]]. eauto.
  - unfold bind, defined, next_tick, ret, throw.
    destruct (skills seeker); [|apply getMockInsights_returns].
    destruct (a_skills alumni); [|apply getMockInsights_returns].
    destruct (chat_create env (tick s)).
    + eauto.
    + destruct (getMockInsights_returns env sc (mkState (embeddings s) (objects s) (S (tick s))))
        as [r [s' [-> H]]]. eauto.
Qed.

(** ** One criterion *)

Lemma totalWeight_noted (t : Tally) sc c b r :
  totalWeight (noted t sc c b r) = totalWeight t + weight c.
Proof. unfold noted. destruct b; reflexivity. Qed.


Lemma getTopSkills_perm (sk : list Skill) : Permutation sk (fst (getTopSkills sk)).
Proof. unfold getTopSkills. cbn [fst]. symmetry. apply sort_perm. Qed.

Lemma criterion_step_spec seeker i (t : Tally) c (s : State) :
  wp (criterion_step seeker i t c)
     (fun o s' =>
        same_objects (objects s) (objects s')
        /\ match o with
           | Returned t' => totalWeight t' = totalWeight t + weight c
           | Thrown => True
           end) s.
Proof.
  unfold criterion_step, getObject.
  wp_step. wp_step. wp_step. wp_step.
  destruct (nth_error (objects s) i) as [alumni|] eqn:Hi;
    [|split; [apply same_objects_refl | exact I]].
  destruct (c_type c).
  - wp_step. split; [apply same_objects_refl | apply totalWeight_noted].
  - wp_step. wp_step.
    destruct (calculateSkillComplement seeker alumni) as [sc|];
      [|split; [apply same_objects_refl | exact I]].
    destruct (sc >? lit 0.6).
    + wp_step. wp_step.
      destruct (a_skills alumni) as [sk|] eqn:Hsk;
        [|split; [apply same_objects_refl | exact I]].
      pose proof (getTopSkills_perm sk) as P.
      destruct (getTopSkills sk) as [sorted top]. cbn [fst] in P.
      cbv beta iota.
      wp_step. unfold setSkills. wp_step. wp_step. wp_step. wp_step.
      rewrite Hi. wp_step. wp_step. cbn [objects]. split.
      * apply (list_set_same _ _ alumni); [exact Hi|].
        exists (Some sorted). split; [reflexivity|]. rewrite Hsk. exact P.
      * apply totalWeight_noted.
    + wp_step. split; [apply same_objects_refl | apply totalWeight_noted].
  - wp_step. split; [apply same_objects_refl | apply totalWeight_noted].
  - wp_step. split; [apply same_objects_refl | apply totalWeight_noted].
Qed.

(** The sum of the weights, as the loop adds them up. *)
Definition weightSum (criteria : list (MatchCriteria num)) : num :=
fold_left (fun acc c => acc + weight c) criteria (of_Z 0).

Lemma criteria_loop_spec seeker i (criteria : list (MatchCriteria num)) (s : State) :
  wp (for_each criteria (mkTally (of_Z 0) (of_Z 0) [] []) (criterion_step seeker i))
     (fun o s' =>
        same_objects (objects s) (objects s')
        /\ match o with
           | Returned t => totalWeight t = weightSum criteria
           | Thrown => True
           end) s.
Proof.
  eapply wp_mono;
    [| apply (wp_for_each (criterion_step seeker i)
                (fun done t s' =>
                   same_objects (objects s) (objects s')
                   /\ totalWeight t = fold_left (fun acc c => acc + weight c) done (of_Z 0))
                (fun s' => same_objects (objects s) (objects s')))].
  - intros [t|] s' H; [exact H | split; [exact H | exact I]].
  - intros done c rest t s1 _ [H1 H2].
    eapply wp_mono; [|apply criterion_step_spec].
    intros [t'|] s' [H3 H4].
    + split; [eapply same_objects_trans; eassumption|].
      rewrite fold_left_app. cbn. rewrite <- H2. exact H4.
    + eapply same_objects_trans; eassumption.
  - split; [apply same_objects_refl | reflexivity].
Qed.

(** ** One candidate *)

(** What [calculateMatch] returns for the object number [i]: the object
    itself, with the score that [finalScore] makes of the totals of the
    loop and of the cosine of the two embeddings. *)
Definition match_of (env : Env num) (i : nat) (criteria : list (MatchCriteria num))
  (seekerEmbedding : list num) (m : AlumniMatch num) (s' : State) : Prop :=
nth_error (objects s') i = Some (alumni m)
/\ exists (t : Tally) alumniEmbedding s1 s2,
     totalWeight t = weightSum criteria
     /\ getAlumniEmbedding env (alumni m) s1 = (Returned alumniEmbedding, s2)
     /\ score m = finalScore (totalScore t) (totalWeight t)
                    (calculateCosineSimilarity seekerEmbedding alumniEmbedding).

Lemma calculateMatch_spec env seeker i criteria seekerEmbedding (s : State) :
  wp (calculateMatch env seeker i criteria seekerEmbedding)
     (fun o s' =>
        same_objects (objects s) (objects s')
        /\ match o with
           | Returned m => match_of env i criteria seekerEmbedding m s'
           | Thrown => True
           end) s.
Proof.
  unfold calculateMatch. wp_step.
  eapply wp_mono; [|apply criteria_loop_spec].
  intros [t|] s1 [H1 H2]; [|split; [exact H1 | exact I]].
  unfold getObject. wp_step. wp_step. wp_step. wp_step.
  destruct (nth_error (objects s1) i) as [a|] eqn:Hi; [|split; [exact H1 | exact I]].
  wp_step.
  destruct (getAlumniEmbedding_returns env a s1) as [e [s2 [He Ho2]]].
  apply (wp_of_run _ _ _ _ _ He). cbv beta iota.
  wp_step.
  destruct (generateMatchInsights_returns env seeker a
              (finalScore (totalScore t) (totalWeight t)
                 (calculateCosineSimilarity seekerEmbedding e)) s2)
    as [r [s3 [Hr Ho3]]].
  apply (wp_of_run _ _ _ _ _ Hr). cbv beta iota.
  wp_step. unfold match_of. rewrite Ho3, Ho2. split; [exact H1|].
  split; [exact Hi|]. exists t, e, s1, s2. cbn [alumni score]. auto.
Qed.

(** ** The ranking *)

Definition admitted (m : AlumniMatch num) : Prop := (score m >? lit 0.3) = true.

(** The matches [picked] are matches of objects of the pool, in the order
    of the pool. *)
Definition in_pool_order (picked : list (AlumniMatch num)) (pool : list AlumniProfile) : Prop :=
Subseq (fun m a => reordered a (alumni m)) picked pool.

Lemma seq_split (n : nat) (done : list nat) (x : nat) (rest : list nat) :
  seq 0 n = done ++ x :: rest -> x = List.length done /\ (x < n)%nat.
Proof.
  intro H.
  assert (L : List.length (seq 0 n) = (List.length done + S (List.length rest))%nat).
  { rewrite H, length_app. reflexivity. }
  rewrite length_seq in L.
  assert (E : nth (List.length done) (seq 0 n) O = x).
  { rewrite H, app_nth2 by lia. rewrite Nat.sub_diag. reflexivity. }
  rewrite seq_nth in E by lia. cbn in E. lia.
Qed.

Lemma firstn_snoc {A} (l : list A) (n : nat) (a : A) :
  nth_error l n = Some a -> firstn (S n) l = firstn n l ++ [a].
Proof.
  revert n. induction l as [|y r IH]; intros [|n] H; cbn in *; try discriminate.
  - inversion H. reflexivity.
  - f_equal. apply IH, H.
Qed.

Lemma rank_spec env profile criteria limit (s : State) :
  wp (rank env profile criteria limit)
     (fun o s' =>
        same_objects (objects s) (objects s')
        /\ match o with
           | Returned out =>
               exists picked,
                 out = JS.slice0 (JS.sort by_score picked) limit
                 /\ Forall admitted picked
                 /\ in_pool_order picked (objects s)
           | Thrown => True
           end) s.
Proof.
  unfold rank. wp_step.
  destruct (generateProfileEmbedding_returns env profile s) as [emb [s0 [He Ho]]].
  apply (wp_of_run _ _ _ _ _ He). cbv beta iota.
  wp_step. wp_step. wp_step.
  eapply wp_mono;
    [| apply (wp_for_each _
                (fun done ms s' =>
                   same_objects (objects s) (objects s')
                   /\ Forall admitted ms
                   /\ in_pool_order ms (firstn (List.length done) (objects s)))
                (fun s' => same_objects (objects s) (objects s')))].
  - intros [ms|] s' H; [|split; [exact H | exact I]].
    destruct H as [H1 [H2 H3]]. wp_step. split; [exact H1|].
    exists ms. split; [reflexivity|]. split; [exact H2|].
    rewrite length_seq, Ho, firstn_all in H3. exact H3.
  - intros done i rest ms s1 Hl [H1 [H2 H3]].
    apply seq_split in Hl. destruct Hl as [-> Hlt].
    wp_step. eapply wp_mono; [|apply calculateMatch_spec].
    intros [m|] s2 [H4 H5]; [|eapply same_objects_trans; eassumption].
    wp_step. split; [eapply same_objects_trans; eassumption|].
    destruct H5 as [Hn _].
    destruct (same_objects_nth _ _ _ _ (same_objects_trans _ _ _ H1 H4) Hn) as [a [Ha Hr]].
    rewrite length_app, Nat.add_1_r, (firstn_snoc _ _ _ Ha).
    destruct (score m >? lit 0.3) eqn:E.
    + split.
      * apply Forall_app. split; [exact H2|]. constructor; [exact E | constructor].
      * apply Subseq_app; [exact H3|]. apply Subseq_take; [exact Hr | constructor].
    + split; [exact H2|].
      rewrite <- (app_nil_r ms). apply Subseq_app; [exact H3|].
      apply Subseq_skip. constructor.
  - rewrite Ho. split; [apply same_objects_refl|]. split; constructor.
Qed.

(** ** The fallback *)

Definition fallback_of (env : Env num) (m : AlumniMatch num) : Prop :=
(exists t, score m = lit 0.5 + Math_random env t * lit 0.3)
/\ reasons m = [ReasonText "Profile compatibility"; ReasonText "Shared academic background"]
/\ matchTypes m = [mkCriterion career_similarity (lit 1.0)]
/\ aiInsights m = InsightText "Good potential for professional networking and career insights.".

Lemma getFallbackMatches_spec env limit (s : State) :
  wp (getFallbackMatches env limit)
     (fun o s' =>
        objects s' = objects s
        /\ exists ms, o = Returned ms
                      /\ map alumni ms = JS.slice0 (objects s) limit
                      /\ Forall (fallback_of env) ms) s.
Proof.
  unfold getFallbackMatches. wp_step. wp_step.
  eapply wp_mono;
    [| apply (wp_for_each _
                (fun done (ms : list (AlumniMatch num)) s' =>
                   objects s' = objects s /\ map alumni ms = done
                   /\ Forall (fallback_of env) ms)
                (fun _ => False))].
  - intros [ms|] s' H; [|contradiction].
    destruct H as [H1 [H2 H3]]. split; [exact H1|]. exists ms. auto.
  - intros done a rest ms s1 _ [H1 [H2 H3]].
    unfold fallbackMatch, next_tick. wp_step. wp_step. unfold wp. cbn.
    split; [exact H1|]. split.
    + rewrite map_app, H2. reflexivity.
    + apply Forall_app. split; [exact H3|]. constructor; [|constructor].
      unfold fallback_of. cbn. eauto.
  - split; [reflexivity|]. split; [reflexivity | constructor].
Qed.

(** [findMatches] never throws: what the ranking throws, the fallback
    catches. *)
Lemma findMatches_in_spec env profile criteria limit (s : State) :
  let crit := match criteria with Some c => c | None => getDefaultCriteria end in
  let lim := match limit with Some l => l | None => 10%Z end in
  exists out s',
    findMatches_in env profile criteria limit s = (Returned out, s')
    /\ match rank env profile crit lim s with
       | (Returned ranked, _) => out = ranked
       | (Thrown, s1) =>
           same_objects (objects s) (objects s1)
           /\ map alumni out = JS.slice0 (objects s1) lim
           /\ Forall (fallback_of env) out
       end.
Proof.
  intros crit lim. unfold findMatches_in, try_catch. fold crit lim.
  pose proof (rank_spec env profile crit lim s) as R. unfold wp in R.
  destruct (rank env profile crit lim s) as [[ranked|] s1]; cbn [fst snd] in R.
  - eauto.
  - pose proof (getFallbackMatches_spec env lim s1) as F. unfold wp in F.
    destruct (getFallbackMatches env lim s1) as [o s2]. cbn [fst snd] in F.
    destruct F as [_ [ms [-> [F1 F2]]]].
    exists ms, s2. split; [reflexivity|]. destruct R as [R _]. auto.
Qed.
End Facts.
End EngineFacts.

(* ================================================================== *)
(** * The ranked list *)
(* ================================================================== *)

(** ** How many results, and which *)

(** The request the route documents as its sample. *)
Definition sampleRequest : Route.StudentRequest :=
Route.mkRequest "John Doe" "Computer Science" ["Software Engineering"; "AI"]
  ["JavaScript"; "Python"] "San Francisco, CA" true None.

(** An embeddings end point that cannot be reached. *)
Definition unreachable {num} : nat -> Route.Embed (num:=num) := fun _ _ _ => None.


Example sampleRequest_scores :
  match Route.POST (N:=JSNumber) unreachable (Some sampleRequest) None (Some 5%Z) with
  | Route.Success matches =>
      map (fun m => (Route.id (Route.alumnus m), Route.matchScore m)) matches
  | Route.BadRequest => []
  end
  = [ ("1", 0.44750000000000001); ("3", 0.30999999999999994);
      ("5", 0.30999999999999994); ("2", 0.27); ("4", 0.21) ]%float.
Proof. vm_compute. reflexivity. Qed.


Definition limit_or_default (limit : option Z) : Z :=
match limit with Some l => l | None => 10%Z end.



(** ** The order of the results *)

(** A score that passed the threshold. *)
Definition above_threshold {num} {N : Number num} (x : num) : Prop :=
(x >? lit 0.3)%num = true.

(** An arithmetic in which the comparator of the sort, [b.score - a.score],
    orders the scores that passed the threshold: [x - y > 0] is asymmetric,
    and a [z] that is not above [y] is below every [x] that is above
    [y]. *)
Class ScoreOrder {num : Type} (N : Number num) : Prop := {
  sub_pos_asym : forall x y : num,
    above_threshold x -> above_threshold y ->
    (x - y >? of_Z 0)%num = true -> (y - x >? of_Z 0)%num = false;
  sub_pos_weak : forall x y z : num,
    above_threshold x -> above_threshold y -> above_threshold z ->
    (x - y >? of_Z 0)%num = true -> (z - y >? of_Z 0)%num = false ->
    (x - z >? of_Z 0)%num = true
}.

Lemma Exact_ltb_true (a b : R) : Exact.ltb a b = true <-> (a < b)%R.
Proof. unfold Exact.ltb. destruct (Rlt_dec a b); split; intro; try lra; discriminate. Qed.

Lemma Exact_ltb_false (a b : R) : Exact.ltb a b = false <-> (b <= a)%R.
Proof. unfold Exact.ltb. destruct (Rlt_dec a b); split; intro; try lra; discriminate. Qed.

#[export] Instance RealScoreOrder : ScoreOrder RealNumber.
Proof.
  split; unfold ngtb; cbn [nltb nsub of_Z RealNumber]; intros.
  - rewrite Exact_ltb_true in *. rewrite Exact_ltb_false. lra.
  - rewrite Exact_ltb_true in H2. rewrite Exact_ltb_false in H3.
    rewrite Exact_ltb_true. lra.
Qed.

Section Ordered.
Context {num : Type} {N : Number num} {O : ScoreOrder N}.

Lemma by_score_asym (x y : AlumniMatch num) :
  EngineFacts.admitted x -> EngineFacts.admitted y ->
  AlumniMatchingEngine.by_score x y = true -> AlumniMatchingEngine.by_score y x = false.
Proof. unfold AlumniMatchingEngine.by_score. intros Hx Hy. apply sub_pos_asym; assumption. Qed.

Lemma by_score_weak (x y z : AlumniMatch num) :
  EngineFacts.admitted x -> EngineFacts.admitted y -> EngineFacts.admitted z ->
  AlumniMatchingEngine.by_score y x = true -> AlumniMatchingEngine.by_score y z = false ->
  AlumniMatchingEngine.by_score z x = true.
Proof.
  unfold AlumniMatchingEngine.by_score. intros Hx Hy Hz. apply sub_pos_weak; assumption.
Qed.
End Ordered.

Lemma StronglySorted_app_l {A} (R : A -> A -> Prop) (l r : list A) :
  StronglySorted R (l ++ r) -> StronglySorted R l.
Proof.
  induction l as [|x l IH]; intro H; [constructor|].
  cbn in H. inversion H as [|? ? Hs Hf]; subst.
  constructor; [apply IH, Hs|].
  apply Forall_app in Hf. apply Hf.
Qed.

(** Alex and Blake: two alumni who differ in their identifiers only. *)
Definition twin (id : string) : AlumniProfile float :=
mkAlumni id None "Computer Science"
  (Some "Data Engineer") (Some "Globex") (Some "Technology")
  (Some "Denver, CO") (Some 6%float)
  (Some [mkSkill "Python" Expert; mkSkill "SQL" Advanced])
  true ["Career Growth"].

Definition alex : AlumniProfile float := twin "alex".
Definition blake : AlumniProfile float := twin "blake".

Definition casey : Profile float :=
Student (mkStudent "casey" (Some "Denver, CO") "Computer Science"
           (Some [mkSkill "Python" Beginner]) ["Data"] true).

Definition ranked_ids (pool : list (AlumniProfile float)) : list (string * float) :=
match AlumniMatchingEngine.findMatches (demoEnv 0.25%float)
        AlumniMatchingEngine.loadMockEmbeddings 0 casey pool None None with
| Returned out => map (fun m => (a_id (alumni m), score m)) out
| Thrown => []
end.

Example twins_in_pool_order :
  ranked_ids [blake; alex] = [("blake", 0.85298316298536569); ("alex", 0.85298316298536569)]%float
  /\ ranked_ids [alex; blake] = [("alex", 0.85298316298536569); ("blake", 0.85298316298536569)]%float.
Proof. vm_compute. split; reflexivity. Qed.

(** The claim of C3: among results with equal scores the order follows a
    key on the candidates' identifiers. *)
Definition ties_follow_identifier : Prop :=
exists key_le : string -> string -> bool,
  (forall x y, key_le x y = true -> key_le y x = true -> x = y)
  /\ forall env cache t0 profile pool criteria limit out,
       AlumniMatchingEngine.findMatches (N:=JSNumber) env cache t0 profile pool criteria limit
       = Returned out ->
       forall pre m1 m2 post,
         out = pre ++ m1 :: m2 :: post ->
         score m1 = score m2 ->
         key_le (a_id (alumni m1)) (a_id (alumni m2)) = true.

(** C3, counterexample.  Alex and Blake score the same; whoever comes
    first in the pool comes first in the results, so no key on their
    identifiers decides. *)
Lemma ties_follow_the_pool_not_the_identifier : ~ ties_follow_identifier.
Proof.
  intros [key_le [anti H]].
  assert (K : forall a b, a <> b ->
                (forall out,
                    AlumniMatchingEngine.findMatches (N:=JSNumber) (demoEnv 0.25%float)
                      AlumniMatchingEngine.loadMockEmbeddings 0 casey [twin a; twin b] None None
                    = Returned out ->
                    exists m1 m2, out = [] ++ m1 :: m2 :: []
                                  /\ score m1 = score m2
                                  /\ a_id (alumni m1) = a /\ a_id (alumni m2) = b) ->
                (forall out,
                    AlumniMatchingEngine.findMatches (N:=JSNumber) (demoEnv 0.25%float)
                      AlumniMatchingEngine.loadMockEmbeddings 0 casey [twin b; twin a] None None
                    = Returned out ->
                    exists m1 m2, out = [] ++ m1 :: m2 :: []
                                  /\ score m1 = score m2
                                  /\ a_id (alumni m1) = b /\ a_id (alumni m2) = a) ->
                False).
  { intros a b Hab R1 R2.
    pose proof (EngineFacts.findMatches_in_spec (demoEnv 0.25%float) casey None None
                  (mkState AlumniMatchingEngine.loadMockEmbeddings [twin a; twin b] 0%nat))
      as [o1 [s1 [E1 _]]].
    pose proof (EngineFacts.findMatches_in_spec (demoEnv 0.25%float) casey None None
                  (mkState AlumniMatchingEngine.loadMockEmbeddings [twin b; twin a] 0%nat))
      as [o2 [s2 [E2 _]]].
    assert (F1 : AlumniMatchingEngine.findMatches (demoEnv 0.25%float)
                   AlumniMatchingEngine.loadMockEmbeddings 0 casey [twin a; twin b] None None
                 = Returned o1)
      by (unfold AlumniMatchingEngine.findMatches; rewrite E1; reflexivity).
    assert (F2 : AlumniMatchingEngine.findMatches (demoEnv 0.25%float)
                   AlumniMatchingEngine.loadMockEmbeddings 0 casey [twin b; twin a] None None
                 = Returned o2)
      by (unfold AlumniMatchingEngine.findMatches; rewrite E2; reflexivity).
    destruct (R1 _ F1) as [m1 [m2 [X1 [X2 [X3 X4]]]]].
    destruct (R2 _ F2) as [n1 [n2 [Y1 [Y2 [Y3 Y4]]]]].
    pose proof (H _ _ _ _ _ _ _ _ F1 _ _ _ _ X1 X2) as K1.
    pose proof (H _ _ _ _ _ _ _ _ F2 _ _ _ _ Y1 Y2) as K2.
    rewrite X3, X4 in K1. rewrite Y3, Y4 in K2.
    apply Hab. apply anti; assumption. }
  apply (K "alex" "blake"); [discriminate | |];
    intros out E; vm_compute in E; injection E as <-;
    do 2 eexists; (split; [reflexivity|]); repeat split.
Qed.

(** C3, amended.  When the ranking is not cut short by an exception, the
    results are the head of the stable sort of the admitted matches taken
    in the order of the pool: no result has a score below that of a later
    one, and results that tie come in the order of the pool.  This holds in
    every arithmetic in which the comparator [b.score - a.score] orders the
    scores, exact arithmetic among them. *)
Theorem ranking_sorted_ties_in_pool_order :
  forall {num} (N : Number num) (O : ScoreOrder N) (env : Env num)
         cache t0 profile pool criteria limit,
    let lim := limit_or_default limit in
    let crit := match criteria with
                | Some c => c
                | None => AlumniMatchingEngine.getDefaultCriteria
                end in
    exists out,
      AlumniMatchingEngine.findMatches env cache t0 profile pool criteria limit = Returned out
      /\ (fst (AlumniMatchingEngine.rank env profile crit lim (mkState cache pool t0)) <> Thrown ->
          exists picked,
            EngineFacts.in_pool_order picked pool
            /\ Forall EngineFacts.admitted picked
            /\ (exists rest, JS.sort AlumniMatchingEngine.by_score picked = out ++ rest)
            /\ StronglySorted (fun a b => AlumniMatchingEngine.by_score a b = false) out
            /\ forall k, EngineFacts.admitted k -> exists rest,
                 filter (tied AlumniMatchingEngine.by_score k) picked
                 = filter (tied AlumniMatchingEngine.by_score k) out ++ rest).
Proof.
  intros num N O env cache t0 profile pool criteria limit lim crit.
  destruct (EngineFacts.findMatches_in_spec env profile criteria limit (mkState cache pool t0))
    as [out [s' [E H]]].
  exists out. unfold AlumniMatchingEngine.findMatches. rewrite E. split; [reflexivity|].
  fold crit in H.
  change (match limit with Some l => l | None => 10%Z end) with lim in H.
  pose proof (EngineFacts.rank_spec env profile crit lim (mkState cache pool t0)) as R.
  unfold wp in R.
  destruct (AlumniMatchingEngine.rank env profile crit lim (mkState cache pool t0))
    as [[ranked|] s1]; cbn [fst snd objects] in *; [|intro C; contradiction C; reflexivity].
  intros _. subst out. destruct R as [_ [picked [-> [Ha Hp]]]].
  exists picked. split; [exact Hp|]. split; [exact Ha|].
  destruct (slice0_prefix (JS.sort AlumniMatchingEngine.by_score picked) lim) as [rest Hr].
  split; [exists rest; exact Hr|]. split.
  - apply (StronglySorted_app_l _ _ rest). rewrite <- Hr.
    apply (sort_sorted _ _ by_score_asym by_score_weak). exact Ha.
  - intros k Hk. exists (filter (tied AlumniMatchingEngine.by_score k) rest).
    rewrite <- filter_app, <- Hr.
    symmetry. apply (sort_stable _ _ by_score_asym by_score_weak); assumption.
Qed.

(** Exact arithmetic, an embeddings end point that answers [[1]] to every
    request, and a pool of two. *)
Definition constantEnv : Env R :=
mkEnv false (fun _ _ => Some [1%R]) (fun _ => None) (fun _ => (1 / 4)%R).

Definition twinR (id : string) : AlumniProfile R :=
mkAlumni id None "Computer Science"
  (Some "Data Engineer") (Some "Globex") (Some "Technology")
  (Some "Denver, CO") (Some 6%R)
  (Some [mkSkill "Python" Expert; mkSkill "SQL" Advanced])
  true ["Career Growth"].

Lemma ranking_sorted_ties_in_pool_order_witness :
  exists out,
    AlumniMatchingEngine.findMatches (N:=RealNumber) constantEnv [] 0
      (Alumni (twinR "casey")) [twinR "blake"; twinR "alex"] (Some []) None = Returned out
    /\ (fst (AlumniMatchingEngine.rank constantEnv (Alumni (twinR "casey")) [] 10%Z
               (mkState [] [twinR "blake"; twinR "alex"] 0%nat)) <> Thrown ->
        exists picked,
          EngineFacts.in_pool_order picked [twinR "blake"; twinR "alex"]
          /\ Forall EngineFacts.admitted picked
          /\ (exists rest, JS.sort AlumniMatchingEngine.by_score picked = out ++ rest)
          /\ StronglySorted (fun a b => AlumniMatchingEngine.by_score a b = false) out
          /\ forall k, EngineFacts.admitted k -> exists rest,
               filter (tied AlumniMatchingEngine.by_score k) picked
               = filter (tied AlumniMatchingEngine.by_score k) out ++ rest).
Proof.
  exact (ranking_sorted_ties_in_pool_order RealNumber RealScoreOrder constantEnv [] 0%nat
           (Alumni (twinR "casey")) [twinR "blake"; twinR "alex"] (Some []) None).
Defined.

(* ================================================================== *)
(** * Exceptions *)
(* ================================================================== *)

(** OpenAI cannot be reached: every request to it throws. *)
Definition offlineEnv {num} (r : num) : Env num :=
mkEnv false (fun _ _ => None) (fun _ => None) (fun _ => r).

(** The claim of C10, for an exception raised while the embedding of the
    seeker is generated: the candidates returned are the first [limit]
    candidates of the pool. *)
Definition embedding_failure_means_fallback : Prop :=
forall (env : Env float) cache t0 profile pool criteria limit,
  fst (AlumniMatchingEngine.requestEmbedding env profile (mkState cache pool t0)) = Thrown ->
  exists out,
    AlumniMatchingEngine.findMatches env cache t0 profile pool criteria limit = Returned out
    /\ map (fun m => a_id (alumni m)) out
       = map a_id (JS.slice0 pool (limit_or_default limit)).

(** C10, counterexample.  The request for the seeker's embedding throws;
    [generateProfileEmbedding] catches that itself and the ranking goes
    on, with its threshold: the one candidate, who scores 0.3 exactly, is
    not returned. *)
Lemma embedding_failure_is_handled_inside : ~ embedding_failure_means_fallback.
Proof.
  intro H.
  destruct (H (offlineEnv 0.25%float) [] 0%nat (student_at "Boston, MA")
              [alumnus_at "Austin, TX"] None None eq_refl) as [out [E1 E2]].
  vm_compute in E1. injection E1 as <-. discriminate.
Qed.

Lemma Forall2_map_r {A B C} (R : A -> B -> Prop) (f : C -> B) (l : list A) (l' : list C) :
  Forall2 R l (map f l') -> Forall2 (fun a c => R a (f c)) l l'.
Proof.
  revert l. induction l' as [|c l' IH]; intros l H; inversion H; subst; constructor; auto.
Qed.

(** C10, amended.  In exact arithmetic, with [Math.random] in [0, 1): if
    an exception escapes the ranking, [findMatches] returns, for the
    alumni objects [pool.slice(0, limit)] in their order (the first
    [limit] of the pool when [limit] is not negative), a score in
    [0.5, 0.8), the two fixed reasons and the fixed insight, with neither
    threshold nor sort.  Exceptions raised while an embedding or an
    insight is generated do not escape: those two steps always return. *)
Theorem fallback_on_escaped_exception :
  forall (env : Env R) cache t0 profile pool criteria limit s1,
    let lim := limit_or_default limit in
    let crit := match criteria with
                | Some c => c
                | None => AlumniMatchingEngine.getDefaultCriteria
                end in
    (forall t, (0 <= Math_random env t < 1)%R) ->
    AlumniMatchingEngine.rank env profile crit lim (mkState cache pool t0) = (Thrown, s1) ->
    (exists out,
       AlumniMatchingEngine.findMatches env cache t0 profile pool criteria limit = Returned out
       /\ Forall2 (fun a m => EngineFacts.reordered a (alumni m)) (JS.slice0 pool lim) out
       /\ ((0 <= lim)%Z -> JS.slice0 pool lim = firstn (Z.to_nat lim) pool)
       /\ Forall (fun m =>
                    (0.5 <= score m < 0.8)%R
                    /\ reasons m = [ReasonText "Profile compatibility";
                                    ReasonText "Shared academic background"]
                    /\ aiInsights m
                       = InsightText
                           "Good potential for professional networking and career insights.")
                 out)
    /\ (forall p s, exists e s',
          AlumniMatchingEngine.generateProfileEmbedding env p s = (Returned e, s'))
    /\ (forall seeker a sc s, exists r s',
          AlumniMatchingEngine.generateMatchInsights env seeker a sc s = (Returned r, s')).
Proof.
  intros env cache t0 profile pool criteria limit s1 lim crit Hr Ht.
  split; [|split].
  - destruct (EngineFacts.findMatches_in_spec env profile criteria limit (mkState cache pool t0))
      as [out [s' [E H]]].
    exists out. unfold AlumniMatchingEngine.findMatches. rewrite E. split; [reflexivity|].
    fold crit in H.
    change (match limit with Some l => l | None => 10%Z end) with lim in H.
    rewrite Ht in H. cbn [objects] in H. destruct H as [Hs [Hm Hf]].
    split; [|split].
    + apply Forall2_map_r. rewrite Hm. apply EngineFacts.same_objects_slice0, Hs.
    + apply slice0_nonneg.
    + apply Forall_forall. intros m Hin. rewrite Forall_forall in Hf.
      destruct (Hf m Hin) as [[t Hsc] [Hre [_ Hin']]].
      split; [|split; assumption].
      rewrite Hsc. specialize (Hr t).
      unfold lit. cbn. lra.
  - intros p s. destruct (EngineFacts.generateProfileEmbedding_returns env p s) as [e [s' [H _]]].
    eauto.
  - intros seeker a sc s.
    destruct (EngineFacts.generateMatchInsights_returns env seeker a sc s) as [r [s' [H _]]].
    eauto.
Qed.

(** A record that reached the engine without its skills. *)
Definition drew : AlumniProfile R :=
AlumniMatchingEngine.with_skills (twinR "drew") None.

Lemma fallback_on_escaped_exception_witness :
  exists out,
    AlumniMatchingEngine.findMatches (demoEnv (1 / 4)%R) [] 0 (Alumni (twinR "casey"))
      [drew; twinR "alex"; twinR "blake"] (Some [mkCriterion skill_complement 1%R]) (Some 2%Z)
    = Returned out
    /\ Forall2 (fun a m => EngineFacts.reordered a (alumni m)) [drew; twinR "alex"] out
    /\ Forall (fun m => (0.5 <= score m < 0.8)%R) out.
Proof.
  destruct (fallback_on_escaped_exception (demoEnv (1 / 4)%R) [] 0%nat (Alumni (twinR "casey"))
              [drew; twinR "alex"; twinR "blake"]
              (Some [mkCriterion skill_complement 1%R]) (Some 2%Z)
              (mkState [] [drew; twinR "alex"; twinR "blake"] 0%nat))
    as [[out [E [F2 [_ F]]]] _].
  - intro t. cbn [Math_random demoEnv]. lra.
  - reflexivity.
  - exists out. split; [exact E|]. split; [exact F2|].
    apply Forall_forall. intros m Hm. rewrite Forall_forall in F. apply (F m Hm).
Defined.

(* ================================================================== *)
(** * The blend of rules and semantic similarity *)
(* ================================================================== *)



(** ** The rule score and the candidate as the loop leaves them *)

Section SortedAgain.
Context {A : Type} (after : A -> A -> bool).




End SortedAgain.



Module RuleScore.
Import AlumniMatchingEngine.
Section Rules.
Context {num : Type} {N : Number num}.
Local Open Scope num_scope.

Local Abbreviation AlumniProfile := (AlumniProfile num).
Local Abbreviation Profile := (Profile num).
Local Abbreviation MatchCriteria := (MatchCriteria num).
Local Abbreviation State := (State num).

(** The score the loop of [calculateMatch] computes for one criterion;
    [None] when [calculateSkillComplement] throws. *)
Definition criterionScore (seeker : Profile) (alumni : AlumniProfile)
  (criterion : MatchCriteria) : option num :=
match c_type criterion with
| career_similarity => Some (calculateCareerSimilarity seeker alumni)
| skill_complement => calculateSkillComplement seeker alumni
| geographic_proximity => Some (calculateGeographicProximity seeker alumni)
| mentorship_fit => Some (calculateMentorshipFit seeker alumni)
end.

(** [totalScore] as the loop adds it up, [score * criterion.weight] after
    [score * criterion.weight], from [acc]. *)
Fixpoint weightedScores (seeker : Profile) (alumni : AlumniProfile)
  (criteria : list MatchCriteria) (acc : num) : option num :=
match criteria with
| [] => Some acc
| criterion :: rest =>
    match criterionScore seeker alumni criterion with
    | Some score => weightedScores seeker alumni rest (acc + score * weight criterion)
    | None => None
    end
end.
















(** ** One criterion, exactly *)


(** ** The loop, exactly *)



(** ** One candidate, exactly *)



End Rules.
End RuleScore.



(** A run: Dana as the seeker and as the one candidate, with the default
    criteria in demo mode.  The weighted scores add up to 0.865, the
    weights to 1, and the score is 0.865 * 0.7 plus 0.3 times the cosine
    of the seeker's embedding and Dana's. *)
Example dana_default_criteria_blend :
  RuleScore.weightedScores (N:=JSNumber) (Alumni dana) dana
    AlumniMatchingEngine.getDefaultCriteria 0%float = Some 0.86499999999999999%float
  /\ EngineFacts.weightSum (N:=JSNumber) AlumniMatchingEngine.getDefaultCriteria = 1%float
  /\ exists m s',
       AlumniMatchingEngine.calculateMatch (N:=JSNumber) (demoEnv 0.25%float) (Alumni dana) 0
         AlumniMatchingEngine.getDefaultCriteria
         (AlumniMatchingEngine.getMockEmbedding "seeker")
         (mkState AlumniMatchingEngine.loadMockEmbeddings [dana] 0) = (Returned m, s')
       /\ score m = 0.89959355764452931%float.
Proof.
  split; [vm_compute; reflexivity|]. split; [vm_compute; reflexivity|].
  eexists. eexists. split; [vm_compute; reflexivity|]. reflexivity.
Qed.

(* ================================================================== *)
(** * Skill complementarity *)
(* ================================================================== *)

Section Counting.
Context {A : Type}.



Lemma filter_length_insert_out (f : A -> bool) (l1 l2 : list A) (x : A) :
  f x = false -> filter f (l1 ++ x :: l2) = filter f (l1 ++ l2).
Proof. intro H. rewrite !filter_app. cbn [filter]. rewrite H. reflexivity. Qed.

End Counting.

Section ExactArithmetic.
Local Open Scope R_scope.




End ExactArithmetic.





(** The same on the program's floating point numbers, for the alumna the
    route lists first and its sample request. *)
Example skills_match_with_shared_skill :
  Route.calculateSkillsMatch (N:=JSNumber) ["JavaScript"; "Python"]
    ["Machine Learning"; "Cloud Architecture"] = 0.24%float
  /\ Route.calculateSkillsMatch (N:=JSNumber) ["JavaScript"; "Python"]
       ["Machine Learning"; "Python"; "Cloud Architecture"] = 0.44%float.
Proof. vm_compute. split; reflexivity. Qed.

(* ================================================================== *)
(** * IEEE-754 binary64: order and rounding *)
(* ================================================================== *)

(** What the axioms of the primitive floats, which describe each operation
    by its effect on sign, mantissa and exponent, say about the order of
    the numbers the program compares. *)
Module Binary64.
Local Open Scope Z_scope.

Local Abbreviation prec := FloatOps.prec.
Local Abbreviation emax := FloatOps.emax.
Local Abbreviation emin := (SpecFloat.emin prec emax).

(** ** Mantissas *)

Lemma digits2_pos_lower (p : positive) : 2 ^ (Zpos (digits2_pos p) - 1) <= Zpos p.
Proof.
  induction p as [p IH | p IH |]; cbn [digits2_pos].
  - rewrite Pos2Z.inj_succ.
    replace (Z.succ (Zpos (digits2_pos p)) - 1) with (Z.succ (Zpos (digits2_pos p) - 1)) by lia.
    rewrite Z.pow_succ_r by lia. lia.
  - rewrite Pos2Z.inj_succ.
    replace (Z.succ (Zpos (digits2_pos p)) - 1) with (Z.succ (Zpos (digits2_pos p) - 1)) by lia.
    rewrite Z.pow_succ_r by lia. lia.
  - cbn. lia.
Qed.

Lemma digits2_pos_upper (p : positive) : Zpos p < 2 ^ Zpos (digits2_pos p).
Proof.
  induction p as [p IH | p IH |]; cbn [digits2_pos].
  - rewrite Pos2Z.inj_succ, Z.pow_succ_r by lia. lia.
  - rewrite Pos2Z.inj_succ, Z.pow_succ_r by lia. lia.
  - cbn. lia.
Qed.

Lemma shr_1_m (mrs : shr_record) : 0 <= shr_m mrs -> shr_m (shr_1 mrs) = Z.div2 (shr_m mrs).
Proof.
  destruct mrs as [m r s]. cbn [shr_m]. intro H.
  destruct m as [|[p|p|]|p]; cbn; try reflexivity; lia.
Qed.

(** Shifting right by [n] bits divides the mantissa by [2 ^ n]. *)
Lemma iter_shr_1_m (n : positive) (mrs : shr_record) :
  0 <= shr_m mrs ->
  shr_m (SpecFloat.iter_pos shr_1 n mrs) = Z.shiftr (shr_m mrs) (Zpos n).
Proof.
  revert mrs. induction n as [n IH | n IH |]; intros mrs H; cbn [SpecFloat.iter_pos].
  - assert (H1 : 0 <= shr_m (shr_1 mrs))
      by (rewrite shr_1_m by assumption; apply Z.div2_nonneg; assumption).
    assert (H2 : 0 <= shr_m (SpecFloat.iter_pos shr_1 n (shr_1 mrs)))
      by (rewrite IH by assumption; apply Z.shiftr_nonneg; assumption).
    rewrite IH, IH, shr_1_m by assumption.
    rewrite Z.div2_spec, !Z.shiftr_shiftr by lia. f_equal. lia.
  - assert (H2 : 0 <= shr_m (SpecFloat.iter_pos shr_1 n mrs))
      by (rewrite IH by assumption; apply Z.shiftr_nonneg; assumption).
    rewrite IH, IH by assumption.
    rewrite !Z.shiftr_shiftr by lia. f_equal. lia.
  - rewrite shr_1_m by assumption. apply Z.div2_spec.
Qed.

Lemma iter_xO (m d : positive) : Zpos (Pos.iter xO m d) = Zpos m * 2 ^ Zpos d.
Proof.
  induction d as [|d IH] using Pos.peano_ind.
  - cbn. lia.
  - rewrite Pos.iter_succ, Pos2Z.inj_succ, Z.pow_succ_r by lia.
    rewrite Pos2Z.inj_xO, IH. lia.
Qed.

(** The aligned mantissa: [m * 2 ^ (e - ez)] for [ez <= e]. *)
Lemma shl_align_value (m : positive) (e ez : Z) :
  ez <= e -> Zpos (fst (shl_align m e ez)) = Zpos m * 2 ^ (e - ez).
Proof.
  intro H. unfold shl_align.
  destruct (ez - e) as [|d|d] eqn:E; cbn [fst]; try lia.
  - replace (e - ez) with 0 by lia. lia.
  - rewrite iter_xO. f_equal. f_equal. lia.
Qed.

(** ** Rounding keeps the sign *)

(** A positive mantissa at an exponent that is not below [emin] stays
    positive when it is shifted to its canonical exponent. *)
Lemma shr_fexp_positive (q : positive) (e : Z) (l : location) :
  emin <= e ->
  0 < shr_m (fst (shr_fexp prec emax (Zpos q) e l))
  /\ emin <= snd (shr_fexp prec emax (Zpos q) e l).
Proof.
  intro He. unfold shr_fexp, shr.
  cbn [Zdigits2].
  set (d := Zpos (digits2_pos q)).
  assert (Hm : shr_m (shr_record_of_loc (Zpos q) l) = Zpos q)
    by (destruct l as [|[| |]]; reflexivity).
  destruct (SpecFloat.fexp prec emax (d + e) - e) as [|n|n] eqn:En; cbn [fst snd].
  - rewrite Hm. split; lia.
  - rewrite iter_shr_1_m by (rewrite Hm; lia). rewrite Hm.
    assert (Hn : Zpos n = d - prec) by (unfold SpecFloat.fexp in En; lia).
    split; [|lia].
    rewrite Z.shiftr_div_pow2 by lia.
    apply Z.div_str_pos. split; [apply Z.pow_pos_nonneg; lia|].
    etransitivity; [|apply digits2_pos_lower]. fold d.
    apply Z.pow_le_mono_r; [lia|]. rewrite Hn. unfold prec. lia.
  - rewrite Hm. split; lia.
Qed.

Lemma round_nearest_even_pos (m : Z) (l : location) : 0 < m -> 0 < round_nearest_even m l.
Proof.
  intro H. destruct l as [|[| |]]; cbn; try lia. destruct (Z.even m); lia.
Qed.

(** Positive and finite, or [+oo]. *)
Definition positive_value (f : spec_float) : Prop :=
match f with
| S754_finite false _ _ | S754_infinity false => True
| _ => False
end.

Lemma binary_round_aux_positive (q : positive) (e : Z) (l : location) :
  emin <= e -> positive_value (binary_round_aux prec emax false (Zpos q) e l).
Proof.
  intro He. unfold binary_round_aux.
  pose proof (shr_fexp_positive q e l He) as [H1 H2].
  destruct (shr_fexp prec emax (Zpos q) e l) as [mrs' e']. cbn [fst snd] in H1, H2.
  pose proof (round_nearest_even_pos _ (loc_of_shr_record mrs') H1) as H3.
  destruct (round_nearest_even (shr_m mrs') (loc_of_shr_record mrs')) as [|q'|q']; try lia.
  pose proof (shr_fexp_positive q' e' loc_Exact H2) as [H4 H5].
  destruct (shr_fexp prec emax (Zpos q') e' loc_Exact) as [mrs'' e'']. cbn [fst snd] in H4.
  destruct (shr_m mrs'') as [|m|m]; try lia.
  destruct (e'' <=? emax - prec); exact I.
Qed.

(** No positive number is rounded to zero. *)
Lemma binary_round_positive (p : positive) (e : Z) :
  emin <= e -> positive_value (binary_round prec emax false p e).
Proof.
  intro He. unfold binary_round, shl_align.
  destruct (SpecFloat.fexp prec emax (Zpos (digits2_pos p) + e) - e) as [|n|n] eqn:En;
    apply binary_round_aux_positive; try assumption.
  unfold SpecFloat.fexp. lia.
Qed.

Lemma binary_round_negative (m : positive) (e : Z) :
  SFltb (S754_zero false) (binary_round prec emax true m e) = false.
Proof.
  unfold binary_round. destruct (shl_align _ _ _) as [mz ez].
  unfold binary_round_aux.
  destruct (shr_fexp prec emax (Zpos mz) ez loc_Exact) as [mrs' e'].
  destruct (shr_fexp prec emax _ e' loc_Exact) as [mrs'' e''].
  destruct (shr_m mrs'') as [|q|q]; [reflexivity| |reflexivity].
  destruct (e'' <=? emax - prec); reflexivity.
Qed.

Lemma positive_value_ltb (f : spec_float) :
  positive_value f -> SFltb (S754_zero false) f = true.
Proof. destruct f as [[|]|[|]| |[|] m e]; cbn; intro H; try contradiction; reflexivity. Qed.

(** ** The order of positive numbers *)

(** What [valid_binary] says of a finite number: its mantissa has 53 bits,
    or fewer at the least exponent. *)
Lemma valid_finite (s : bool) (m : positive) (e : Z) :
  valid_binary (S754_finite s m e) = true ->
  emin <= e /\ Zpos (digits2_pos m) <= prec /\ (Zpos (digits2_pos m) = prec \/ e = emin).
Proof.
  cbn [SpecFloat.valid_binary]. unfold bounded, canonical_mantissa.
  intro H. apply andb_true_iff in H. destruct H as [H _].
  apply Z.eqb_eq in H. unfold SpecFloat.fexp in H. lia.
Qed.

(** Exponent first, then mantissa. *)
Definition lex_lt (m1 : positive) (e1 : Z) (m2 : positive) (e2 : Z) : Prop :=
e1 < e2 \/ (e1 = e2 /\ (m1 < m2)%positive).

Lemma SFltb_finite (m1 m2 : positive) (e1 e2 : Z) :
  SFltb (S754_finite false m1 e1) (S754_finite false m2 e2) = true <-> lex_lt m1 e1 m2 e2.
Proof.
  unfold SFltb, SFcompare, lex_lt.
  destruct (Z.compare_spec e1 e2) as [E|E|E].
  - change (Pos.compare_cont Eq m1 m2) with (Pos.compare m1 m2).
    destruct (Pos.compare_spec m1 m2); split; intro; try discriminate; try reflexivity; lia.
  - split; [intro; left; exact E | reflexivity].
  - split; [discriminate | lia].
Qed.

Lemma SFltb_finite_false (m1 m2 : positive) (e1 e2 : Z) :
  SFltb (S754_finite false m1 e1) (S754_finite false m2 e2) = false <-> ~ lex_lt m1 e1 m2 e2.
Proof.
  rewrite <- SFltb_finite. destruct (SFltb _ _); split; intro H; congruence.
Qed.

(** The difference of the aligned mantissas of two positive numbers has
    the sign of their comparison. *)
Lemma aligned_difference (mx my : positive) (ex ey : Z) :
  valid_binary (S754_finite false mx ex) = true ->
  valid_binary (S754_finite false my ey) = true ->
  let ez := Z.min ex ey in
  let D := Zpos (fst (shl_align mx ex ez)) - Zpos (fst (shl_align my ey ez)) in
  (0 < D <-> lex_lt my ey mx ex).
Proof.
  intros Vx Vy ez D.
  apply valid_finite in Vx, Vy.
  destruct Vx as [Ex [Dx Cx]], Vy as [Ey [Dy Cy]].
  pose proof (digits2_pos_lower mx) as Lx. pose proof (digits2_pos_upper mx) as Ux.
  pose proof (digits2_pos_lower my) as Ly. pose proof (digits2_pos_upper my) as Uy.
  assert (Px : 2 ^ Zpos (digits2_pos mx) <= 2 ^ prec) by (apply Z.pow_le_mono_r; lia).
  assert (Py : 2 ^ Zpos (digits2_pos my) <= 2 ^ prec) by (apply Z.pow_le_mono_r; lia).
  assert (T : 2 ^ prec = 2 * 2 ^ (prec - 1)) by reflexivity.
  subst D. rewrite !shl_align_value by (subst ez; lia).
  unfold lex_lt.
  destruct (Z.lt_trichotomy ex ey) as [H | [H | H]].
  - replace ez with ex by (subst ez; lia). rewrite Z.sub_diag, Z.mul_1_r.
    assert (dy : Zpos (digits2_pos my) = prec) by lia. rewrite dy in Ly.
    assert (K : 2 <= 2 ^ (ey - ex))
      by (change 2 with (2 ^ 1) at 1; apply Z.pow_le_mono_r; lia).
    split; [|lia]. intro C. exfalso. nia.
  - subst ey. replace ez with ex by (subst ez; lia). rewrite Z.sub_diag, !Z.mul_1_r.
    split; intro; [right; split; [reflexivity|]|]; lia.
  - replace ez with ey by (subst ez; lia). rewrite Z.sub_diag, Z.mul_1_r.
    assert (dx : Zpos (digits2_pos mx) = prec) by lia. rewrite dx in Lx.
    assert (K : 2 <= 2 ^ (ex - ey))
      by (change 2 with (2 ^ 1) at 1; apply Z.pow_le_mono_r; lia).
    split; [intro; left; exact H|]. intros _. nia.
Qed.

(** [x - y > 0] exactly when [y < x], for positive [x] and [y]: the
    subtraction may round, but never to zero nor across it. *)
Lemma SFsub_positive (x y : spec_float) :
  valid_binary x = true -> valid_binary y = true ->
  positive_value x -> positive_value y ->
  SFltb (S754_zero false) (SFsub prec emax x y) = SFltb y x.
Proof.
  intros Vx Vy Px Py.
  destruct x as [[|]|[|]| |[|] mx ex]; try contradiction;
    destruct y as [[|]|[|]| |[|] my ey]; try contradiction; try reflexivity.
  cbn [SFsub cond_Zopp].
  pose proof (aligned_difference mx my ex ey Vx Vy) as A. cbv zeta in A.
  pose proof (valid_finite _ _ _ Vx) as [Ex _]. pose proof (valid_finite _ _ _ Vy) as [Ey _].
  set (D := Zpos (fst (shl_align mx ex (Z.min ex ey)))
            - Zpos (fst (shl_align my ey (Z.min ex ey)))) in *.
  destruct (SFltb (S754_finite false my ey) (S754_finite false mx ex)) eqn:L.
  - apply SFltb_finite, A in L.
    destruct D as [|d|d]; try lia. cbn [binary_normalize].
    apply positive_value_ltb, binary_round_positive. lia.
  - assert (N : ~ 0 < D) by (intro C; apply A, SFltb_finite in C; congruence).
    destruct D as [|d|d]; try lia; cbn [binary_normalize]; [reflexivity|].
    apply binary_round_negative.
Qed.

Lemma SFltb_positive_asym (x y : spec_float) :
  positive_value x -> positive_value y -> SFltb y x = true -> SFltb x y = false.
Proof.
  intros Px Py.
  destruct x as [[|]|[|]| |[|] mx ex]; try contradiction;
    destruct y as [[|]|[|]| |[|] my ey]; try contradiction; try reflexivity; try discriminate.
  rewrite SFltb_finite, SFltb_finite_false. unfold lex_lt. lia.
Qed.

Lemma SFltb_positive_weak (x y z : spec_float) :
  positive_value x -> positive_value y -> positive_value z ->
  SFltb y x = true -> SFltb y z = false -> SFltb z x = true.
Proof.
  intros Px Py Pz.
  destruct x as [[|]|[|]| |[|] mx ex]; try contradiction;
    destruct y as [[|]|[|]| |[|] my ey]; try contradiction;
    destruct z as [[|]|[|]| |[|] mz ez]; try contradiction;
    try reflexivity; try discriminate.
  rewrite !SFltb_finite, SFltb_finite_false. unfold lex_lt. lia.
Qed.

(** ** Comparisons *)

Lemma SFcompare_Gt (x y : spec_float) :
  SFcompare x y = Some Gt -> SFcompare y x = Some Lt.
Proof.
  destruct x as [[|]|[|]| |[|] mx ex]; destruct y as [[|]|[|]| |[|] my ey];
    cbn; try discriminate; try reflexivity;
    rewrite (Z.compare_antisym ex ey);
    change (Pos.compare_cont Eq my mx) with (Pos.compare my mx);
    change (Pos.compare_cont Eq mx my) with (Pos.compare mx my);
    rewrite (Pos.compare_antisym mx my);
    destruct (ex ?= ey); cbn; try discriminate; try reflexivity;
    destruct (mx ?= my)%positive; cbn; try discriminate; reflexivity.
Qed.

Lemma SFcompare_total (x y : spec_float) :
  SFcompare x x = Some Eq -> SFcompare y y = Some Eq -> SFcompare x y <> None.
Proof.
  destruct x as [[|]|[|]| |[|] mx ex]; destruct y as [[|]|[|]| |[|] my ey];
    cbn; try discriminate; intros; discriminate.
Qed.

Local Open Scope float_scope.

Lemma above_positive (t x : float) :
  positive_value (Prim2SF t) -> (t <? x) = true -> positive_value (Prim2SF x).
Proof.
  rewrite ltb_spec. intros Pt.
  destruct (Prim2SF t) as [[|]|[|]| |[|] mt et]; try contradiction;
    destruct (Prim2SF x) as [[|]|[|]| |[|] mx ex]; cbn; try discriminate; auto.
Qed.

Lemma sub_positive (a b : float) :
  positive_value (Prim2SF a) -> positive_value (Prim2SF b) ->
  (0 <? a - b) = (b <? a).
Proof.
  intros Pa Pb. rewrite !ltb_spec, sub_spec.
  change (Prim2SF 0) with (S754_zero false).
  apply SFsub_positive; auto using Prim2SF_valid.
Qed.

Lemma is_nan_false (a : float) :
  is_nan a = false -> SFcompare (Prim2SF a) (Prim2SF a) = Some Eq.
Proof.
  unfold is_nan. rewrite eqb_spec. unfold SFeqb.
  destruct (SFcompare _ _) as [[| |]|]; cbn; intro; try discriminate. reflexivity.
Qed.

Lemma leb_refl (a : float) : is_nan a = false -> (a <=? a) = true.
Proof. intro H. rewrite leb_spec. unfold SFleb. rewrite (is_nan_false a H). reflexivity. Qed.

Lemma ltb_leb (a b : float) : (a <? b) = true -> (a <=? b) = true.
Proof.
  rewrite ltb_spec, leb_spec. unfold SFltb, SFleb.
  destruct (SFcompare _ _) as [[| |]|]; intro; try discriminate; reflexivity.
Qed.

Lemma not_ltb_leb (a b : float) :
  is_nan a = false -> is_nan b = false -> (a <? b) = false -> (b <=? a) = true.
Proof.
  intros Ha Hb. rewrite ltb_spec, leb_spec. unfold SFltb, SFleb.
  pose proof (SFcompare_total _ _ (is_nan_false b Hb) (is_nan_false a Ha)) as T.
  pose proof (SFcompare_Gt (Prim2SF b) (Prim2SF a)) as G.
  destruct (SFcompare (Prim2SF b) (Prim2SF a)) as [[| |]|]; try reflexivity; try congruence.
  rewrite (G eq_refl). discriminate.
Qed.

Lemma ltb_is_nan (a b : float) : (a <? b) = true -> is_nan a = false /\ is_nan b = false.
Proof.
  unfold is_nan. rewrite ltb_spec, !eqb_spec. unfold SFltb, SFeqb.
  destruct (Prim2SF a) as [[|]|[|]| |[|] mx ex]; destruct (Prim2SF b) as [[|]|[|]| |[|] my ey];
    cbn; try discriminate; intros _;
    rewrite ?Z.compare_refl; change (Pos.compare_cont Eq ?m ?m) with (Pos.compare m m);
    rewrite ?Pos.compare_refl; split; reflexivity.
Qed.

(** ** [Math.min] and [Math.max] *)

Lemma min_nan (a b : float) :
  is_nan a = true \/ is_nan b = true -> is_nan (Float64.min a b) = true.
Proof.
  unfold Float64.min. destruct (is_nan a) eqn:Ha; [intros _; exact Ha|].
  intros [H | H]; [discriminate|]. rewrite H. exact H.
Qed.

Lemma min_spec (a b : float) :
  is_nan a = false -> is_nan b = false ->
  (Float64.min a b = a \/ Float64.min a b = b)
  /\ (Float64.min a b <=? a) = true /\ (Float64.min a b <=? b) = true.
Proof.
  intros Ha Hb. unfold Float64.min. rewrite Ha, Hb.
  destruct (a <? b) eqn:L1; [auto using leb_refl, ltb_leb|].
  destruct (b <? a) eqn:L2; [auto using leb_refl, ltb_leb|].
  destruct (get_sign a); auto 6 using leb_refl, not_ltb_leb.
Qed.


(** A clamped score: NaN, or at most the bound. *)
Lemma min_at_most (a b : float) :
  is_nan b = false ->
  is_nan (Float64.min a b) = true \/ (Float64.min a b <=? b) = true.
Proof.
  intro Hb. destruct (is_nan a) eqn:Ha.
  - left. apply min_nan. left. exact Ha.
  - right. apply min_spec; assumption.
Qed.

End Binary64.

(* ================================================================== *)
(** * The ranking on the program's numbers *)
(* ================================================================== *)

Lemma threshold_positive : Binary64.positive_value (Prim2SF (lit (N:=JSNumber) 0.3)).
Proof. vm_compute. exact I. Qed.

Lemma above_threshold_positive (x : float) :
  above_threshold x -> Binary64.positive_value (Prim2SF x).
Proof. apply Binary64.above_positive, threshold_positive. Qed.

(** On scores above the threshold the comparator of the sort and [<]
    agree. *)
Lemma sub_above_threshold (x y : float) :
  above_threshold x -> above_threshold y ->
  ((x - y)%num >? of_Z 0)%num = (y <? x)%float.
Proof.
  intros Hx Hy. apply Binary64.sub_positive; apply above_threshold_positive; assumption.
Qed.

#[export] Instance Binary64ScoreOrder : ScoreOrder JSNumber.
Proof.
  split.
  - intros x y Hx Hy. rewrite !sub_above_threshold by assumption.
    rewrite !FloatAxioms.ltb_spec.
    apply Binary64.SFltb_positive_asym; apply above_threshold_positive; assumption.
  - intros x y z Hx Hy Hz. rewrite !sub_above_threshold by assumption.
    rewrite !FloatAxioms.ltb_spec.
    apply Binary64.SFltb_positive_weak; apply above_threshold_positive; assumption.
Qed.

Lemma StronglySorted_weaken {A} (P : A -> Prop) (R R' : A -> A -> Prop) (l : list A) :
  (forall a b, P a -> P b -> R a b -> R' a b) ->
  Forall P l -> StronglySorted R l -> StronglySorted R' l.
Proof.
  intros H Hp Hs. induction Hs as [|a l Hs IH Ha]; [constructor|].
  inversion Hp as [|? ? Pa Pl]; subst.
  constructor; [apply IH, Pl|].
  rewrite Forall_forall in *. intros b Hb. apply H; auto.
Qed.

(** X1.  In the floating point arithmetic of the program, when the ranking
    is not cut short by an exception: every result has a score above 0.3,
    and no result has a score below that of a later one.  The comparator
    [b.score - a.score] rounds, but on two scores above the threshold its
    sign is that of the comparison of the scores. *)
Theorem findMatches_sorted_binary64 :
  forall (env : Env float) cache t0 profile pool criteria limit,
    let lim := limit_or_default limit in
    let crit := match criteria with
                | Some c => c
                | None => AlumniMatchingEngine.getDefaultCriteria
                end in
    (forall x y : float,
        (0.3 <? x)%float = true -> (0.3 <? y)%float = true ->
        (0 <? y - x)%float = (x <? y)%float)
    /\ exists out,
         AlumniMatchingEngine.findMatches env cache t0 profile pool criteria limit = Returned out
         /\ (fst (AlumniMatchingEngine.rank env profile crit lim (mkState cache pool t0))
             <> Thrown ->
             Forall (fun m => (0.3 <? score m)%float = true) out
             /\ StronglySorted (fun a b => (score a <? score b)%float = false) out).
Proof.
  intros env cache t0 profile pool criteria limit lim crit.
  split; [intros x y Hx Hy; apply (sub_above_threshold y x); assumption|].
  destruct (EngineFacts.findMatches_in_spec env profile criteria limit (mkState cache pool t0))
    as [out [s' [E H]]].
  exists out. unfold AlumniMatchingEngine.findMatches. rewrite E. split; [reflexivity|].
  fold crit in H.
  change (match limit with Some l => l | None => 10%Z end) with lim in H.
  pose proof (EngineFacts.rank_spec env profile crit lim (mkState cache pool t0)) as R.
  unfold wp in R.
  destruct (AlumniMatchingEngine.rank env profile crit lim (mkState cache pool t0))
    as [[ranked|] s1]; cbn [fst snd objects] in *; [|intro C; contradiction C; reflexivity].
  intros _. subst out. destruct R as [_ [picked [-> [Ha Hp]]]].
  assert (Hs : Forall EngineFacts.admitted
                 (JS.slice0 (JS.sort AlumniMatchingEngine.by_score picked) lim))
    by (apply slice0_Forall, sort_Forall; exact Ha).
  split; [exact Hs|].
  apply (StronglySorted_weaken EngineFacts.admitted
           (fun a b => AlumniMatchingEngine.by_score a b = false)); [|exact Hs|].
  - intros a b Pa Pb. unfold AlumniMatchingEngine.by_score.
    rewrite (sub_above_threshold (score b) (score a)) by assumption. exact (fun h => h).
  - destruct (slice0_prefix (JS.sort AlumniMatchingEngine.by_score picked) lim) as [rest Hr].
    apply (StronglySorted_app_l _ _ rest). rewrite <- Hr.
    apply (sort_sorted _ _ by_score_asym by_score_weak). exact Ha.
Qed.

(** ** The route's score *)

Lemma calculateSemanticSimilarity_returns {num} {N : Number num}
  (embed : Route.Embed) text1 text2 (k : nat) :
  exists r k', Route.calculateSemanticSimilarity embed text1 text2 k = (Returned r, k').
Proof.
  unfold Route.calculateSemanticSimilarity, try_catch, bind, Route.next_request, defined, ret, throw.
  destruct (embed k text1) as [e1|]; [|eauto].
  destruct (embed (S k) text2) as [e2|]; [|eauto].
  destruct (Route.semantic_loop e1 e2 _) as [[d m1] m2].
  destruct (_ || _); eauto.
Qed.

Lemma criterion_score_returns {num} {N : Number num}
  (embed : Route.Embed) sp ap type (k : nat) :
  exists r k', Route.criterion_score embed sp ap type k = (Returned r, k').
Proof.
  unfold Route.criterion_score.
  destruct type.
  - apply calculateSemanticSimilarity_returns.
  - unfold ret. eauto.
  - unfold ret. eauto.
  - destruct (_ || _); [unfold ret; eauto|].
    unfold bind.
    destruct (calculateSemanticSimilarity_returns embed
                (JS.str_or (Route.r_bio sp) "") (Route.bio ap) k) as [r [k' ->]].
    unfold ret. eauto.
Qed.

(** The route's score is the clamp of a total: nothing in
    [calculateMatchScore] throws past its handlers. *)
Lemma calculateMatchScore_clamped {num} {N : Number num}
  (embed : Route.Embed) sp ap (criteria : list (MatchCriteria num)) :
  exists totalScore,
    Route.calculateMatchScore embed sp ap criteria = Math_min totalScore (lit 1.0).
Proof.
  unfold Route.calculateMatchScore, Route.calculateMatchScore_in.
  assert (L : forall (acc : num) (k : nat),
             exists t k',
               for_each criteria acc
                 (fun totalScore criterion =>
                    score <- Route.criterion_score embed sp ap (c_type criterion) ;;
                    ret (totalScore + score * weight criterion)%num) k
               = (Returned t, k')).
  { induction criteria as [|c criteria IH]; intros acc k; cbn [for_each].
    - unfold ret. eauto.
    - unfold bind at 1 2.
      destruct (criterion_score_returns embed sp ap (c_type c) k) as [r [k' ->]].
      unfold ret at 1. apply IH. }
  destruct (L (of_Z 0) O) as [t [k' E]].
  unfold bind at 1. rewrite E. cbn. eauto.
Qed.

(** X2.  Every score the route computes is clamped: it is NaN (which a NaN
    weight or a NaN in an embedding produce) or at most 1, whatever the
    criteria, their weights and the answers of the embeddings end point
    are; so is every [matchScore] of a response. *)
Theorem route_score_at_most_one :
  forall (embed : nat -> Route.Embed) studentProfile criteria limit,
    (forall alumniProfile i,
        let r := Route.calculateMatchScore (N:=JSNumber) (embed i) studentProfile
                   alumniProfile criteria in
        PrimFloat.is_nan r = true \/ (r <=? 1)%float = true)
    /\ match Route.POST (N:=JSNumber) embed (Some studentProfile) (Some criteria) limit with
       | Route.Success matches =>
           Forall (fun m => PrimFloat.is_nan (Route.matchScore m) = true
                            \/ (Route.matchScore m <=? 1)%float = true) matches
       | Route.BadRequest => True
       end.
Proof.
  intros embed sp criteria limit.
  assert (A : forall ap i,
             let r := Route.calculateMatchScore (N:=JSNumber) (embed i) sp ap criteria in
             PrimFloat.is_nan r = true \/ (r <=? 1)%float = true).
  { intros ap i r. subst r.
    destruct (calculateMatchScore_clamped (embed i) sp ap criteria) as [t ->].
    apply (Binary64.min_at_most t 1%float). reflexivity. }
  split; [exact A|].
  unfold Route.POST.
  destruct (negb (JS.nonEmpty (Route.r_name sp))); [exact I|].
  apply slice0_Forall, sort_Forall.
  apply Forall_forall. intros m Hm. apply in_map_iff in Hm.
  destruct Hm as [[i ap] [<- _]]. cbn [Route.matchScore]. apply A.
Qed.

(* ================================================================== *)
(** * More on [AlumniMatchingEngine] *)
(* ================================================================== *)

(** ** The hash and the mock embedding *)

Lemma toInt32_range (z : Z) : (- 2 ^ 31 <= AlumniMatchingEngine.toInt32 z < 2 ^ 31)%Z.
Proof.
  unfold AlumniMatchingEngine.toInt32.
  pose proof (Z.mod_pos_bound (z + 2 ^ 31) (2 ^ 32)) as H. lia.
Qed.

Lemma simpleHash_loop_range (str : string) (hash : Z) :
  (- 2 ^ 31 <= hash < 2 ^ 31)%Z ->
  (- 2 ^ 31 <= AlumniMatchingEngine.simpleHash_loop hash str < 2 ^ 31)%Z.
Proof.
  revert hash. induction str as [|c r IH]; intros hash H; cbn; [exact H|].
  apply IH. apply toInt32_range.
Qed.

(** X3.  [simpleHash] returns an integer from 0 to 2^31 (the absolute value
    of a signed 32-bit integer), 0 for the empty string, and the code unit
    itself for a string of one character. *)
Theorem simpleHash_range :
  forall str : string,
    (0 <= AlumniMatchingEngine.simpleHash str <= 2 ^ 31)%Z
    /\ AlumniMatchingEngine.simpleHash "" = 0%Z
    /\ forall c : ascii,
         AlumniMatchingEngine.simpleHash (String c "") = JS.charCode c.
Proof.
  intro str. split; [|split].
  - unfold AlumniMatchingEngine.simpleHash.
    pose proof (simpleHash_loop_range str 0) as H. lia.
  - reflexivity.
  - intro c. unfold AlumniMatchingEngine.simpleHash. cbn [AlumniMatchingEngine.simpleHash_loop].
    unfold AlumniMatchingEngine.simpleHash_step, AlumniMatchingEngine.toInt32, JS.charCode.
    assert (B : (0 <= Z.of_N (N_of_ascii c) < 256)%Z).
    { pose proof (N_ascii_bounded c). lia. }
    change (0 * 32)%Z with 0%Z. change ((0 + 2 ^ 31) mod 2 ^ 32 - 2 ^ 31)%Z with 0%Z.
    rewrite Z.mod_small by lia. lia.
Qed.

Lemma mockEntry_mod_1000 {num} {N : Number num} (h1 h2 : Z) (i : nat) :
  (h1 mod 1000 = h2 mod 1000)%Z ->
  AlumniMatchingEngine.mockEntry h1 i = AlumniMatchingEngine.mockEntry h2 i.
Proof.
  intro H. unfold AlumniMatchingEngine.mockEntry.
  rewrite (Z.add_mod h1), (Z.add_mod h2), H by lia. reflexivity.
Qed.

(** X4.  The mock embedding of a text depends on the hash of the text
    modulo 1000 only: two texts whose hashes agree modulo 1000 have the
    same embedding, in any arithmetic.  (There are at most 1000 mock
    embeddings.) *)
Theorem mock_embedding_by_hash_mod_1000 :
  forall {num} (N : Number num) (text1 text2 : string),
    (AlumniMatchingEngine.simpleHash text1 mod 1000
     = AlumniMatchingEngine.simpleHash text2 mod 1000)%Z ->
    AlumniMatchingEngine.getMockEmbedding (N:=N) text1
    = AlumniMatchingEngine.getMockEmbedding (N:=N) text2.
Proof.
  intros num N text1 text2 H. unfold AlumniMatchingEngine.getMockEmbedding.
  apply map_ext. intro i. apply mockEntry_mod_1000, H.
Qed.

(** Two texts with the same hash. *)
Lemma mock_embedding_by_hash_mod_1000_witness :
  AlumniMatchingEngine.getMockEmbedding (N:=JSNumber) "Aa"
  = AlumniMatchingEngine.getMockEmbedding (N:=JSNumber) "BB".
Proof.
  apply (mock_embedding_by_hash_mod_1000 JSNumber "Aa" "BB"). reflexivity.
Defined.

(** ** The cache of embeddings *)

Lemma Map_get_set {V} (m : list (string * V)) (k : string) (v : V) :
  AlumniMatchingEngine.Map_get (AlumniMatchingEngine.Map_set m k v) k = Some v.
Proof.
  induction m as [|[k' v'] r IH]; cbn.
  - rewrite String.eqb_refl. reflexivity.
  - destruct (String.eqb k k') eqn:E; cbn; rewrite ?String.eqb_refl, ?E; auto.
Qed.

(** X5.  [getAlumniEmbedding] caches by identifier.  Once it has returned
    an embedding for an alumnus, a call for any alumni object with the same
    [id] returns that embedding again, without consulting the environment
    and without changing the state, whatever the other fields of the
    object have become. *)
Theorem getAlumniEmbedding_cached :
  forall {num} (N : Number num) (env : Env num) (a b : AlumniProfile num)
         (s s1 : State num) (e : list num),
    a_id a = a_id b ->
    AlumniMatchingEngine.getAlumniEmbedding env a s = (Returned e, s1) ->
    AlumniMatchingEngine.getAlumniEmbedding env b s1 = (Returned e, s1).
Proof.
  intros num N env a b s s1 e Hid H.
  unfold AlumniMatchingEngine.getAlumniEmbedding in *. rewrite <- Hid.
  unfold bind, get in *. cbv beta iota in *.
  destruct (AlumniMatchingEngine.Map_get (embeddings s) ("alumni_" ++ a_id a)) as [e0|] eqn:G.
  - unfold ret in H. injection H as -> ->. rewrite G. reflexivity.
  - destruct (EngineFacts.generateProfileEmbedding_returns env (Alumni a) s) as [e1 [s' [E _]]].
    rewrite E in H. unfold put, ret in H. cbv beta iota in H.
    injection H as -> <-. cbn [embeddings]. rewrite Map_get_set. reflexivity.
Qed.

(** Alex, and Alex after a change of career. *)
Lemma getAlumniEmbedding_cached_witness :
  AlumniMatchingEngine.getAlumniEmbedding (demoEnv 0.25%float)
    (mkAlumni "alex" None "Law" (Some "Barrister") None (Some "Justice") None None (Some [])
       false [])
    (mkState [("alumni_alex", AlumniMatchingEngine.getMockEmbedding "alex")] [] 0)
  = (Returned (AlumniMatchingEngine.getMockEmbedding "alex"),
     mkState [("alumni_alex", AlumniMatchingEngine.getMockEmbedding "alex")] [] 0).
Proof.
  apply (getAlumniEmbedding_cached JSNumber (demoEnv 0.25%float) alex _
           (mkState [("alumni_alex", AlumniMatchingEngine.getMockEmbedding "alex")] [] 0));
    reflexivity.
Defined.

(** X6.  The embeddings the constructor loads are never read: they are
    stored under profile texts, and [getAlumniEmbedding] looks up
    ['alumni_' + id].  On a fresh engine the embedding of every alumnus is
    generated and then stored under that key. *)
Theorem preloaded_embeddings_never_read :
  forall {num} (N : Number num) (env : Env num) (a : AlumniProfile num) objs t,
    AlumniMatchingEngine.Map_get (AlumniMatchingEngine.loadMockEmbeddings (N:=N))
      ("alumni_" ++ a_id a)%string = None
    /\ exists e s',
         AlumniMatchingEngine.generateProfileEmbedding env (Alumni a)
           (mkState AlumniMatchingEngine.loadMockEmbeddings objs t) = (Returned e, s')
         /\ AlumniMatchingEngine.getAlumniEmbedding env a
              (mkState AlumniMatchingEngine.loadMockEmbeddings objs t)
            = (Returned e,
               mkState (AlumniMatchingEngine.loadMockEmbeddings ++ [(("alumni_" ++ a_id a)%string, e)])
                 (objects s') (tick s')).
Proof.
  intros num N env a objs t.
  assert (G : forall e : list num,
             AlumniMatchingEngine.Map_set (AlumniMatchingEngine.loadMockEmbeddings (N:=N))
               ("alumni_" ++ a_id a)%string e
             = AlumniMatchingEngine.loadMockEmbeddings ++ [(("alumni_" ++ a_id a)%string, e)])
    by reflexivity.
  assert (M : AlumniMatchingEngine.Map_get (AlumniMatchingEngine.loadMockEmbeddings (N:=N))
                ("alumni_" ++ a_id a)%string = None) by reflexivity.
  split; [exact M|].
  set (s := mkState AlumniMatchingEngine.loadMockEmbeddings objs t).
  assert (Es : forall e s', AlumniMatchingEngine.generateProfileEmbedding env (Alumni a) s
                            = (Returned e, s') -> embeddings s' = embeddings s).
  { intros e s'. unfold AlumniMatchingEngine.generateProfileEmbedding,
      AlumniMatchingEngine.requestEmbedding, try_catch, bind, defined,
      AlumniMatchingEngine.next_tick, ret, throw.
    destruct (AlumniMatchingEngine.createProfileText (Alumni a));
      [|intro H; injection H as _ <-; reflexivity].
    destruct (demo_key env); [intro H; injection H as _ <-; reflexivity|].
    destruct (embeddings_create env (tick s) s0); intro H; injection H as _ <-; reflexivity. }
  destruct (EngineFacts.generateProfileEmbedding_returns env (Alumni a) s) as [e [s' [E _]]].
  exists e, s'. split; [exact E|].
  unfold AlumniMatchingEngine.getAlumniEmbedding, bind, get. cbv beta iota.
  change (embeddings s) with (AlumniMatchingEngine.loadMockEmbeddings (N:=N)).
  rewrite M, E. unfold put, ret. cbv beta iota.
  rewrite (Es e s' E). change (embeddings s) with (AlumniMatchingEngine.loadMockEmbeddings (N:=N)).
  rewrite G. reflexivity.
Qed.

(** ** Geographic proximity is symmetric *)

Lemma filter_nonempty {A} (p : A -> bool) (l : list A) :
  (0 <? List.length (filter p l))%nat = existsb p l.
Proof.
  induction l as [|x l IH]; cbn; [reflexivity|].
  destruct (p x); [reflexivity | exact IH].
Qed.

Lemma existsb_swap {A B} (r : A -> B -> bool) (la : list A) (lb : list B) :
  existsb (fun x => existsb (fun y => r x y) lb) la
  = existsb (fun y => existsb (fun x => r x y) la) lb.
Proof.
  induction la as [|x la IH]; cbn.
  - induction lb as [|y lb IHb]; cbn; [reflexivity | exact IHb].
  - rewrite IH. clear IH.
    induction lb as [|y lb IHb]; cbn; [reflexivity|].
    rewrite <- IHb.
    destruct (r x y), (existsb (fun y0 => r x y0) lb), (existsb (fun x0 => r x0 y) la);
      reflexivity.
Qed.

Lemma existsb_ext_all {A} (p q : A -> bool) (l : list A) :
  (forall x, p x = q x) -> existsb p l = existsb q l.
Proof. intro H. induction l as [|x l IH]; cbn; [reflexivity|]. rewrite H, IH. reflexivity. Qed.

(** X7.  [calculateGeographicProximity] is symmetric between two alumni
    who both have a [workLocation]: each scores the other the same. *)
Theorem engine_geography_symmetric :
  forall {num} (N : Number num) (a b : AlumniProfile num) (wa wb : string),
    workLocation a = Some wa ->
    workLocation b = Some wb ->
    AlumniMatchingEngine.calculateGeographicProximity (Alumni a) b
    = AlumniMatchingEngine.calculateGeographicProximity (Alumni b) a.
Proof.
  intros num N a b wa wb Ha Hb.
  unfold AlumniMatchingEngine.calculateGeographicProximity, AlumniMatchingEngine.extractLocation.
  rewrite Ha, Hb.
  set (la := JS.str_or (Some wa) ""). set (lb := JS.str_or (Some wb) "").
  rewrite (orb_comm (negb (JS.nonEmpty lb))).
  destruct (negb (JS.nonEmpty la) || negb (JS.nonEmpty lb)); [reflexivity|].
  rewrite (String.eqb_sym (JS.toLowerCase lb)).
  destruct (String.eqb (JS.toLowerCase la) (JS.toLowerCase lb)); [reflexivity|].
  rewrite !filter_nonempty.
  rewrite existsb_swap.
  erewrite existsb_ext_all; [reflexivity|].
  intro y. cbv beta. apply existsb_ext_all. intro x. apply orb_comm.
Qed.

Lemma engine_geography_symmetric_witness :
  AlumniMatchingEngine.calculateGeographicProximity (N:=JSNumber)
    (Alumni (alumnus_at "Austin, TX")) (alumnus_at "Houston, TX")
  = AlumniMatchingEngine.calculateGeographicProximity (N:=JSNumber)
      (Alumni (alumnus_at "Houston, TX")) (alumnus_at "Austin, TX").
Proof.
  apply (engine_geography_symmetric JSNumber (alumnus_at "Austin, TX")
           (alumnus_at "Houston, TX") "Austin, TX" "Houston, TX"); reflexivity.
Defined.

(** ** The top skills *)

(** X8.  [getTopSkills] sorts the skills array it is given in place, by
    level name in descending alphabetical order (Intermediate, Expert,
    Beginner, Advanced), keeping skills of one level in their order, and
    returns the names of the first three. *)
Theorem getTopSkills_by_level_name :
  forall sk : list Skill,
    let sorted := fst (AlumniMatchingEngine.getTopSkills sk) in
    let top := snd (AlumniMatchingEngine.getTopSkills sk) in
    Permutation sk sorted
    /\ StronglySorted
         (fun a b => (level_rank (skill_level b) <= level_rank (skill_level a))%Z) sorted
    /\ (forall lvl,
          filter (fun s => (level_rank (skill_level s) =? level_rank lvl)%Z) sorted
          = filter (fun s => (level_rank (skill_level s) =? level_rank lvl)%Z) sk)
    /\ top = map skill_name (firstn 3 sorted)
    /\ (List.length top <= 3)%nat
    /\ (level_rank Advanced < level_rank Beginner < level_rank Expert
        /\ level_rank Expert < level_rank Intermediate)%Z.
Proof.
  intros sk sorted top.
  set (after := fun a b : Skill => level_gtb (skill_level b) (skill_level a)).
  assert (asym : forall x y : Skill, True -> True -> after x y = true -> after y x = false).
  { intros x y _ _. unfold after, level_gtb. rewrite Z.ltb_lt, Z.ltb_ge. lia. }
  assert (weak : forall x y z : Skill, True -> True -> True ->
                   after y x = true -> after y z = false -> after z x = true).
  { intros x y z _ _ _. unfold after, level_gtb. rewrite !Z.ltb_lt, Z.ltb_ge. lia. }
  assert (ok : Forall (fun _ : Skill => True) sk) by (apply Forall_forall; auto).
  split; [apply EngineFacts.getTopSkills_perm|]. split; [|split; [|split; [|split]]].
  - pose proof (sort_sorted after (fun _ => True) asym weak sk ok) as S.
    eapply StronglySorted_weaken with (P := fun _ => True); [| |exact S].
    + intros a b _ _. unfold in_order, after, level_gtb. rewrite Z.ltb_ge. exact (fun h => h).
    + apply Forall_forall. auto.
  - intro lvl.
    pose proof (sort_stable after (fun _ => True) asym weak
                  (mkSkill "" lvl) sk I ok) as S.
    assert (T : forall s, tied after (mkSkill "" lvl) s
                          = (level_rank (skill_level s) =? level_rank lvl)%Z).
    { intro s. unfold tied, after, level_gtb. cbn [skill_level].
      destruct (Z.ltb_spec (level_rank (skill_level s)) (level_rank lvl));
        destruct (Z.ltb_spec (level_rank lvl) (level_rank (skill_level s)));
        destruct (Z.eqb_spec (level_rank (skill_level s)) (level_rank lvl));
        cbn; try reflexivity; lia. }
    rewrite <- !(filter_ext _ _ T). exact S.
  - reflexivity.
  - subst top. cbn [snd AlumniMatchingEngine.getTopSkills].
    rewrite length_map, length_firstn. lia.
  - cbn. lia.
Qed.

Example getTopSkills_intermediate_first :
  AlumniMatchingEngine.getTopSkills
    [ mkSkill "Go" Advanced; mkSkill "Python" Expert; mkSkill "Rust" Beginner;
      mkSkill "SQL" Intermediate ]
  = ( [ mkSkill "SQL" Intermediate; mkSkill "Python" Expert; mkSkill "Rust" Beginner;
        mkSkill "Go" Advanced ],
      [ "SQL"; "Python"; "Rust" ] ).
Proof. reflexivity. Qed.

(** ** What a call leaves behind *)

(** X9.  [findMatches] returns, and all it does to the alumni objects it
    was given is to reorder their [skills] arrays (the in-place sort of
    [getTopSkills]): afterwards the pool holds the same objects, with the
    same fields and the same skills, in the same positions. *)
Theorem findMatches_only_reorders_skills :
  forall {num} (N : Number num) (env : Env num) profile criteria limit (s : State num),
    exists out s',
      AlumniMatchingEngine.findMatches_in env profile criteria limit s = (Returned out, s')
      /\ EngineFacts.same_objects (objects s) (objects s')
      /\ map a_id (objects s') = map a_id (objects s).
Proof.
  intros num N env profile criteria limit s.
  set (crit := match criteria with
               | Some c => c
               | None => AlumniMatchingEngine.getDefaultCriteria
               end).
  set (lim := limit_or_default limit).
  assert (G : exists out s',
             AlumniMatchingEngine.findMatches_in env profile criteria limit s
             = (Returned out, s')
             /\ EngineFacts.same_objects (objects s) (objects s')).
  { unfold AlumniMatchingEngine.findMatches_in, try_catch. fold crit.
    change (match limit with Some l => l | None => 10%Z end) with lim.
    pose proof (EngineFacts.rank_spec env profile crit lim s) as R. unfold wp in R.
    destruct (AlumniMatchingEngine.rank env profile crit lim s) as [[ranked|] s1];
      cbn [fst snd] in R; destruct R as [R _].
    - eauto.
    - pose proof (EngineFacts.getFallbackMatches_spec env lim s1) as F. unfold wp in F.
      destruct (AlumniMatchingEngine.getFallbackMatches env lim s1) as [o s2].
      cbn [fst snd] in F. destruct F as [F1 [ms [-> _]]].
      exists ms, s2. split; [reflexivity|]. rewrite F1. exact R. }
  destruct G as [out [s' [E H]]]. exists out, s'.
  split; [exact E|]. split; [exact H|]. apply EngineFacts.same_objects_ids, H.
Qed.

(** A call that does reorder: Robin's skills come back sorted by level
    name. *)
Definition robin : AlumniProfile float :=
mkAlumni "robin" None "Computer Science"
  (Some "Data Engineer") (Some "Globex") (Some "Technology")
  (Some "Denver, CO") (Some 6%float)
  (Some [ mkSkill "React" Advanced; mkSkill "Python" Intermediate; mkSkill "AWS" Expert;
          mkSkill "Docker" Beginner; mkSkill "Kubernetes" Advanced ])
  true ["Career Growth"].

Example robin_skills_reordered :
  map a_skills
    (objects (snd (AlumniMatchingEngine.findMatches_in (demoEnv 0.25%float) casey None None
                     (mkState AlumniMatchingEngine.loadMockEmbeddings [robin] 0))))
  = [ Some [ mkSkill "Python" Intermediate; mkSkill "AWS" Expert; mkSkill "Docker" Beginner;
             mkSkill "React" Advanced; mkSkill "Kubernetes" Advanced ] ].
Proof. vm_compute. reflexivity. Qed.

(** ** Scores in exact arithmetic *)

Section ExactScores.
Local Open Scope R_scope.

Lemma ratio_unit (a n : nat) :
  (a <= n)%nat -> (0 < n)%nat ->
  0 <= of_nat (N:=RealNumber) a / of_nat (N:=RealNumber) n <= 1.
Proof.
  intros Ha Hn. unfold of_nat. cbn [of_Z RealNumber].
  assert (P : 0 < IZR (Z.of_nat n)) by (apply IZR_lt; lia).
  assert (A : 0 <= IZR (Z.of_nat a)) by (apply IZR_le; lia).
  assert (L : IZR (Z.of_nat a) <= IZR (Z.of_nat n)) by (apply IZR_le; lia).
  split.
  - apply Rmult_le_pos; [exact A | apply Rlt_le, Rinv_0_lt_compat, P].
  - apply (Rmult_le_reg_r (IZR (Z.of_nat n))); [exact P|].
    unfold Rdiv. rewrite Rmult_assoc, Rinv_l by lra. lra.
Qed.

Lemma filter_length_le {A} (p : A -> bool) (l : list A) :
  (List.length (filter p l) <= List.length l)%nat.
Proof. induction l as [|x l IH]; cbn; [lia|]. destruct (p x); cbn; lia. Qed.

Lemma str_in_In (x : string) (l : list string) : JS.str_in x l = true -> In x l.
Proof.
  unfold JS.str_in. rewrite existsb_exists. intros [y [Hy E]].
  apply String.eqb_eq in E. subst y. exact Hy.
Qed.



Lemma interests_nonneg (p : string -> bool) (l : list string) (s : R) :
  0 <= s ->
  0 <= fold_left (fun score interest => if p interest then score + lit 0.3 else score) l s.
Proof.
  revert s. induction l as [|x l IH]; intros s H; cbn [fold_left]; [exact H|].
  apply IH. destruct (p x); [|exact H].
  unfold lit. cbn [Qnum Qden of_Z ndiv nadd RealNumber]. lra.
Qed.

(** X11.  In exact arithmetic the career similarity lies in [0, 1],
    whatever the profiles are: the department, interest and experience
    bonuses are not negative, and their sum is clamped to 1. *)
Theorem career_similarity_unit_interval :
  forall (seeker : Profile R) (alumni : AlumniProfile R),
    0 <= AlumniMatchingEngine.calculateCareerSimilarity (N:=RealNumber) seeker alumni <= 1.
Proof.
  intros seeker alumni. unfold AlumniMatchingEngine.calculateCareerSimilarity.
  cbv zeta.
  set (s1 := if String.eqb _ _ then _ else _).
  assert (H1 : 0 <= s1).
  { subst s1. destruct (String.eqb _ _); unfold lit;
      cbn [Qnum Qden of_Z ndiv nadd RealNumber]; lra. }
  set (s2 := match seeker with Student _ => _ | Alumni _ => s1 end).
  assert (H2 : 0 <= s2).
  { subst s2. destruct seeker; [|exact H1]. apply interests_nonneg, H1. }
  set (s3 := match seeker with Alumni _ => _ | Student _ => s2 end).
  assert (H3 : 0 <= s3).
  { subst s3. destruct seeker as [|a]; [exact H2|].
    destruct (yearsExperience a); [|exact H2].
    cbn [nadd Math_max RealNumber].
    pose proof (Rmax_l (of_Z 0)
                  (lit 0.3 - Math_abs (num_or (Some r) (of_Z 0)
                                       - num_or (yearsExperience alumni) (of_Z 0))
                             * lit 0.05)%num) as M.
    cbn [of_Z RealNumber] in M |- *. lra. }
  clearbody s3. cbn [Math_min RealNumber]. unfold lit. cbn [Qnum Qden of_Z ndiv RealNumber].
  split.
  - apply Rmin_glb; lra.
  - etransitivity; [apply Rmin_r|]. lra.
Qed.
End ExactScores.

(* ================================================================== *)
(** * More on the match route *)
(* ================================================================== *)

(** X12.  The route's geographic proximity is symmetric in its two
    locations, in any arithmetic. *)
Theorem route_geography_symmetric :
  forall {num} (N : Number num) (location1 location2 : string),
    Route.calculateGeographicProximity (N:=N) location1 location2
    = Route.calculateGeographicProximity (N:=N) location2 location1.
Proof.
  intros num N l1 l2. unfold Route.calculateGeographicProximity. cbv zeta.
  rewrite (String.eqb_sym (JS.toLowerCase l2)).
  destruct (String.eqb (JS.toLowerCase l1) (JS.toLowerCase l2)); [reflexivity|].
  rewrite (String.eqb_sym (Route.getState (JS.toLowerCase l2))).
  destruct (String.eqb _ _); [reflexivity|].
  unfold Route.sameRegion.
  rewrite (andb_comm (Route.isWestCoast (Route.getState (JS.toLowerCase l2)))),
          (andb_comm (Route.isEastCoast (Route.getState (JS.toLowerCase l2)))),
          (andb_comm (Route.isTexas (Route.getState (JS.toLowerCase l2)))).
  reflexivity.
Qed.

Section ExactRoute.
Local Open Scope R_scope.

(** X13.  In exact arithmetic the route's skill score lies in [0, 1]; for
    a student without skills it is 0.6 times the share (capped at 1) of
    five that the alumnus's skills make up. *)
Theorem route_skills_match_unit_interval :
  forall studentSkills alumniSkills : list string,
    0 <= Route.calculateSkillsMatch (N:=RealNumber) studentSkills alumniSkills <= 1
    /\ Route.calculateSkillsMatch (N:=RealNumber) [] alumniSkills
       = Rmin (INR (List.length alumniSkills) / 5) 1 * (6 / 10).
Proof.
  intros ss sa. split.
  - unfold Route.calculateSkillsMatch. cbv zeta. cbn [nadd nmul Math_min RealNumber].
    match goal with
    | |- _ <= ndiv (of_nat ?a) (of_nat ?n) * _ + _ <= _ =>
        pose proof (ratio_unit a n) as [A1 A2]
    end.
    { etransitivity; [apply filter_length_le|]. rewrite length_map. lia. }
    { lia. }
    cbn [ndiv RealNumber] in *.
    set (u := of_nat _ / of_nat _) in *.
    set (c := List.length (filter _ (map JS.toLowerCase sa))).
    assert (C : 0 <= of_nat (N:=RealNumber) c / of_Z 5).
    { unfold of_nat. cbn [of_Z RealNumber].
      assert (0 <= IZR (Z.of_nat c)) by (apply IZR_le; lia). lra. }
    pose proof (Rmin_r (of_nat (N:=RealNumber) c / of_Z 5) (of_Z 1)) as M1.
    assert (M0 : 0 <= Rmin (of_nat (N:=RealNumber) c / of_Z 5) (of_Z 1))
      by (apply Rmin_glb; [exact C | cbn; lra]).
    cbn [of_Z RealNumber] in *.
    unfold lit. cbn [Qnum Qden of_Z ndiv RealNumber].
    set (v := Rmin _ _) in *. clearbody u v. lra.
  - unfold Route.calculateSkillsMatch. cbv zeta.
    cbn [map filter existsb negb List.length Nat.max nadd nmul ndiv Math_min RealNumber].
    assert (F : filter (fun _ : string => true) (map JS.toLowerCase sa) = map JS.toLowerCase sa).
    { induction (map JS.toLowerCase sa) as [|x l IH]; cbn; [reflexivity|]. rewrite IH. reflexivity. }
    rewrite F, length_map.
    unfold of_nat, lit. cbn [Qnum Qden of_Z ndiv RealNumber].
    rewrite (INR_IZR_INZ (List.length sa)). cbn [Z.of_nat]. lra.
Qed.

Lemma distinct_from_spec (l seen : list string) :
  NoDup seen ->
  let r := fold_left (fun seen w => if JS.str_in w seen then seen else seen ++ [w]) l seen in
  NoDup r /\ forall x, In x r <-> In x seen \/ In x l.
Proof.
  revert seen. induction l as [|w l IH]; intros seen Hs; cbn [fold_left].
  - split; [exact Hs|]. intro x. cbn. tauto.
  - destruct (JS.str_in w seen) eqn:E.
    + destruct (IH seen Hs) as [H1 H2]. split; [exact H1|].
      intro x. rewrite H2. cbn. apply str_in_In in E.
      split; [tauto|]. intros [H | [<- | H]]; auto.
    + assert (Hn : ~ In w seen).
      { intro C. unfold JS.str_in in E.
        assert (T : existsb (String.eqb w) seen = true)
          by (apply existsb_exists; exists w; split; [exact C | apply String.eqb_refl]).
        congruence. }
      assert (Hs' : NoDup (seen ++ [w])).
      { apply NoDup_app; [exact Hs | repeat constructor; intros [] |].
        intros x Hx [<- | []]. exact (Hn Hx). }
      destruct (IH (seen ++ [w]) Hs') as [H1 H2]. split; [exact H1|].
      intro x. rewrite H2, in_app_iff. cbn. tauto.
Qed.

Lemma distinct_spec (l : list string) :
  NoDup (Route.distinct l) /\ forall x, In x (Route.distinct l) <-> In x l.
Proof.
  destruct (distinct_from_spec l [] (NoDup_nil _)) as [H1 H2].
  split; [exact H1|]. intro x. fold (Route.distinct l) in H2. rewrite H2. cbn. tauto.
Qed.

Lemma split_ws_nonempty (s cur : string) (inrun : bool) : JS.split_ws cur inrun s <> [].
Proof.
  revert cur inrun. induction s as [|c r IH]; intros cur inrun; cbn; [discriminate|].
  destruct (JS.isSpace c); [destruct inrun; [apply IH | discriminate] | apply IH].
Qed.

Lemma In_str_in (x : string) (l : list string) : In x l -> JS.str_in x l = true.
Proof.
  intro H. apply existsb_exists. exists x. split; [exact H | apply String.eqb_refl].
Qed.

Lemma filter_all {A} (p : A -> bool) (l : list A) :
  (forall x, In x l -> p x = true) -> filter p l = l.
Proof.
  induction l as [|x l IH]; intro H; cbn; [reflexivity|].
  rewrite (H x (or_introl eq_refl)), IH; [reflexivity|].
  intros y Hy. apply H. right. exact Hy.
Qed.

(** X14.  The word overlap the route falls back on when the embeddings end
    point fails, in exact arithmetic: it never divides by zero (a text has
    at least one word, the empty one if need be) and is never negative;
    when no word of the first text is repeated it is at most 1, and it is
    exactly 1 for a text compared with itself. *)
Theorem simple_text_similarity_bounds :
  forall text1 text2 : string,
    let words1 := JS.split_spaces (JS.toLowerCase text1) in
    let words2 := JS.split_spaces (JS.toLowerCase text2) in
    (1 <= List.length (Route.distinct (words1 ++ words2)))%nat
    /\ 0 <= Route.calculateSimpleTextSimilarity (N:=RealNumber) text1 text2
    /\ (NoDup words1 ->
        Route.calculateSimpleTextSimilarity (N:=RealNumber) text1 text2 <= 1
        /\ Route.calculateSimpleTextSimilarity (N:=RealNumber) text1 text1 = 1).
Proof.
  intros text1 text2 words1 words2.
  destruct (distinct_spec (words1 ++ words2)) as [D1 D2].
  assert (L : (1 <= List.length (Route.distinct (words1 ++ words2)))%nat).
  { assert (W : words1 <> []) by apply split_ws_nonempty.
    destruct words1 as [|w ws]; [congruence|].
    assert (I : In w (Route.distinct ((w :: ws) ++ words2)))
      by (apply D2; left; reflexivity).
    destruct (Route.distinct ((w :: ws) ++ words2)); [contradiction | cbn; lia]. }
  split; [exact L|].
  unfold Route.calculateSimpleTextSimilarity. cbv zeta. fold words1 words2.
  split; [|intro Hd; split].
  - cbn [ndiv RealNumber]. unfold of_nat. cbn [of_Z RealNumber].
    apply Rmult_le_pos; [apply IZR_le; lia|].
    apply Rlt_le, Rinv_0_lt_compat, IZR_lt. lia.
  - apply ratio_unit; [|lia].
    apply NoDup_incl_length; [apply NoDup_filter, Hd|].
    intros x Hx. apply filter_In in Hx. apply D2, in_or_app. left. apply Hx.
  - rewrite filter_all by (intros x Hx; apply In_str_in, Hx).
    destruct (distinct_spec (words1 ++ words1)) as [E1 E2].
    assert (E : List.length (Route.distinct (words1 ++ words1)) = List.length words1).
    { apply Nat.le_antisymm; apply NoDup_incl_length; try assumption.
      - intros x Hx. apply E2, in_app_or in Hx. tauto.
      - intros x Hx. apply E2, in_or_app. left. exact Hx. }
    rewrite E. cbn [ndiv RealNumber]. unfold of_nat. cbn [of_Z RealNumber].
    assert (W : words1 <> []) by apply split_ws_nonempty.
    assert (0 < IZR (Z.of_nat (List.length words1))).
    { apply IZR_lt. destruct words1; [congruence | cbn; lia]. }
    apply Rinv_r. lra.
Qed.
End ExactRoute.

(** Repeated words: the overlap of ["ai ai ai"] with ["ai"] is 3. *)
Example simple_text_similarity_above_one :
  Route.calculateSimpleTextSimilarity (N:=JSNumber) "ai ai ai" "ai" = 3%float.
Proof. vm_compute. reflexivity. Qed.

(** ** The response *)

Lemma firstn_incl {A} (n : nat) (l : list A) (x : A) : In x (firstn n l) -> In x l.
Proof.
  intro H. rewrite <- (firstn_skipn n l). apply in_or_app. left. exact H.
Qed.

(** X15.  [POST] answers 400 exactly when the student profile is missing
    or has an empty name.  Otherwise it returns, for a limit that is not
    negative, exactly [min(limit, 5)] matches (there is no threshold), each
    for a different one of the five alumni. *)
Theorem POST_response_shape :
  forall {num} (N : Number num) (embed : nat -> Route.Embed) studentProfile criteria limit,
    let lim := limit_or_default limit in
    match studentProfile with
    | None => Route.POST (N:=N) embed None criteria limit = Route.BadRequest
    | Some p =>
        if JS.nonEmpty (Route.r_name p)
        then exists matches,
               Route.POST (N:=N) embed (Some p) criteria limit = Route.Success matches
               /\ ((0 <= lim)%Z ->
                   List.length matches = Nat.min (Z.to_nat lim) 5)
               /\ NoDup (map (fun m => Route.id (Route.alumnus m)) matches)
               /\ exists rest,
                    Permutation (map Route.alumnus matches ++ rest) Route.mockAlumni
        else Route.POST (N:=N) embed (Some p) criteria limit = Route.BadRequest
    end.
Proof.
  intros num N embed sp criteria limit lim.
  destruct sp as [p|]; [|reflexivity].
  unfold Route.POST. fold (limit_or_default limit). fold lim.
  destruct (JS.nonEmpty (Route.r_name p)); cbn [negb]; [|reflexivity].
  eexists. split; [reflexivity|].
  set (crit := match criteria with Some c => c | None => Route.defaultCriteria end).
  set (scored := map _ (combine _ Route.mockAlumni)).
  assert (A : map Route.alumnus scored = Route.mockAlumni) by reflexivity.
  assert (P : Permutation (map Route.alumnus (JS.sort Route.by_matchScore scored))
                Route.mockAlumni).
  { rewrite <- A. apply Permutation_map, sort_perm. }
  destruct (slice0_prefix (JS.sort Route.by_matchScore scored) lim) as [rest Hr].
  split; [|split].
  - intro Hl. rewrite slice0_nonneg by exact Hl.
    rewrite length_firstn, sort_length. reflexivity.
  - assert (D : NoDup (map Route.id (map Route.alumnus (JS.sort Route.by_matchScore scored)))).
    { eapply Permutation_NoDup; [symmetry; apply Permutation_map, P|].
      repeat constructor; cbn; intuition discriminate. }
    rewrite Hr, !map_app in D. apply NoDup_app_remove_r in D.
    rewrite map_map in D. exact D.
  - exists (map Route.alumnus rest). rewrite <- map_app, <- Hr. exact P.
Qed.

(** The score that earns the reason "same region". *)
Lemma same_region_reason (location1 location2 : string) :
  (Route.calculateGeographicProximity (N:=JSNumber) location1 location2 >? lit 0.5)%num = true ->
  String.eqb (JS.toLowerCase location1) (JS.toLowerCase location2) = false ->
  Route.getState (JS.toLowerCase location1) = Route.getState (JS.toLowerCase location2).
Proof.
  unfold Route.calculateGeographicProximity. cbv zeta. intros H E. rewrite E in H.
  destruct (String.eqb (Route.getState (JS.toLowerCase location1))
              (Route.getState (JS.toLowerCase location2))) eqn:S;
    [apply String.eqb_eq, S|].
  destruct (Route.sameRegion _ _); vm_compute in H; discriminate.
Qed.

(** X16.  The reasons of a match, on the program's numbers: at most four;
    "Located in the same region" is given only to an alumnus in the same
    state as the student (the same coast, which scores 0.5, is not above
    the 0.5 it is compared with) and never together with "Located in the
    same city"; "Available for mentorship" does not depend on the
    criteria. *)
Theorem match_reasons_facts :
  forall studentProfile alumniProfile (criteria : list (MatchCriteria float)) totalScore,
    let rs := Route.generateMatchReasons (N:=JSNumber) studentProfile alumniProfile criteria
                totalScore in
    let loc1 := JS.toLowerCase (Route.r_location studentProfile) in
    let loc2 := JS.toLowerCase (Route.location alumniProfile) in
    (List.length rs <= 4)%nat
    /\ (In "Located in the same region" rs ->
        loc1 <> loc2 /\ Route.getState loc1 = Route.getState loc2
        /\ ~ In "Located in the same city" rs)
    /\ (In "Located in the same city" rs -> loc1 = loc2)
    /\ (In "Available for mentorship" rs ->
        Route.isAvailableForMentoring alumniProfile = true
        /\ Route.r_isSeekingMentorship studentProfile = true).
Proof.
  intros sp ap criteria totalScore rs loc1 loc2.
  split; [subst rs; unfold Route.generateMatchReasons; apply firstn_le_length|].
  pose proof (same_region_reason (Route.r_location sp) (Route.location ap)) as G.
  fold loc1 loc2 in G.
  assert (K : forall x, In x rs ->
              (x = "Located in the same region" ->
               String.eqb loc1 loc2 = false /\ Route.getState loc1 = Route.getState loc2)
              /\ (x = "Located in the same city" -> String.eqb loc1 loc2 = true)
              /\ (x = "Available for mentorship" ->
                  Route.isAvailableForMentoring ap && Route.r_isSeekingMentorship sp = true)).
  { intros x Hx. subst rs. unfold Route.generateMatchReasons in Hx. cbv zeta in Hx.
    apply firstn_incl in Hx. fold loc1 loc2 in Hx.
    revert G Hx.
    generalize (Route.calculateGeographicProximity (N:=JSNumber)
                  (Route.r_location sp) (Route.location ap) >? lit 0.5)%num.
    generalize (String.eqb loc1 loc2).
    generalize (Route.isAvailableForMentoring ap && Route.r_isSeekingMentorship sp).
    generalize (Route.has_type criteria geographic_proximity).
    generalize (Route.has_type criteria skill_complement).
    generalize (totalScore >? lit 0.8)%num (totalScore >? lit 0.6)%num.
    intros b8 b6 hs hg ment eq gt G.
    match goal with
    | |- context [(0 <? List.length (filter ?f (Route.r_skills sp)))%nat] =>
        generalize (0 <? List.length (filter f (Route.r_skills sp)))%nat
    end.
    match goal with
    | |- context [(0 <? List.length (filter ?f (Route.skills ap)))%nat] =>
        generalize (0 <? List.length (filter f (Route.skills ap)))%nat
    end.
    intros learn shares.
    destruct (Route.has_type criteria career_similarity && _);
      (destruct hs; [destruct shares; destruct learn|]);
      (destruct hg; [destruct eq; [|destruct gt]|]);
      destruct ment; (destruct b8; [|destruct b6]);
      cbn [app In];
      intro Hx;
      repeat match goal with
             | H : _ \/ _ |- _ => destruct H as [H | H]
             | H : False |- _ => contradiction H
             end;
      subst x; (split; [|split]); intro Q;
      first [discriminate Q | (cbn [append] in Q; discriminate Q) | reflexivity
            | split; [reflexivity | apply G; reflexivity]]. }
  split; [|split].
  - intro H. destruct (K _ H) as [K1 _]. destruct (K1 eq_refl) as [E S].
    split; [apply String.eqb_neq, E|]. split; [exact S|].
    intro C. destruct (K _ C) as [_ [K2 _]]. rewrite (K2 eq_refl) in E. discriminate.
  - intro H. destruct (K _ H) as [_ [K2 _]]. apply String.eqb_eq, K2, eq_refl.
  - intro H. destruct (K _ H) as [_ [_ K3]]. apply andb_true_iff, K3, eq_refl.
Qed.

(* ================================================================== *)
(** * Cosine similarity *)
(* ================================================================== *)

Lemma SFmul_comm (x y : spec_float) :
  SFmul FloatOps.prec FloatOps.emax x y = SFmul FloatOps.prec FloatOps.emax y x.
Proof.
  destruct x as [sx|sx| |sx mx ex], y as [sy|sy| |sy my ey]; cbn [SFmul];
    rewrite ?(xorb_comm sy sx); try reflexivity.
  rewrite (Pos.mul_comm my mx), (Z.add_comm ey ex). reflexivity.
Qed.

(** Multiplication of doubles is commutative, bit for bit. *)
Lemma float_mul_comm (a b : float) : (a * b)%float = (b * a)%float.
Proof.
  apply FloatAxioms.Prim2SF_inj. rewrite !FloatAxioms.mul_spec. apply SFmul_comm.
Qed.

Lemma cosine_loop_swap (a b : list float) (d na nb : float) :
  AlumniMatchingEngine.cosine_loop (N:=JSNumber) b a (d, nb, na)
  = let '(d', na', nb') := AlumniMatchingEngine.cosine_loop (N:=JSNumber) a b (d, na, nb) in
    (d', nb', na').
Proof.
  revert b d na nb. induction a as [|x a IH]; intros [|y b] d na nb; cbn; try reflexivity.
  rewrite (float_mul_comm y x). apply IH.
Qed.

(** X17.  Cosine similarity is symmetric on the program's numbers, bit for
    bit, in both engines: rounding does not depend on the order of the two
    vectors. *)
Theorem cosine_similarity_symmetric :
  forall a b : list float,
    AlumniMatchingEngine.calculateCosineSimilarity (N:=JSNumber) a b
    = AlumniMatchingEngine.calculateCosineSimilarity (N:=JSNumber) b a
    /\ IntelligentMatchingEngine.calculateCosineSimilarity (N:=JSNumber) a b
       = IntelligentMatchingEngine.calculateCosineSimilarity (N:=JSNumber) b a.
Proof.
  intros a b.
  unfold AlumniMatchingEngine.calculateCosineSimilarity,
    IntelligentMatchingEngine.calculateCosineSimilarity.
  rewrite (Nat.eqb_sym (List.length b) (List.length a)).
  destruct (Nat.eqb (List.length a) (List.length b)); cbn [negb]; [|split; reflexivity].
  rewrite (cosine_loop_swap a b).
  destruct (AlumniMatchingEngine.cosine_loop a b _) as [[d na] nb].
  cbn [nmul ndiv Math_sqrt JSNumber].
  rewrite (float_mul_comm (PrimFloat.sqrt nb) (PrimFloat.sqrt na)).
  split; [reflexivity|].
  rewrite (orb_comm (nb =? of_Z 0)%num). reflexivity.
Qed.

Lemma cosine_loop_zero_left (n : nat) (b : list float) (d nb : float) :
  snd (fst (AlumniMatchingEngine.cosine_loop (N:=JSNumber) (repeat 0%float n) b
              (d, 0%float, nb))) = 0%float.
Proof.
  revert b d nb. induction n as [|n IH]; intros [|y b] d nb; cbn [repeat]; try reflexivity.
  cbn [AlumniMatchingEngine.cosine_loop nadd nmul JSNumber].
  change (0 + 0 * 0)%float with 0%float. apply IH.
Qed.

Lemma cosine_loop_zero_right (n : nat) (a : list float) (d na : float) :
  snd (AlumniMatchingEngine.cosine_loop (N:=JSNumber) a (repeat 0%float n)
         (d, na, 0%float)) = 0%float.
Proof.
  revert a d na. induction n as [|n IH]; intros [|x a] d na; cbn [repeat]; try reflexivity.
  cbn [AlumniMatchingEngine.cosine_loop nadd nmul JSNumber].
  change (0 + 0 * 0)%float with 0%float. apply IH.
Qed.

(** X18.  On the program's numbers, the cosine similarity of
    [IntelligentMatchingEngine] of a vector of zeros with any vector, of
    whatever length and entries, is exactly 0, in either order: the 1536
    zeros that [generateProfileVector] answers when a request fails add
    nothing to a score, where the unguarded division of
    [AlumniMatchingEngine] gives NaN. *)
Theorem guarded_cosine_of_zero_vector :
  forall (n : nat) (v : list float),
    IntelligentMatchingEngine.calculateCosineSimilarity (N:=JSNumber) (repeat 0%float n) v
    = 0%float
    /\ IntelligentMatchingEngine.calculateCosineSimilarity (N:=JSNumber) v (repeat 0%float n)
       = 0%float
    /\ IntelligentMatchingEngine.calculateCosineSimilarity (N:=JSNumber)
         IntelligentMatchingEngine.zeroVector v = 0%float
    /\ IntelligentMatchingEngine.calculateCosineSimilarity (N:=JSNumber)
         v IntelligentMatchingEngine.zeroVector = 0%float
    /\ PrimFloat.is_nan
         (AlumniMatchingEngine.calculateCosineSimilarity (N:=JSNumber)
            IntelligentMatchingEngine.zeroVector IntelligentMatchingEngine.zeroVector) = true.
Proof.
  assert (L : forall n v,
             IntelligentMatchingEngine.calculateCosineSimilarity (N:=JSNumber)
               (repeat 0%float n) v = 0%float).
  { intros n v. unfold IntelligentMatchingEngine.calculateCosineSimilarity.
    destruct (negb _); [reflexivity|].
    pose proof (cosine_loop_zero_left n v 0%float 0%float) as H.
    change (@of_Z float JSNumber 0) with 0%float.
    destruct (AlumniMatchingEngine.cosine_loop _ _ _) as [[d na] nb].
    cbn [fst snd] in H. subst na. reflexivity. }
  assert (R : forall n v,
             IntelligentMatchingEngine.calculateCosineSimilarity (N:=JSNumber)
               v (repeat 0%float n) = 0%float).
  { intros n v. unfold IntelligentMatchingEngine.calculateCosineSimilarity.
    destruct (negb _); [reflexivity|].
    pose proof (cosine_loop_zero_right n v 0%float 0%float) as H.
    change (@of_Z float JSNumber 0) with 0%float.
    destruct (AlumniMatchingEngine.cosine_loop _ _ _) as [[d na] nb].
    cbn [fst snd] in H. subst nb.
    cbn [neqb JSNumber]. change (0 =? 0)%float with true. rewrite orb_true_r. reflexivity. }
  intros n v. split; [apply L|]. split; [apply R|].
  split; [apply (L 1536%nat)|]. split; [apply (R 1536%nat)|].
  vm_compute. reflexivity.
Qed.

(* ================================================================== *)
(** * [IntelligentMatchingEngine] *)
(* ================================================================== *)

(** ** Skills and places, in exact arithmetic *)

Lemma Set_of_spec (l : list string) :
  NoDup (JS.Set_of l) /\ forall x, In x (JS.Set_of l) <-> In x l.
Proof.
  destruct (distinct_from_spec l [] (NoDup_nil _)) as [H1 H2].
  split; [exact H1|]. intro x. fold (JS.Set_of l) in H2. rewrite H2. cbn. tauto.
Qed.

Section ExactIntelligent.
Local Open Scope R_scope.

(** X19.  In exact arithmetic the skill complementarity of
    [IntelligentMatchingEngine] lies in [0, 1] whenever it is computed; it
    is not computed (a TypeError is thrown) exactly when the user or the
    candidate has no [skills] array. *)
Theorem skill_complementarity_unit_interval :
  forall (userProfile : Profile R) (candidateProfile : AlumniProfile R),
    match IntelligentMatchingEngine.calculateSkillComplementarity (N:=RealNumber)
            userProfile candidateProfile with
    | Some r => 0 <= r <= 1
    | None => skills userProfile = None \/ a_skills candidateProfile = None
    end.
Proof.
  intros u c. unfold IntelligentMatchingEngine.calculateSkillComplementarity.
  destruct (skills u) as [su|]; [|left; reflexivity].
  destruct (a_skills c) as [sc|]; [|right; reflexivity].
  cbv zeta.
  set (U := JS.Set_of (map (fun s => JS.toLowerCase (skill_name s)) su)).
  set (C := JS.Set_of (map (fun s => JS.toLowerCase (skill_name s)) sc)).
  set (O := JS.Set_of (filter (fun skill => JS.str_in skill C) U)).
  set (T := JS.Set_of (U ++ C)).
  destruct (Set_of_spec (filter (fun skill => JS.str_in skill C) U)) as [O1 O2].
  destruct (Set_of_spec (U ++ C)) as [T1 T2].
  fold O in O1, O2. fold T in T1, T2.
  assert (OU : (List.length O <= List.length U)%nat).
  { apply NoDup_incl_length; [exact O1|].
    intros x Hx. apply O2, filter_In in Hx. apply Hx. }
  assert (OT : (List.length O <= List.length T)%nat).
  { apply NoDup_incl_length; [exact O1|].
    intros x Hx. apply O2, filter_In in Hx. apply T2, in_or_app. left. apply Hx. }
  pose proof (ratio_unit (List.length O) (Nat.max (List.length U) 1)) as [A1 A2]; [lia | lia |].
  pose proof (ratio_unit (List.length T - List.length O) (Nat.max (List.length T) 1))
    as [B1 B2]; [lia | lia |].
  assert (E : of_nat (N:=RealNumber) (List.length T - List.length O)
              = of_nat (N:=RealNumber) (List.length T) - of_nat (N:=RealNumber) (List.length O)).
  { unfold of_nat. cbn [of_Z RealNumber]. rewrite <- minus_IZR. f_equal. lia. }
  rewrite E in B1, B2.
  cbn [nadd nsub nmul ndiv RealNumber] in *.
  unfold lit. cbn [Qnum Qden of_Z ndiv RealNumber].
  set (o := of_nat _ / of_nat _) in *.
  set (v := (of_nat _ - of_nat _) / of_nat _) in *.
  clearbody o v. lra.
Qed.

(** X20.  The geographic score of [IntelligentMatchingEngine], in exact
    arithmetic: 0.3 when a location is missing, 1 when the two locations
    are equal up to case, and otherwise 0.3 for each part of the user's
    location that is one of the candidate's parts, at most 0.8: that is 0,
    0.3, 0.6 or 0.8 as none, one, two or more of the user's parts are
    found. *)
Theorem geographic_score_tiers :
  forall (userProfile : Profile R) (candidateProfile : AlumniProfile R),
    let userLocation := IntelligentMatchingEngine.extractLocation userProfile in
    let candidateLocation :=
      IntelligentMatchingEngine.or_else (workLocation candidateProfile)
        (a_institution_location candidateProfile) in
    let r := IntelligentMatchingEngine.calculateGeographicScore (N:=RealNumber)
               userProfile candidateProfile in
    if IntelligentMatchingEngine.missing userLocation
       || IntelligentMatchingEngine.missing candidateLocation
    then r = 3 / 10
    else if String.eqb (JS.toLowerCase (JS.str_or userLocation ""))
                       (JS.toLowerCase (JS.str_or candidateLocation ""))
         then r = 1
         else
           let userParts :=
             JS.split_commas_spaces (JS.toLowerCase (JS.str_or userLocation "")) in
           let candidateParts :=
             JS.split_commas_spaces (JS.toLowerCase (JS.str_or candidateLocation "")) in
           let commonParts :=
             List.length (filter (fun part => JS.str_in part candidateParts) userParts) in
           r = Rmin (INR commonParts * (3 / 10)) (8 / 10)
           /\ (commonParts = 0%nat -> r = 0)
           /\ (commonParts = 1%nat -> r = 3 / 10)
           /\ (commonParts = 2%nat -> r = 6 / 10)
           /\ ((3 <= commonParts)%nat -> r = 8 / 10)
           /\ (commonParts <= List.length userParts)%nat
           /\ 0 <= r <= 8 / 10.
Proof.
  intros u c ul cl r. subst r.
  unfold IntelligentMatchingEngine.calculateGeographicScore. cbv zeta. fold ul cl.
  destruct (IntelligentMatchingEngine.missing ul || IntelligentMatchingEngine.missing cl).
  - unfold lit. cbn. lra.
  - destruct (String.eqb _ _).
    + unfold lit. cbn. lra.
    + set (userParts := JS.split_commas_spaces (JS.toLowerCase (JS.str_or ul ""))).
      set (candidateParts := JS.split_commas_spaces (JS.toLowerCase (JS.str_or cl ""))).
      pose proof (filter_length_le (fun part => JS.str_in part candidateParts) userParts) as B.
      set (n := List.length (filter (fun part => JS.str_in part candidateParts) userParts)) in *.
      assert (E : @Math_min R RealNumber (of_nat n * lit 0.3)%num (lit 0.8)
                  = Rmin (INR n * (3 / 10)) (8 / 10)).
      { unfold lit, of_nat. cbn [Qnum Qden of_Z ndiv nmul Math_min RealNumber].
        rewrite (INR_IZR_INZ n). reflexivity. }
      rewrite E. split; [reflexivity|].
      split; [intros ->; cbn [INR]; rewrite Rmin_left; lra|].
      split; [intros ->; cbn [INR]; rewrite Rmin_left; lra|].
      split; [intros ->; cbn [INR]; rewrite Rmin_left; lra|].
      split.
      { intro G. apply le_INR in G. cbn [INR] in G. rewrite Rmin_right; lra. }
      split; [exact B|].
      split; [|apply Rmin_r].
      apply Rmin_glb; [|lra].
      apply Rmult_le_pos; [apply pos_INR | lra].
Qed.
End ExactIntelligent.

(** ** The services *)

Lemma cacheKey_returns {num} (svc : IntelligentMatchingEngine.Services (num:=num)) profile s :
  exists key s',
    IntelligentMatchingEngine.cacheKey svc profile s = (Returned key, s')
    /\ IntelligentMatchingEngine.vectorCache s' = IntelligentMatchingEngine.vectorCache s.
Proof.
  unfold IntelligentMatchingEngine.cacheKey.
  destruct profile as [st d | a d].
  - unfold bind, IntelligentMatchingEngine.consult, ret. eauto.
  - destruct (IntelligentMatchingEngine.ad_lastActive d) as [[|c r]|];
      unfold bind, IntelligentMatchingEngine.consult, ret; eauto.
Qed.

(** [generateProfileVector] does not throw. *)
Lemma generateProfileVector_returns {num} {N : Number num}
  (svc : IntelligentMatchingEngine.Services) profile s :
  exists v s', IntelligentMatchingEngine.generateProfileVector svc profile s = (Returned v, s').
Proof.
  unfold IntelligentMatchingEngine.generateProfileVector.
  destruct (cacheKey_returns svc profile s) as [key [s0 [E _]]].
  unfold bind at 1. rewrite E. unfold bind at 1, get.
  destruct (AlumniMatchingEngine.Map_get _ key); [unfold ret; eauto|].
  unfold try_catch, bind, defined, IntelligentMatchingEngine.consult, get, put, ret, throw.
  destruct (IntelligentMatchingEngine.createProfileText profile); [|eauto].
  destruct (IntelligentMatchingEngine.create_embedding svc _ _); eauto.
Qed.

(** X21.  The vector cache of [IntelligentMatchingEngine], for an alumnus
    with a [lastActive] stamp: the key is the identifier and the stamp.  A
    cached vector is returned as it is, without any request; otherwise
    either the request succeeds, and the vector is stored and returned by
    the next call without a request, or anything fails, and the answer is
    1536 zeros, which are not stored. *)
Theorem generateProfileVector_cache :
  forall {num} (N : Number num) (svc : IntelligentMatchingEngine.Services)
         (a : AlumniProfile num) (d : IntelligentMatchingEngine.AlumniDetails)
         (c : ascii) (r : string) (s : IntelligentMatchingEngine.Memory),
    IntelligentMatchingEngine.ad_lastActive d = Some (String c r) ->
    let key := (a_id a ++ "_" ++ String c r)%string in
    let profile := IntelligentMatchingEngine.AlumniSubject a d in
    exists v s',
      IntelligentMatchingEngine.generateProfileVector svc profile s = (Returned v, s')
      /\ match AlumniMatchingEngine.Map_get (IntelligentMatchingEngine.vectorCache s) key with
         | Some cached => v = cached /\ s' = s
         | None =>
             (v = repeat (of_Z 0) 1536
              /\ IntelligentMatchingEngine.vectorCache s'
                 = IntelligentMatchingEngine.vectorCache s)
             \/ (AlumniMatchingEngine.Map_get (IntelligentMatchingEngine.vectorCache s') key
                 = Some v
                 /\ IntelligentMatchingEngine.consultations s'
                    = S (IntelligentMatchingEngine.consultations s)
                 /\ IntelligentMatchingEngine.generateProfileVector svc profile s'
                    = (Returned v, s'))
         end.
Proof.
  intros num N svc a d c r s Hd key profile.
  assert (G : forall s0 v0,
             AlumniMatchingEngine.Map_get (IntelligentMatchingEngine.vectorCache s0) key
             = Some v0 ->
             IntelligentMatchingEngine.generateProfileVector svc profile s0 = (Returned v0, s0)).
  { intros s0 v0 H0. unfold IntelligentMatchingEngine.generateProfileVector, profile.
    unfold IntelligentMatchingEngine.cacheKey. rewrite Hd.
    unfold bind, ret, get. fold key. rewrite H0. reflexivity. }
  destruct (AlumniMatchingEngine.Map_get (IntelligentMatchingEngine.vectorCache s) key)
    as [cached|] eqn:E.
  - exists cached, s. split; [apply G, E | split; reflexivity].
  - assert (Run : IntelligentMatchingEngine.generateProfileVector svc profile s
                 = match IntelligentMatchingEngine.createProfileText profile with
                   | Some text =>
                       match IntelligentMatchingEngine.create_embedding svc
                               (IntelligentMatchingEngine.consultations s) text with
                       | Some v =>
                           (Returned v,
                            IntelligentMatchingEngine.mkMemory
                              (AlumniMatchingEngine.Map_set
                                 (IntelligentMatchingEngine.vectorCache s) key v)
                              (S (IntelligentMatchingEngine.consultations s)))
                       | None =>
                           (Returned (repeat (of_Z 0) 1536),
                            IntelligentMatchingEngine.mkMemory
                              (IntelligentMatchingEngine.vectorCache s)
                              (S (IntelligentMatchingEngine.consultations s)))
                       end
                   | None => (Returned (repeat (of_Z 0) 1536), s)
                   end).
    { unfold IntelligentMatchingEngine.generateProfileVector, profile.
      unfold IntelligentMatchingEngine.cacheKey. rewrite Hd.
      unfold bind at 1. unfold ret at 1. unfold bind at 1. unfold get at 1. fold key.
      rewrite E.
      unfold try_catch, bind, defined, IntelligentMatchingEngine.consult, get, put, ret, throw.
      destruct (IntelligentMatchingEngine.createProfileText _) as [text|]; [|reflexivity].
      cbn [IntelligentMatchingEngine.consultations IntelligentMatchingEngine.vectorCache].
      destruct (IntelligentMatchingEngine.create_embedding svc _ text); reflexivity. }
    rewrite Run.
    destruct (IntelligentMatchingEngine.createProfileText profile) as [text|];
      [|do 2 eexists; split; [reflexivity|]; left; split; reflexivity].
    destruct (IntelligentMatchingEngine.create_embedding svc _ text) as [v|];
      [|do 2 eexists; split; [reflexivity|]; left; split; reflexivity].
    do 2 eexists. split; [reflexivity|]. right.
    cbn [IntelligentMatchingEngine.vectorCache IntelligentMatchingEngine.consultations].
    split; [apply Map_get_set|]. split; [reflexivity|].
    apply G. cbn [IntelligentMatchingEngine.vectorCache]. apply Map_get_set.
Qed.

(** Services that answer every request: the embedding [[1; 2]] and the
    rating 0.9; and Alex as this engine reads him. *)
Definition steadyServices : IntelligentMatchingEngine.Services (num:=float) :=
IntelligentMatchingEngine.mkServices (fun _ => 1767225600000%Z)
  (fun _ _ => Some [1; 2]%float) (fun _ _ _ => Some 0.9%float).

Definition alexDetails : IntelligentMatchingEngine.AlumniDetails :=
IntelligentMatchingEngine.mkAlumniDetails "user-alex" "Alex" "Doe" 2018 "BSc" None None
  (Some "2026-01-01").

Lemma generateProfileVector_cache_witness :
  let key := (a_id alex ++ "_" ++ "2026-01-01")%string in
  let profile := IntelligentMatchingEngine.AlumniSubject alex alexDetails in
  exists v s',
    IntelligentMatchingEngine.generateProfileVector steadyServices profile
      (IntelligentMatchingEngine.mkMemory [] 0) = (Returned v, s')
    /\ match AlumniMatchingEngine.Map_get
               (IntelligentMatchingEngine.vectorCache
                  (IntelligentMatchingEngine.mkMemory (num:=float) [] 0)) key with
       | Some cached => v = cached /\ s' = IntelligentMatchingEngine.mkMemory [] 0
       | None =>
           (v = repeat (of_Z 0) 1536
            /\ IntelligentMatchingEngine.vectorCache s'
               = IntelligentMatchingEngine.vectorCache
                   (IntelligentMatchingEngine.mkMemory (num:=float) [] 0))
           \/ (AlumniMatchingEngine.Map_get (IntelligentMatchingEngine.vectorCache s') key
               = Some v
               /\ IntelligentMatchingEngine.consultations s'
                  = S (IntelligentMatchingEngine.consultations
                         (IntelligentMatchingEngine.mkMemory (num:=float) [] 0))
               /\ IntelligentMatchingEngine.generateProfileVector steadyServices profile s'
                  = (Returned v, s'))
       end.
Proof.
  exact (generateProfileVector_cache JSNumber steadyServices alex alexDetails
           "2"%char "026-01-01" (IntelligentMatchingEngine.mkMemory [] 0) eq_refl).
Defined.

Example alex_vector_is_cached :
  IntelligentMatchingEngine.generateProfileVector steadyServices
    (IntelligentMatchingEngine.AlumniSubject alex alexDetails)
    (IntelligentMatchingEngine.mkMemory [] 0)
  = (Returned [1; 2]%float,
     IntelligentMatchingEngine.mkMemory [("alex_2026-01-01", [1; 2]%float)] 1).
Proof. reflexivity. Qed.

Lemma wp_run_back {S A} (m : M S A) (Q : Outcome A -> S -> Prop) s o s' :
  m s = (o, s') -> Q o s' -> wp m Q s.
Proof. unfold wp. intros ->. exact (fun H => H). Qed.

(** ** Career similarity *)

Lemma calculateCareerSimilarity_returns {num} {N : Number num}
  (svc : IntelligentMatchingEngine.Services) user candidate s :
  exists r s',
    IntelligentMatchingEngine.calculateCareerSimilarity svc user candidate s = (Returned r, s')
    /\ (r = lit 0.5
        \/ exists score, IntelligentMatchingEngine.isNaN score = false
                         /\ r = Math_max (of_Z 0) (Math_min (of_Z 1) score)).
Proof.
  unfold IntelligentMatchingEngine.calculateCareerSimilarity.
  unfold try_catch, bind, defined, IntelligentMatchingEngine.consult, ret, throw.
  destruct (IntelligentMatchingEngine.rate_similarity svc _ _ _) as [score|]; [|eauto].
  destruct (IntelligentMatchingEngine.isNaN score) eqn:E; eauto 7.
Qed.


(** ** One candidate *)

Lemma calculateMatchScore_spec {num} {N : Number num}
  (svc : IntelligentMatchingEngine.Services) kind user uv cv c d s :
  wp (IntelligentMatchingEngine.calculateMatchScore svc kind user uv cv c d)
     (fun o _ =>
        match o with
        | Returned m =>
            IntelligentMatchingEngine.ms_candidate m = c
            /\ IntelligentMatchingEngine.ms_details m = d
            /\ (exists t, IntelligentMatchingEngine.ms_score m = Math_min t (lit 1.0))
            /\ (exists t, IntelligentMatchingEngine.ms_confidence m = Math_min t (lit 1.0))
        | Thrown =>
            IntelligentMatchingEngine.calculateSkillComplementarity
              (IntelligentMatchingEngine.profile_of user) c = None
        end) s.
Proof.
  unfold IntelligentMatchingEngine.calculateMatchScore. cbv zeta.
  wp_step.
  destruct (calculateCareerSimilarity_returns svc user
              (IntelligentMatchingEngine.AlumniSubject c d) s) as [r [s' [E _]]].
  apply (wp_run_back _ _ _ _ _ E). cbv beta iota.
  destruct (r >? lit 0.7)%num; wp_step; wp_step;
    (destruct (IntelligentMatchingEngine.calculateSkillComplementarity _ c) as [sk|];
     [|reflexivity]);
    destruct (IntelligentMatchingEngine.calculateGeographicScore _ c >? lit 0.8)%num;
    destruct (IntelligentMatchingEngine.calculateMentorshipFit _ c >? lit 0.8)%num;
    destruct (IntelligentMatchingEngine.is_mentorship kind && isMentor c);
    wp_step; cbn;
    (split; [reflexivity|]); (split; [reflexivity|]); split; eexists; reflexivity.
Qed.

(** ** The ranking *)

(** What [findBestMatches] keeps of a candidate. *)
Definition kept {num} {N : Number num}
  (candidates : list (AlumniProfile num * IntelligentMatchingEngine.AlumniDetails))
  (m : IntelligentMatchingEngine.MatchScore) : Prop :=
above_threshold (IntelligentMatchingEngine.ms_score m)
/\ (exists t, IntelligentMatchingEngine.ms_score m = Math_min t (lit 1.0))
/\ In (IntelligentMatchingEngine.ms_candidate m, IntelligentMatchingEngine.ms_details m)
      candidates.

Lemma intelligent_rank_spec {num} {N : Number num}
  (svc : IntelligentMatchingEngine.Services) kind user candidates limit s :
  wp (IntelligentMatchingEngine.rank svc kind user candidates limit)
     (fun o _ =>
        match o with
        | Returned out =>
            exists picked,
              out = JS.slice0 (JS.sort IntelligentMatchingEngine.by_score picked) limit
              /\ Forall (kept candidates) picked
              /\ (List.length picked <= List.length candidates)%nat
        | Thrown => True
        end) s.
Proof.
  unfold IntelligentMatchingEngine.rank. wp_step.
  destruct (generateProfileVector_returns svc user s) as [uv [s0 E]].
  apply (wp_run_back _ _ _ _ _ E). cbv beta iota.
  wp_step.
  eapply wp_mono;
    [| apply (wp_for_each _
                (fun done ms _ =>
                   Forall (kept candidates) ms
                   /\ (List.length ms <= List.length done)%nat)
                (fun _ => True))].
  - intros [ms|] s' H; [|exact I].
    destruct H as [H1 H2]. wp_step. exists ms. auto.
  - intros done [c d] rest ms s1 Hl [H1 H2]. cbn [fst snd].
    wp_step.
    destruct (generateProfileVector_returns svc
                (IntelligentMatchingEngine.AlumniSubject c d) s1) as [cv [s2 E2]].
    apply (wp_run_back _ _ _ _ _ E2). cbv beta iota.
    wp_step. eapply wp_mono; [|apply calculateMatchScore_spec].
    intros [m|] s3 H; [|exact I].
    destruct H as [Hc [Hd [Ht _]]].
    wp_step. rewrite length_app. cbn [List.length].
    destruct (IntelligentMatchingEngine.ms_score m >? lit 0.3)%num eqn:A.
    + split; [|rewrite length_app; cbn; lia].
      apply Forall_app. split; [exact H1|]. constructor; [|constructor].
      split; [exact A|]. split; [exact Ht|].
      rewrite Hc, Hd, Hl. apply in_or_app. right. left. reflexivity.
    + split; [exact H1 | lia].
  - split; [constructor | cbn; lia].
Qed.

Lemma findBestMatches_in_spec {num} {N : Number num}
  (svc : IntelligentMatchingEngine.Services) kind user candidates limit s :
  exists out s',
    IntelligentMatchingEngine.findBestMatches_in svc kind user candidates limit s
    = (Returned out, s')
    /\ match IntelligentMatchingEngine.rank svc kind user candidates
               (limit_or_default limit) s with
       | (Returned ranked, _) =>
           out = ranked
           /\ exists picked,
                out = JS.slice0 (JS.sort IntelligentMatchingEngine.by_score picked)
                        (limit_or_default limit)
                /\ Forall (kept candidates) picked
                /\ (List.length picked <= List.length candidates)%nat
       | (Thrown, _) => out = []
       end.
Proof.
  unfold IntelligentMatchingEngine.findBestMatches_in, try_catch.
  fold (limit_or_default limit).
  pose proof (intelligent_rank_spec svc kind user candidates (limit_or_default limit) s) as R.
  unfold wp in R.
  destruct (IntelligentMatchingEngine.rank svc kind user candidates (limit_or_default limit) s)
    as [[ranked|] s1]; cbn [fst snd] in R.
  - exists ranked, s1. split; [reflexivity|]. split; [reflexivity | exact R].
  - unfold ret. eauto.
Qed.

(** X23.  [findBestMatches] on the program's numbers: it always returns;
    every match it returns is for one of the candidates and has a score
    above 0.3 and at most 1; no match has a score below that of a later
    one; and there are at most [limit] matches (10 when no limit is given)
    when the limit is not negative, and never more than candidates. *)
Theorem findBestMatches_scores_and_order :
  forall (svc : IntelligentMatchingEngine.Services (num:=float)) cache t0 kind user
         candidates limit,
    exists out,
      IntelligentMatchingEngine.findBestMatches svc cache t0 kind user candidates limit
      = Returned out
      /\ Forall (fun m =>
                   (0.3 <? IntelligentMatchingEngine.ms_score m)%float = true
                   /\ (IntelligentMatchingEngine.ms_score m <=? 1)%float = true
                   /\ In (IntelligentMatchingEngine.ms_candidate m,
                          IntelligentMatchingEngine.ms_details m) candidates) out
      /\ StronglySorted
           (fun a b => (IntelligentMatchingEngine.ms_score a
                        <? IntelligentMatchingEngine.ms_score b)%float = false) out
      /\ ((0 <= limit_or_default limit)%Z ->
          (Z.of_nat (List.length out) <= limit_or_default limit)%Z)
      /\ (List.length out <= List.length candidates)%nat.
Proof.
  intros svc cache t0 kind user candidates limit.
  destruct (findBestMatches_in_spec svc kind user candidates limit
              (IntelligentMatchingEngine.mkMemory cache t0)) as [out [s' [E H]]].
  exists out. unfold IntelligentMatchingEngine.findBestMatches. rewrite E.
  split; [reflexivity|].
  destruct (IntelligentMatchingEngine.rank svc kind user candidates (limit_or_default limit)
              (IntelligentMatchingEngine.mkMemory cache t0)) as [[ranked|] s1].
  2: { subst out. split; [constructor|]. split; [constructor|]. cbn. split; lia. }
  destruct H as [_ [picked [-> [Hk Hl]]]].
  set (after := IntelligentMatchingEngine.by_score (N:=JSNumber)).
  set (ok := fun m : IntelligentMatchingEngine.MatchScore (num:=float) =>
               above_threshold (N:=JSNumber) (IntelligentMatchingEngine.ms_score m)).
  assert (Hok : Forall ok picked).
  { apply Forall_forall. intros m Hm. rewrite Forall_forall in Hk. apply (Hk m Hm). }
  assert (asym : forall x y, ok x -> ok y -> after x y = true -> after y x = false).
  { intros x y Hx Hy. unfold after, IntelligentMatchingEngine.by_score.
    apply sub_pos_asym; assumption. }
  assert (weak : forall x y z, ok x -> ok y -> ok z ->
                   after y x = true -> after y z = false -> after z x = true).
  { intros x y z Hx Hy Hz. unfold after, IntelligentMatchingEngine.by_score.
    apply sub_pos_weak; assumption. }
  split; [|split; [|split]].
  - apply slice0_Forall, sort_Forall.
    apply Forall_forall. intros m Hm. rewrite Forall_forall in Hk.
    destruct (Hk m Hm) as [A [[t Ht] Hin]].
    split; [exact A|]. split; [|exact Hin].
    destruct (Binary64.ltb_is_nan _ _ A) as [_ Hn].
    rewrite Ht in Hn |- *.
    change (Math_min t (lit 1.0)) with (Float64.min t 1%float) in *.
    destruct (Binary64.min_at_most t 1%float eq_refl) as [C | C]; [congruence | exact C].
  - destruct (slice0_prefix (JS.sort after picked) (limit_or_default limit)) as [rest Hr].
    apply (StronglySorted_weaken ok (fun a b => after a b = false)).
    + intros a b Pa Pb. unfold after, IntelligentMatchingEngine.by_score.
      rewrite (sub_above_threshold (IntelligentMatchingEngine.ms_score b)
                 (IntelligentMatchingEngine.ms_score a)) by assumption.
      exact (fun h => h).
    + apply slice0_Forall, sort_Forall, Hok.
    + apply (StronglySorted_app_l _ _ rest). rewrite <- Hr.
      apply (sort_sorted after ok asym weak). exact Hok.
  - apply slice0_length.
  - etransitivity; [apply slice0_length_le|]. rewrite sort_length. exact Hl.
Qed.

Lemma for_each_throws {S A B} (body : B -> A -> M S B) (x : A) (l : list A) :
  In x l ->
  (forall acc s, fst (body acc x s) = Thrown) ->
  forall acc s, fst (for_each l acc body s) = Thrown.
Proof.
  intros Hin Hx. induction l as [|y l IH]; [contradiction|].
  intros acc s. cbn [for_each]. unfold bind.
  destruct Hin as [-> | Hin].
  - specialize (Hx acc s). destruct (body acc x s) as [[b|] s']; [discriminate | reflexivity].
  - destruct (body acc y s) as [[b|] s']; [apply IH, Hin | reflexivity].
Qed.

Lemma calculateMatchScore_throws {num} {N : Number num}
  (svc : IntelligentMatchingEngine.Services) kind user uv cv c d s :
  IntelligentMatchingEngine.calculateSkillComplementarity
    (IntelligentMatchingEngine.profile_of user) c = None ->
  fst (IntelligentMatchingEngine.calculateMatchScore svc kind user uv cv c d s) = Thrown.
Proof.
  intro H. unfold IntelligentMatchingEngine.calculateMatchScore. cbv zeta.
  unfold bind at 1.
  destruct (calculateCareerSimilarity_returns svc user
              (IntelligentMatchingEngine.AlumniSubject c d) s) as [r [s' [-> _]]].
  rewrite H.
  destruct (r >? lit 0.7)%num; reflexivity.
Qed.

(** X24.  [findBestMatches] is all or nothing: if the user, or any one of
    the candidates, has no [skills] array, the TypeError raised while that
    candidate is scored discards the matches found before it, and the
    answer is the empty list. *)
Theorem findBestMatches_all_or_nothing :
  forall {num} (N : Number num) (svc : IntelligentMatchingEngine.Services) cache t0 kind user
         candidates limit (c : AlumniProfile num) (d : IntelligentMatchingEngine.AlumniDetails),
    In (c, d) candidates ->
    a_skills c = None \/ skills (IntelligentMatchingEngine.profile_of user) = None ->
    IntelligentMatchingEngine.findBestMatches svc cache t0 kind user candidates limit
    = Returned [].
Proof.
  intros num N svc cache t0 kind user candidates limit c d Hin Hbad.
  assert (Hs : IntelligentMatchingEngine.calculateSkillComplementarity
                 (IntelligentMatchingEngine.profile_of user) c = None).
  { unfold IntelligentMatchingEngine.calculateSkillComplementarity.
    destruct Hbad as [-> | ->]; [destruct (skills _)|]; reflexivity. }
  unfold IntelligentMatchingEngine.findBestMatches, IntelligentMatchingEngine.findBestMatches_in,
    try_catch.
  set (lim := match limit with Some l => l | None => 10%Z end).
  assert (T : fst (IntelligentMatchingEngine.rank svc kind user candidates lim
                     (IntelligentMatchingEngine.mkMemory cache t0)) = Thrown).
  { unfold IntelligentMatchingEngine.rank. unfold bind at 1.
    destruct (generateProfileVector_returns svc user
                (IntelligentMatchingEngine.mkMemory cache t0)) as [uv [s0 ->]].
    unfold bind at 1.
    match goal with
    | |- fst (match for_each candidates [] ?body s0 with _ => _ end) = _ =>
        pose proof (for_each_throws body (c, d) candidates Hin) as F
    end.
    match type of F with
    | ?P -> _ => assert (B : P)
    end.
    { intros acc s. cbn [fst snd]. unfold bind at 1.
      destruct (generateProfileVector_returns svc
                  (IntelligentMatchingEngine.AlumniSubject c d) s) as [cv [s2 ->]].
      unfold bind at 1.
      pose proof (calculateMatchScore_throws svc kind user uv cv c d s2 Hs) as W.
      destruct (IntelligentMatchingEngine.calculateMatchScore svc kind user uv cv c d s2)
        as [[m|] s3]; [discriminate W | reflexivity]. }
    specialize (F B [] s0).
    destruct (for_each candidates [] _ s0) as [[ms|] s1]; [discriminate F | reflexivity]. }
  destruct (IntelligentMatchingEngine.rank svc kind user candidates lim
              (IntelligentMatchingEngine.mkMemory cache t0)) as [[ranked|] s1];
    [discriminate T | reflexivity].
Qed.

(** Drew has no [skills] array; Alex, alone, is matched. *)
Definition caseySubject : IntelligentMatchingEngine.Subject (num:=float) :=
IntelligentMatchingEngine.StudentSubject
  (mkStudent "casey" (Some "Denver, CO") "Computer Science"
     (Some [mkSkill "Python" Beginner]) ["Data"] true)
  (IntelligentMatchingEngine.mkStudentDetails "Casey" "Roe" 2 2027 "BSc" None None).

Lemma findBestMatches_all_or_nothing_witness :
  IntelligentMatchingEngine.findBestMatches steadyServices [] 0
    IntelligentMatchingEngine.mentorship caseySubject
    [ (alex, alexDetails); (AlumniMatchingEngine.with_skills blake None, alexDetails) ] None
  = Returned [].
Proof.
  apply (findBestMatches_all_or_nothing JSNumber steadyServices [] 0%nat
           IntelligentMatchingEngine.mentorship caseySubject
           [ (alex, alexDetails); (AlumniMatchingEngine.with_skills blake None, alexDetails) ]
           None (AlumniMatchingEngine.with_skills blake None) alexDetails).
  - right. left. reflexivity.
  - left. reflexivity.
Defined.

Example alex_alone_is_matched :
  match IntelligentMatchingEngine.findBestMatches steadyServices [] 0
          IntelligentMatchingEngine.mentorship caseySubject [ (alex, alexDetails) ] None with
  | Returned out =>
      map (fun m => (a_id (IntelligentMatchingEngine.ms_candidate m),
                     IntelligentMatchingEngine.ms_score m,
                     IntelligentMatchingEngine.ms_reasons m)) out
  | Thrown => []
  end
  = [ ("alex", 1%float,
       ["Strong career path alignment"; "Complementary skill sets"; "Same geographic area";
        "Active mentor"]) ].
Proof. vm_compute. reflexivity. Qed.

(* ================================================================== *)
(** * Edges *)
(* ================================================================== *)

Lemma filter_length_lt {A} (p : A -> bool) (l : list A) (a : A) :
  In a l -> p a = false -> (List.length (filter p l) < List.length l)%nat.
Proof.
  induction l as [|x l IH]; intros Hin Ha; [contradiction|].
  cbn [filter List.length].
  destruct Hin as [-> | Hin].
  - rewrite Ha. pose proof (filter_length_le p l). lia.
  - specialize (IH Hin Ha). destruct (p x); cbn [List.length]; lia.
Qed.

Section ExactInsights.
Local Open Scope R_scope.

(** [Math.floor(x)] stays below [n] when [x] does. *)
Lemma floor_index_below (x : R) (n : nat) :
  x < INR (S n) -> (AlumniMatchingEngine.floor_index (N:=RealNumber) x (S n) < S n)%nat.
Proof.
  intro H. unfold AlumniMatchingEngine.floor_index.
  match goal with
  | |- (List.length (filter ?p _) < _)%nat =>
      pose proof (filter_length_lt p (seq 1 (S n)) (S n)) as L
  end.
  rewrite length_seq in L. apply L; [apply in_seq; lia|].
  cbn [nleb RealNumber]. unfold Exact.leb, of_nat. cbn [of_Z RealNumber].
  rewrite <- INR_IZR_INZ.
  destruct (Rle_dec (INR (S n)) x); [lra | reflexivity].
Qed.

(** X25.  In exact arithmetic, with [Math.random] in [0, 1):
    [getMockInsights] always picks insights that exist.  It returns the
    first two of its five sentences for a score above 0.8, one of the
    first three for a score above 0.6, and one of the five otherwise; the
    index it computes is never out of range. *)
Theorem getMockInsights_index_in_range :
  forall (env : Env R) (score : R) (s : State R),
    (forall t, 0 <= Math_random env t < 1) ->
    exists chosen s',
      AlumniMatchingEngine.getMockInsights env score s = (Returned (InsightTemplates chosen), s')
      /\ chosen <> []
      /\ Forall (fun i => (i < 5)%nat) chosen
      /\ (6 / 10 < score -> Forall (fun i => (i < 3)%nat) chosen)
      /\ (8 / 10 < score -> chosen = [0; 1]%nat /\ s' = s).
Proof.
  intros env score s Hr.
  unfold AlumniMatchingEngine.getMockInsights, ngtb.
  cbn [nltb RealNumber]. unfold lit. cbn [Qnum Qden of_Z ndiv nmul RealNumber].
  unfold Exact.ltb.
  destruct (Rlt_dec (8 / 10) score) as [H8 | H8].
  - unfold ret. do 2 eexists. split; [reflexivity|]. split; [discriminate|].
    split; [repeat constructor; lia|]. split; [intros _; repeat constructor; lia|].
    intros _. split; reflexivity.
  - destruct (Rlt_dec (6 / 10) score) as [H6 | H6].
    + unfold bind, AlumniMatchingEngine.next_tick, ret. do 2 eexists.
      split; [reflexivity|]. split; [discriminate|].
      assert (B : (AlumniMatchingEngine.floor_index (N:=RealNumber)
                     (Math_random env (tick s) * 3)%R 3 < 3)%nat).
      { apply floor_index_below. specialize (Hr (tick s)). cbn. lra. }
      split; [|split].
      * constructor; [lia | constructor].
      * intros _. constructor; [exact B | constructor].
      * intro C. lra.
    + unfold bind, AlumniMatchingEngine.next_tick, ret. do 2 eexists.
      split; [reflexivity|]. split; [discriminate|].
      assert (B : (AlumniMatchingEngine.floor_index (N:=RealNumber)
                     (Math_random env (tick s) * 5)%R 5 < 5)%nat).
      { apply floor_index_below. specialize (Hr (tick s)). cbn. lra. }
      split; [|split].
      * constructor; [exact B | constructor].
      * intro C. lra.
      * intro C. lra.
Qed.

Lemma getMockInsights_index_in_range_witness :
  exists chosen s',
    AlumniMatchingEngine.getMockInsights (demoEnv (1 / 4)) (7 / 10) (mkState [] [] 0)
    = (Returned (InsightTemplates chosen), s')
    /\ Forall (fun i => (i < 3)%nat) chosen.
Proof.
  destruct (getMockInsights_index_in_range (demoEnv (1 / 4)) (7 / 10) (mkState [] [] 0))
    as [chosen [s' [E [_ [_ [H _]]]]]].
  - intro t. cbn [Math_random demoEnv]. lra.
  - exists chosen, s'. split; [exact E|]. apply H. lra.
Defined.

(** X26.  The mentorship fit of [IntelligentMatchingEngine] for a mentor,
    in a mentorship context and in exact arithmetic, lies between 0.7 and
    1: 0.7, plus 0.3 times the share of the user's career interests that a
    mentor category contains or is contained in. *)
Theorem intelligent_mentor_fit_range :
  forall (seeker : Profile R) (candidate : AlumniProfile R),
    isMentor candidate = true ->
    7 / 10
    <= IntelligentMatchingEngine.calculateMentorshipFit (N:=RealNumber)
         (IntelligentMatchingEngine.mkContext seeker IntelligentMatchingEngine.mentorship)
         candidate
    <= 1.
Proof.
  intros seeker candidate Hm.
  unfold IntelligentMatchingEngine.calculateMentorshipFit.
  cbn [IntelligentMatchingEngine.context IntelligentMatchingEngine.is_mentorship negb
       IntelligentMatchingEngine.userProfile].
  rewrite Hm. cbn [negb]. cbv zeta.
  cbn [Math_min RealNumber].
  destruct seeker as [st | a].
  - match goal with
    | |- _ <= Rmin (_ + ndiv (of_nat ?x) (of_nat ?n) * _)%num _ <= _ =>
        pose proof (ratio_unit x n) as [A1 A2]
    end.
    { etransitivity; [apply filter_length_le|]. lia. }
    { lia. }
    cbn [nadd nmul ndiv RealNumber] in *.
    set (u := of_nat _ / of_nat _) in *. clearbody u.
    unfold lit. cbn [Qnum Qden of_Z ndiv RealNumber].
    split; [apply Rmin_glb; lra | etransitivity; [apply Rmin_r | lra]].
  - unfold lit. cbn [Qnum Qden of_Z ndiv RealNumber].
    split; [apply Rmin_glb; lra | etransitivity; [apply Rmin_r | lra]].
Qed.

Lemma intelligent_mentor_fit_range_witness :
  7 / 10
  <= IntelligentMatchingEngine.calculateMentorshipFit (N:=RealNumber)
       (IntelligentMatchingEngine.mkContext (Alumni (twinR "casey"))
          IntelligentMatchingEngine.mentorship)
       (twinR "alex")
  <= 1.
Proof.
  apply (intelligent_mentor_fit_range (Alumni (twinR "casey")) (twinR "alex")). reflexivity.
Defined.
End ExactInsights.

(** X27.  [findMatches] on an empty pool, and with a limit of 0: the
    answer is the empty list, in any arithmetic and whether or not the
    ranking throws. *)
Theorem findMatches_empty_answers :
  forall {num} (N : Number num) (env : Env num) cache t0 profile pool criteria,
    AlumniMatchingEngine.findMatches env cache t0 profile [] criteria None = Returned []
    /\ AlumniMatchingEngine.findMatches env cache t0 profile pool criteria (Some 0%Z)
       = Returned [].
Proof.
  intros num N env cache t0 profile pool criteria. split.
  - destruct (EngineFacts.findMatches_in_spec env profile criteria None (mkState cache [] t0))
      as [out [s' [E H]]].
    unfold AlumniMatchingEngine.findMatches. rewrite E. cbn [fst]. f_equal.
    cbv zeta in H.
    pose proof (EngineFacts.rank_spec env profile
                  (match criteria with
                   | Some c => c
                   | None => AlumniMatchingEngine.getDefaultCriteria
                   end) 10%Z (mkState cache [] t0)) as R.
    unfold wp in R.
    destruct (AlumniMatchingEngine.rank env profile _ 10%Z (mkState cache [] t0))
      as [[ranked|] s1]; cbn [fst snd objects] in *.
    + subst out. destruct R as [_ [picked [-> [_ Hp]]]].
      inversion Hp. reflexivity.
    + destruct H as [Hs [Hm _]]. apply EngineFacts.same_objects_length in Hs. cbn in Hs.
      destruct (objects s1); [|discriminate].
      destruct out; [reflexivity | discriminate].
  - destruct (EngineFacts.findMatches_in_spec env profile criteria (Some 0%Z)
                (mkState cache pool t0)) as [out [s' [E H]]].
    unfold AlumniMatchingEngine.findMatches. rewrite E. cbn [fst]. f_equal.
    cbv zeta in H.
    pose proof (EngineFacts.rank_spec env profile
                  (match criteria with
                   | Some c => c
                   | None => AlumniMatchingEngine.getDefaultCriteria
                   end) 0%Z (mkState cache pool t0)) as R.
    unfold wp in R.
    destruct (AlumniMatchingEngine.rank env profile _ 0%Z (mkState cache pool t0))
      as [[ranked|] s1]; cbn [fst snd objects] in *.
    + subst out. destruct R as [_ [picked [-> _]]]. reflexivity.
    + destruct H as [_ [Hm _]]. change (JS.slice0 (objects s1) 0) with (@nil (AlumniProfile num)) in Hm.
      destruct out; [reflexivity | discriminate].
Qed.

(** X28.  The route's cosine has no check of lengths: entries of the
    second embedding beyond the length of the first are ignored, and on
    embeddings of one length its sums are those of the engines' loop. *)
Theorem route_cosine_ignores_extra_entries :
  forall {num} (N : Number num) (e1 e2 extra : list num) (acc : num * num * num),
    (List.length e1 <= List.length e2)%nat ->
    Route.semantic_loop e1 (e2 ++ extra) acc = Route.semantic_loop e1 e2 acc
    /\ (List.length e1 = List.length e2 ->
        Route.semantic_loop e1 e2 acc = AlumniMatchingEngine.cosine_loop e1 e2 acc).
Proof.
  intros num N e1. induction e1 as [|x e1 IH]; intros e2 extra acc H.
  - split; [reflexivity|]. intros _. destruct e2; reflexivity.
  - destruct e2 as [|y e2]; [cbn in H; lia|].
    cbn in H. destruct acc as [[d m1] m2].
    cbn [Route.semantic_loop AlumniMatchingEngine.cosine_loop app tl].
    destruct (IH e2 extra (d + x * y, m1 + x * x, m2 + y * y)%num) as [I1 I2]; [lia|].
    split; [exact I1|]. intro L. apply I2. cbn in L. lia.
Qed.

Lemma route_cosine_ignores_extra_entries_witness :
  Route.semantic_loop (N:=JSNumber) [1; 2]%float ([3; 4] ++ [5; 6])%float (0, 0, 0)%float
  = Route.semantic_loop (N:=JSNumber) [1; 2]%float [3; 4]%float (0, 0, 0)%float.
Proof.
  exact (proj1 (route_cosine_ignores_extra_entries JSNumber [1; 2]%float [3; 4]%float
                  [5; 6]%float (0, 0, 0)%float (le_n 2))).
Defined.

(** ** The cache only grows *)

(** Every entry of [m] is an entry of [m']. *)
Definition cache_extends {V} (m m' : list (string * V)) : Prop :=
forall k v, AlumniMatchingEngine.Map_get m k = Some v ->
            AlumniMatchingEngine.Map_get m' k = Some v.

Lemma cache_extends_refl {V} (m : list (string * V)) : cache_extends m m.
Proof. intros k v H. exact H. Qed.

Lemma cache_extends_trans {V} (m1 m2 m3 : list (string * V)) :
  cache_extends m1 m2 -> cache_extends m2 m3 -> cache_extends m1 m3.
Proof. intros H1 H2 k v H. apply H2, H1, H. Qed.

Lemma Map_get_set_other {V} (m : list (string * V)) (k k0 : string) (v : V) :
  k0 <> k ->
  AlumniMatchingEngine.Map_get (AlumniMatchingEngine.Map_set m k v) k0
  = AlumniMatchingEngine.Map_get m k0.
Proof.
  intro H. apply String.eqb_neq in H.
  induction m as [|[k' v'] r IH]; cbn.
  - rewrite H. reflexivity.
  - destruct (String.eqb k k') eqn:E; cbn.
    + apply String.eqb_eq in E. subst k'. rewrite H. reflexivity.
    + rewrite IH. reflexivity.
Qed.

(** Setting a key that was not there keeps every entry. *)
Lemma cache_extends_set {V} (m : list (string * V)) (k : string) (v : V) :
  AlumniMatchingEngine.Map_get m k = None ->
  cache_extends m (AlumniMatchingEngine.Map_set m k v).
Proof.
  intros H k0 v0 H0.
  destruct (String.eqb_spec k0 k) as [-> | Hk]; [congruence|].
  rewrite Map_get_set_other by exact Hk. exact H0.
Qed.

Section CacheFacts.
Context {num : Type} {N : Number num}.

Lemma generateProfileEmbedding_embeddings (env : Env num) profile (s : State num) :
  embeddings (snd (AlumniMatchingEngine.generateProfileEmbedding env profile s))
  = embeddings s.
Proof.
  unfold AlumniMatchingEngine.generateProfileEmbedding,
    AlumniMatchingEngine.requestEmbedding, try_catch, bind, defined,
    AlumniMatchingEngine.next_tick, ret, throw.
  destruct (AlumniMatchingEngine.createProfileText profile); [|reflexivity].
  destruct (demo_key env); [reflexivity|].
  destruct (embeddings_create env (tick s) s0); reflexivity.
Qed.

Lemma getAlumniEmbedding_extends (env : Env num) alumni (s : State num) :
  cache_extends (embeddings s)
    (embeddings (snd (AlumniMatchingEngine.getAlumniEmbedding env alumni s))).
Proof.
  unfold AlumniMatchingEngine.getAlumniEmbedding, bind, get. cbv beta iota.
  destruct (AlumniMatchingEngine.Map_get (embeddings s) _) eqn:G;
    [apply cache_extends_refl|].
  pose proof (generateProfileEmbedding_embeddings env (Alumni alumni) s) as E.
  destruct (AlumniMatchingEngine.generateProfileEmbedding env (Alumni alumni) s)
    as [[e|] s']; cbn [snd] in E |- *.
  - unfold put, ret. cbn [snd embeddings]. rewrite E. apply cache_extends_set, G.
  - rewrite E. apply cache_extends_refl.
Qed.

Lemma getMockInsights_embeddings (env : Env num) sc (s : State num) :
  embeddings (snd (AlumniMatchingEngine.getMockInsights env sc s)) = embeddings s.
Proof.
  unfold AlumniMatchingEngine.getMockInsights, bind, AlumniMatchingEngine.next_tick, ret.
  destruct (sc >? lit 0.8)%num; [reflexivity|]. destruct (sc >? lit 0.6)%num; reflexivity.
Qed.

Lemma generateMatchInsights_embeddings (env : Env num) seeker alumni sc (s : State num) :
  embeddings (snd (AlumniMatchingEngine.generateMatchInsights env seeker alumni sc s))
  = embeddings s.
Proof.
  unfold AlumniMatchingEngine.generateMatchInsights, try_catch.
  destruct (demo_key env).
  - pose proof (getMockInsights_embeddings env sc s) as E.
    destruct (EngineFacts.getMockInsights_returns env sc s) as [r [s' [H _]]].
    rewrite H in E |- *. exact E.
  - unfold bind, defined, AlumniMatchingEngine.next_tick, ret, throw.
    destruct (skills seeker); [|apply getMockInsights_embeddings].
    destruct (a_skills alumni); [|apply getMockInsights_embeddings].
    destruct (chat_create env (tick s)); [reflexivity|].
    apply (getMockInsights_embeddings env sc
             (mkState (embeddings s) (objects s) (S (tick s)))).
Qed.

Lemma criterion_step_embeddings seeker i (t : AlumniMatchingEngine.Tally) c (s : State num) :
  wp (AlumniMatchingEngine.criterion_step seeker i t c)
     (fun _ s' => embeddings s' = embeddings s) s.
Proof.
  unfold AlumniMatchingEngine.criterion_step, AlumniMatchingEngine.getObject.
  wp_step. wp_step. wp_step. wp_step.
  destruct (nth_error (objects s) i) as [alumni|] eqn:Hi; [|reflexivity].
  destruct (c_type c).
  - wp_step. reflexivity.
  - wp_step. wp_step.
    destruct (AlumniMatchingEngine.calculateSkillComplement seeker alumni) as [sc|];
      [|reflexivity].
    destruct (sc >? lit 0.6)%num.
    + wp_step. wp_step.
      destruct (a_skills alumni) as [sk|]; [|reflexivity].
      destruct (AlumniMatchingEngine.getTopSkills sk) as [sorted top].
      cbv beta iota.
      wp_step. unfold AlumniMatchingEngine.setSkills. wp_step. wp_step. wp_step. wp_step.
      rewrite Hi. wp_step. wp_step. reflexivity.
    + wp_step. reflexivity.
  - wp_step. reflexivity.
  - wp_step. reflexivity.
Qed.

Lemma calculateMatch_extends (env : Env num) seeker i criteria emb (s : State num) :
  wp (AlumniMatchingEngine.calculateMatch env seeker i criteria emb)
     (fun _ s' => cache_extends (embeddings s) (embeddings s')) s.
Proof.
  unfold AlumniMatchingEngine.calculateMatch. wp_step.
  eapply wp_mono;
    [| apply (wp_for_each (AlumniMatchingEngine.criterion_step seeker i)
                (fun _ _ s' => embeddings s' = embeddings s)
                (fun s' => embeddings s' = embeddings s))].
  - intros [t|] s1 H1; [|rewrite H1; apply cache_extends_refl].
    unfold AlumniMatchingEngine.getObject. wp_step. wp_step. wp_step. wp_step.
    destruct (nth_error (objects s1) i) as [a|];
      [|rewrite H1; apply cache_extends_refl].
    wp_step.
    pose proof (getAlumniEmbedding_extends env a s1) as X.
    destruct (EngineFacts.getAlumniEmbedding_returns env a s1) as [e [s2 [He _]]].
    rewrite He in X. cbn [snd] in X.
    apply (EngineFacts.wp_of_run _ _ _ _ _ He). cbv beta iota.
    wp_step.
    set (fs := AlumniMatchingEngine.finalScore _ _ _).
    pose proof (generateMatchInsights_embeddings env seeker a fs s2) as Y.
    destruct (EngineFacts.generateMatchInsights_returns env seeker a fs s2)
      as [r [s3 [Hr _]]].
    rewrite Hr in Y. cbn [snd] in Y.
    apply (EngineFacts.wp_of_run _ _ _ _ _ Hr). cbv beta iota.
    wp_step. rewrite Y, <- H1. exact X.
  - intros done c rest t s1 _ H1.
    eapply wp_mono; [|apply criterion_step_embeddings].
    intros [t'|] s' H; cbv beta iota; rewrite H; exact H1.
  - reflexivity.
Qed.

Lemma rank_extends (env : Env num) profile criteria limit (s : State num) :
  wp (AlumniMatchingEngine.rank env profile criteria limit)
     (fun _ s' => cache_extends (embeddings s) (embeddings s')) s.
Proof.
  unfold AlumniMatchingEngine.rank. wp_step.
  pose proof (generateProfileEmbedding_embeddings env profile s) as E0.
  destruct (EngineFacts.generateProfileEmbedding_returns env profile s) as [emb [s0 [He _]]].
  rewrite He in E0. cbn [snd] in E0.
  apply (EngineFacts.wp_of_run _ _ _ _ _ He). cbv beta iota.
  wp_step. wp_step. wp_step.
  eapply wp_mono;
    [| apply (wp_for_each _
                (fun _ (_ : list (AlumniMatch num)) s' =>
                   cache_extends (embeddings s) (embeddings s'))
                (fun s' => cache_extends (embeddings s) (embeddings s')))].
  - intros [ms|] s' H; [wp_step; exact H | exact H].
  - intros done i rest ms s1 _ H1.
    wp_step. eapply wp_mono; [|apply calculateMatch_extends].
    intros [m|] s2 H2; cbv beta iota.
    + wp_step. eapply cache_extends_trans; eassumption.
    + eapply cache_extends_trans; eassumption.
  - rewrite E0. apply cache_extends_refl.
Qed.

Lemma getFallbackMatches_embeddings (env : Env num) limit (s : State num) :
  wp (AlumniMatchingEngine.getFallbackMatches env limit)
     (fun _ s' => embeddings s' = embeddings s) s.
Proof.
  unfold AlumniMatchingEngine.getFallbackMatches. wp_step. wp_step.
  eapply wp_mono;
    [| apply (wp_for_each _
                (fun _ (_ : list (AlumniMatch num)) s' => embeddings s' = embeddings s)
                (fun s' => embeddings s' = embeddings s))].
  - intros [ms|] s' H; exact H.
  - intros done a rest ms s1 _ H1.
    unfold AlumniMatchingEngine.fallbackMatch, AlumniMatchingEngine.next_tick.
    wp_step. wp_step. unfold wp. cbn. exact H1.
  - reflexivity.
Qed.
End CacheFacts.

(** X29.  [findMatches] never overwrites or drops an embedding it has
    cached: every entry of the [embeddings] map before the call is an
    entry, with the same vector, after it, whether the ranking completes
    or falls back.  (So an embedding cached for an identifier serves every
    later call.) *)
Theorem findMatches_keeps_cached_embeddings :
  forall {num} (N : Number num) (env : Env num) profile criteria limit (s : State num)
         (key : string) (vector : list num),
    AlumniMatchingEngine.Map_get (embeddings s) key = Some vector ->
    AlumniMatchingEngine.Map_get
      (embeddings (snd (AlumniMatchingEngine.findMatches_in env profile criteria limit s))) key
    = Some vector.
Proof.
  intros num N env profile criteria limit s key vector H.
  assert (G : cache_extends (embeddings s)
                (embeddings (snd (AlumniMatchingEngine.findMatches_in env profile criteria
                                    limit s)))).
  { unfold AlumniMatchingEngine.findMatches_in, try_catch.
    set (crit := match criteria with
                 | Some c => c
                 | None => AlumniMatchingEngine.getDefaultCriteria
                 end).
    set (lim := match limit with Some l => l | None => 10%Z end).
    pose proof (rank_extends env profile crit lim s) as R. unfold wp in R.
    destruct (AlumniMatchingEngine.rank env profile crit lim s) as [[ranked|] s1];
      cbn [fst snd] in R |- *; [exact R|].
    pose proof (getFallbackMatches_embeddings env lim s1) as F. unfold wp in F.
    rewrite F. exact R. }
  apply G, H.
Qed.

Lemma findMatches_keeps_cached_embeddings_witness :
  AlumniMatchingEngine.Map_get
    (embeddings
       (snd (AlumniMatchingEngine.findMatches_in (demoEnv 0.25%float) casey None None
               (mkState AlumniMatchingEngine.loadMockEmbeddings [alex; blake] 0))))
    "data science analyst"
  = Some (AlumniMatchingEngine.getMockEmbedding "data science analyst").
Proof.
  apply (findMatches_keeps_cached_embeddings JSNumber (demoEnv 0.25%float) casey None None
           (mkState AlumniMatchingEngine.loadMockEmbeddings [alex; blake] 0)).
  reflexivity.
Defined.

(** ** The kind of a match *)

